(** * LiteLLM chat wrapper: usage quotas, response cache and chat orchestration

    A shallow embedding of [auth_dev.py] and [main_dev.py] (the developer
    demo, the most complete version of the application) and of the chat
    endpoint of [v1.2.0/main.py], together with the properties of the usage
    tracker, the response cache, the file content extractor, the OAuth
    callback and the text path of [POST /api/chat].  The callback of
    [v1.2.0/auth.py] reads as the one of [auth_dev.py] up to the exchange of
    the code; it differs in the identity it builds afterwards.

    Conventions of the embedding.
    - Python [str] is [string], the UTF-8 encoding of the text, one
      [ascii] per byte.  Python [int] is [Z], [bytes] is [list byte].
    - A value parsed from JSON is a [json]; the operators the handlers apply
      to such values ([in], subscription, [.get], truth value, [.split]) are
      written out on every shape a value can have, raising the exception
      Python raises.
    - A computation that can raise returns a [pyresult]; handlers that also
      mutate the process-wide dictionaries run in the monad [M], in which
      the state written before an exception survives it.
    - The dictionaries [chat_sessions] and [user_usage] are finite maps;
      [response_cache], whose key order is observed by the eviction, is an
      insertion-ordered association list; [users], which is only written,
      is the list of the assignments made to it.
    - External collaborators (the gateway, Google, base64 and UTF-8 codecs,
      the optional document libraries) are parameters. *)

From Stdlib Require Import ZArith String Ascii List Bool Lia DecimalString PrimFloat.
From Stdlib.Strings Require Import Byte.
From stdpp Require Import base tactics option list strings gmap.

Local Open Scope Z_scope.

(** ** Python exceptions and results *)

Inductive exn_class :=
| HTTPException (status_code : Z)
| HTTPStatusError (status_code : Z) (text : string)
| TimeoutException
| ConnectError
| JSONDecodeError
| UnicodeDecodeError
| KeyError
| IndexError
| TypeError
| AttributeError
| OtherException (name : string).

(** An exception: its class and [str(e)]. *)
Record exn := Exn { exn_class_of : exn_class; exn_str : string }.

(** [type(e).__name__] *)
Definition exn_type_name (e : exn) : string :=
  match exn_class_of e with
  | HTTPException _ => "HTTPException"
  | HTTPStatusError _ _ => "HTTPStatusError"
  | TimeoutException => "TimeoutException"
  | ConnectError => "ConnectError"
  | JSONDecodeError => "JSONDecodeError"
  | UnicodeDecodeError => "UnicodeDecodeError"
  | KeyError => "KeyError"
  | IndexError => "IndexError"
  | TypeError => "TypeError"
  | AttributeError => "AttributeError"
  | OtherException name => name
  end.

Inductive pyresult (A : Type) :=
| Ok (a : A)
| Raise (e : exn).
Arguments Ok {A} a.
Arguments Raise {A} e.

Definition is_ok {A} (r : pyresult A) : bool :=
  match r with Ok _ => true | Raise _ => false end.

Definition rbind {A B} (r : pyresult A) (k : A → pyresult B) : pyresult B :=
  match r with
  | Ok a => k a
  | Raise e => Raise e
  end.

(** [try: r except Exception as e: h e] *)
Definition rcatch {A} (r : pyresult A) (h : exn → pyresult A) : pyresult A :=
  match r with
  | Ok a => Ok a
  | Raise e => h e
  end.

Declare Scope py_scope.
Delimit Scope py_scope with py.
Notation "x <- r ;; k" := (rbind r (fun x => k))
  (at level 100, r at next level, right associativity) : py_scope.

(** ** Python strings

    A [str] is held as its UTF-8 encoding, one [ascii] per byte, which is
    how the texts of the handlers are written here.  Comparing, joining,
    searching for a text and splitting at an ASCII character are the same
    on the bytes as on the characters; counting, slicing, white space and
    lower case go by the characters. *)

Module PyStr.

Definition code (c : ascii) : N := N_of_ascii c.

(** A byte that continues a character: 0x80-0xBF. *)
Definition is_continuation (c : ascii) : bool :=
  ((128 <=? code c) && (code c <=? 191))%N.

(** [len(s)]: the characters, one per byte that starts one. *)
Fixpoint len (s : string) : nat :=
  match s with
  | EmptyString => 0%nat
  | String c s' => if is_continuation c then len s' else S (len s')
  end.

(** [s.isascii()] *)
Fixpoint is_ascii (s : string) : bool :=
  match s with
  | EmptyString => true
  | String c s' => (code c <? 128)%N && is_ascii s'
  end.

(** The lower case of an ASCII character: A-Z move up by 32. *)
Definition lower_ascii (c : ascii) : ascii :=
  if ((65 <=? code c) && (code c <=? 90))%N then ascii_of_N (code c + 32) else c.

(** The bytes [c d] are a capital of U+00C0-U+00DE, the multiplication sign
    U+00D7 apart: 0xC3 and 0x80-0x9E without 0x97. *)
Definition is_latin1_capital (c d : ascii) : bool :=
  ((code c =? 195) && (128 <=? code d) && (code d <=? 158) && negb (code d =? 151))%N.

(** The bytes of U+0130, the capital I with a dot above: 0xC4 0xB0. *)
Definition is_dotted_capital_i (c d : ascii) : bool :=
  ((code c =? 196) && (code d =? 176))%N.

(** The bytes of U+212A, the Kelvin sign: 0xE2 0x84 0xAA. *)
Definition is_kelvin_sign (c d e : ascii) : bool :=
  ((code c =? 226) && (code d =? 132) && (code e =? 170))%N.

(** [s.lower()] for the characters up to U+00FF and for the two characters
    beyond them whose lower case has an ASCII letter: a Latin-1 capital
    moves up by 32 as A-Z do, U+0130 becomes [i] and the combining dot
    U+0307 (0xCC 0x87), U+212A becomes [k].  The other characters are left
    as they are; [str.lower] lowers the capitals among them, a capital
    sigma by its place in the word, and what it puts for them is beyond
    ASCII as they are.  So the ASCII characters of [lower s] and what lies
    between them are those of [s.lower()]: an ASCII text is found in the
    one where it is found in the other, and the two have the same text
    after the last dot when either has an ASCII one.  The handlers ask
    nothing else of a lower-cased text. *)
Fixpoint lower (s : string) : string :=
  match s with
  | EmptyString => EmptyString
  | String c s1 =>
      match s1 with
      | EmptyString => String (lower_ascii c) EmptyString
      | String d s2 =>
          if is_latin1_capital c d then
            String c (String (ascii_of_N (code d + 32)) (lower s2))
          else if is_dotted_capital_i c d then
            String "i" (String (ascii_of_N 204) (String (ascii_of_N 135) (lower s2)))
          else
            match s2 with
            | EmptyString => String (lower_ascii c) (lower s1)
            | String e s3 =>
                if is_kelvin_sign c d e then String "k" (lower s3)
                else String (lower_ascii c) (lower s1)
            end
      end
  end.

(** [s.split(sep)] for a one-character separator: never empty. *)
Fixpoint split_on (sep : ascii) (s : string) : list string :=
  match s with
  | EmptyString => [EmptyString]
  | String c s' =>
      if Ascii.eqb c sep then EmptyString :: split_on sep s'
      else match split_on sep s' with
           | f :: fs => String c f :: fs
           | [] => [String c EmptyString]
           end
  end.

(** [l[-1]] of a list of strings known to be non-empty. *)
Definition last_field (l : list string) : string := List.last l EmptyString.

(** [needle in hay] on strings. *)
Fixpoint contains (needle hay : string) : bool :=
  String.prefix needle hay ||
  match hay with
  | EmptyString => false
  | String _ hay' => contains needle hay'
  end.

(** The number of bytes of the white space character that [s] starts
    with, 0 when it starts with none.  White space is what [str.isspace]
    holds true: U+0009-U+000D, U+001C-U+0020, U+0085, U+00A0, U+1680,
    U+2000-U+200A, U+2028, U+2029, U+202F, U+205F and U+3000. *)
Definition space_width (s : string) : nat :=
  match s with
  | EmptyString => 0%nat
  | String c s1 =>
      let n := code c in
      if (((9 <=? n) && (n <=? 13)) || ((28 <=? n) && (n <=? 32)))%N then 1%nat
      else
        match s1 with
        | EmptyString => 0%nat
        | String d s2 =>
            let m := code d in
            if ((n =? 194) && ((m =? 133) || (m =? 160)))%N then 2%nat
            else
              match s2 with
              | EmptyString => 0%nat
              | String e _ =>
                  let k := code e in
                  if (((n =? 225) && (m =? 154) && (k =? 128))
                      || ((n =? 226) && (m =? 128)
                          && (((128 <=? k) && (k <=? 138))
                              || (k =? 168) || (k =? 169) || (k =? 175)))
                      || ((n =? 226) && (m =? 129) && (k =? 159))
                      || ((n =? 227) && (m =? 128) && (k =? 128)))%N
                  then 3%nat else 0%nat
              end
        end
  end.

(** [s.split()]: the maximal runs of characters that are not white space.
    [skip] counts the bytes left of the white space character being passed;
    [cur] is the run being read, reversed. *)
Fixpoint split_ws_go (skip : nat) (cur : option string) (s : string) : list string :=
  match s with
  | EmptyString => option_list (String.rev <$> cur)
  | String c s' =>
      match skip with
      | S skip' => split_ws_go skip' cur s'
      | O =>
          match space_width s with
          | S skip' => option_list (String.rev <$> cur) ++ split_ws_go skip' None s'
          | O => split_ws_go O (Some (String c (default EmptyString cur))) s'
          end
      end
  end.
Definition split_ws (s : string) : list string := split_ws_go O None s.

(** The truth value of [s.strip()]: some character is not white space. *)
Definition strip_nonempty (s : string) : bool :=
  match split_ws s with [] => false | _ => true end.

(** [s[:n]]: the bytes of the first [n] characters. *)
Fixpoint take (n : nat) (s : string) : string :=
  match s with
  | EmptyString => EmptyString
  | String c s' =>
      if is_continuation c then String c (take n s')
      else match n with
           | O => EmptyString
           | S n' => String c (take n' s')
           end
  end.

(** [sep.join(l)] *)
Definition join (sep : string) (l : list string) : string := String.concat sep l.

(** [str(z)] for an [int]. *)
Definition of_Z (z : Z) : string := NilZero.string_of_int (Z.to_int z).

(** [bool(s)] *)
Definition truthy (s : string) : bool :=
  match s with EmptyString => false | _ => true end.

(** [re.search(r"'([^']+)'", s)]: the group of the leftmost match. *)
Fixpoint until_quote (s : string) : option string :=
  match s with
  | EmptyString => None
  | String c s' =>
      if Ascii.eqb c "'" then Some EmptyString
      else String c <$> until_quote s'
  end.

Fixpoint search_quoted (s : string) : option string :=
  match s with
  | EmptyString => None
  | String c s' =>
      if Ascii.eqb c "'" then
        match until_quote s' with
        | Some EmptyString => search_quoted s'
        | Some grp => Some grp
        | None => search_quoted s'
        end
      else search_quoted s'
  end.

End PyStr.

(** ** Python dictionaries with string keys

    A [dict] keeps its keys in insertion order: assigning to a key that is
    present keeps the key's place, assigning to a new key appends it, and
    [list(d.keys())] lists the keys in that order. *)

Module PyDict.

Definition t (V : Type) : Type := list (string * V).

Definition empty {V} : t V := [].

Definition keys {V} (d : t V) : list string := map fst d.

(** [len(d)] *)
Definition len {V} (d : t V) : nat := length d.

(** [d.get(k)] *)
Fixpoint get {V} (k : string) (d : t V) : option V :=
  match d with
  | [] => None
  | (k', v) :: d' => if String.eqb k' k then Some v else get k d'
  end.

(** [k in d] *)
Definition mem {V} (k : string) (d : t V) : bool :=
  match get k d with Some _ => true | None => false end.

(** [d[k] = v] *)
Fixpoint set {V} (k : string) (v : V) (d : t V) : t V :=
  match d with
  | [] => [(k, v)]
  | (k', v') :: d' =>
      if String.eqb k' k then (k', v) :: d' else (k', v') :: set k v d'
  end.

(** [del d[k]], a [KeyError] when the key is absent *)
Fixpoint del {V} (k : string) (d : t V) : pyresult (t V) :=
  match d with
  | [] => Raise (Exn KeyError ("'" +:+ k +:+ "'"))
  | (k', v') :: d' =>
      if String.eqb k' k then Ok d'
      else (d'' <- del k d' ;; Ok ((k', v') :: d''))%py
  end.

(** [for k in ks: del d[k]] *)
Fixpoint del_all {V} (ks : list string) (d : t V) : pyresult (t V) :=
  match ks with
  | [] => Ok d
  | k :: ks' => (d' <- del k d ;; del_all ks' d')%py
  end.

End PyDict.

(** ** JSON values as Python objects *)

#[warnings="-register-all"]
Inductive json :=
| JNull
| JBool (b : bool)
| JInt (z : Z)
| JFloat (f : float)
| JStr (s : string)
| JList (l : list json)
| JDict (d : list (string * json)).

Module Json.

(** [type(v).__name__] *)
Definition type_name (v : json) : string :=
  match v with
  | JNull => "NoneType"
  | JBool _ => "bool"
  | JInt _ => "int"
  | JFloat _ => "float"
  | JStr _ => "str"
  | JList _ => "list"
  | JDict _ => "dict"
  end.

(** [bool(v)] *)
Definition truthy (v : json) : bool :=
  match v with
  | JNull => false
  | JBool b => b
  | JInt z => negb (z =? 0)
  | JFloat f => negb (PrimFloat.eqb f PrimFloat.zero)
  | JStr s => PyStr.truthy s
  | JList l => match l with [] => false | _ => true end
  | JDict d => match d with [] => false | _ => true end
  end.

(** [v == s] for a string [s]: only an equal string is equal to it. *)
Definition eq_str (v : json) (s : string) : bool :=
  match v with
  | JStr s' => String.eqb s' s
  | _ => false
  end.

(** [s in v] *)
Definition contains (s : string) (v : json) : pyresult bool :=
  match v with
  | JStr hay => Ok (PyStr.contains s hay)
  | JList l => Ok (existsb (fun x => eq_str x s) l)
  | JDict d => Ok (PyDict.mem s d)
  | _ => Raise (Exn TypeError
                 ("argument of type '" +:+ type_name v +:+ "' is not iterable"))
  end.

(** [v[k]] for a string [k] *)
Definition getitem (v : json) (k : string) : pyresult json :=
  match v with
  | JDict d =>
      match PyDict.get k d with
      | Some x => Ok x
      | None => Raise (Exn KeyError ("'" +:+ k +:+ "'"))
      end
  | JList _ => Raise (Exn TypeError "list indices must be integers or slices, not str")
  | JStr _ => Raise (Exn TypeError "string indices must be integers, not 'str'")
  | _ => Raise (Exn TypeError ("'" +:+ type_name v +:+ "' object is not subscriptable"))
  end.

(** [v[0]] *)
Definition getitem0 (v : json) : pyresult json :=
  match v with
  | JList (x :: _) => Ok x
  | JList [] => Raise (Exn IndexError "list index out of range")
  | JStr (String c s) => Ok (JStr (PyStr.take 1 (String c s)))
  | JStr EmptyString => Raise (Exn IndexError "string index out of range")
  | JDict _ => Raise (Exn KeyError "0")
  | _ => Raise (Exn TypeError ("'" +:+ type_name v +:+ "' object is not subscriptable"))
  end.

Definition no_attribute {A} (v : json) (attr : string) : pyresult A :=
  Raise (Exn AttributeError
           ("'" +:+ type_name v +:+ "' object has no attribute '" +:+ attr +:+ "'")).

(** [v.get(k, default)] *)
Definition get (v : json) (k : string) (default : json) : pyresult json :=
  match v with
  | JDict d => Ok (from_option id default (PyDict.get k d))
  | _ => no_attribute v "get"
  end.

(** [hash(v)] returns: lists and dictionaries cannot be keys. *)
Definition hashable (v : json) : bool :=
  match v with
  | JList _ | JDict _ => false
  | _ => true
  end.

(** [v.split()] *)
Definition split (v : json) : pyresult (list string) :=
  match v with
  | JStr s => Ok (PyStr.split_ws s)
  | _ => no_attribute v "split"
  end.

(** [re.search(r"'([^']+)'", v)] and, on a match, [.group(1)] *)
Definition search_quoted (v : json) : pyresult (option string) :=
  match v with
  | JStr s => Ok (PyStr.search_quoted s)
  | _ => Raise (Exn TypeError
                 ("expected string or bytes-like object, got '" +:+ type_name v +:+ "'"))
  end.

End Json.

(** ** The process-wide state *)

Inductive role := User | Assistant.

(** One chat turn, a Python dictionary with the keys ["role"], ["content"],
    ["file_name"] and, on some turns, ["is_image_request"] or
    ["is_image_response"] ([None] here when the key is absent). *)
Record turn := Turn {
  turn_role : role;
  turn_content : json;
  turn_file_name : option string;
  turn_is_image_request : option bool;
  turn_is_image_response : option bool
}.

(** A record of [user_usage]; its ["last_reset"] entry is always [None]. *)
Record usage := Usage {
  request_count : Z;
  token_count : Z
}.

(** The identity built by the OAuth callback.  Its ["id"], ["name"] and
    ["picture"] entries are whatever the profile holds.  Its ["usage"] entry
    is the usage record of the e-mail address as the callback found it; the
    cookie session carries a copy, and no handler reads the entry
    afterwards. *)
Record user := UserIdentity {
  user_id : json;
  user_email : string;
  user_name : json;
  user_picture : json;
  user_is_admin : bool;
  user_usage_at_login : usage
}.

(** The requests a handler sends to the gateway, by what varies in them:
    the chat completion of the text path, the image generation, and the
    chat completion the image path falls back to. *)
Inductive gateway_call :=
| ChatCompletions (model user_content : string)
| ImagesGenerations (model prompt : string)
| ImageFallbackChat (model prompt : string).

(** What the handlers do to the outside world, logged in order: the calls
    to the gateway and the uploads handed to the base64 decoder. *)
Inductive event :=
| EvGateway (call : gateway_call)
| EvFileDecode (file_content file_name : string).

(** The process-wide dictionaries.  [users] is written and never read: it
    is held as the assignments [users[id] = user] made so far, in order,
    each with the identity as it was then. *)
Record state := State {
  chat_sessions : gmap string (list turn);
  response_cache : PyDict.t json;
  user_usage : gmap string usage;
  users : list (json * user);
  trace : list event
}.

Definition initial_state : state :=
  State ∅ PyDict.empty ∅ [] [].

Definition set_chat_sessions (f : gmap string (list turn) → gmap string (list turn))
    (s : state) : state :=
  State (f (chat_sessions s)) (response_cache s) (user_usage s) (users s) (trace s).
Definition set_response_cache (c : PyDict.t json) (s : state) : state :=
  State (chat_sessions s) c (user_usage s) (users s) (trace s).
Definition set_user_usage (f : gmap string usage → gmap string usage) (s : state) : state :=
  State (chat_sessions s) (response_cache s) (f (user_usage s)) (users s) (trace s).
Definition set_users (f : list (json * user) → list (json * user)) (s : state) : state :=
  State (chat_sessions s) (response_cache s) (user_usage s) (f (users s)) (trace s).
Definition log_event (e : event) (s : state) : state :=
  State (chat_sessions s) (response_cache s) (user_usage s) (users s) (trace s ++ [e]).

(** The signed cookie session of a request ([request.session]). *)
Record web_session := WebSession {
  session_user : option user;
  session_oauth_state : option string
}.

(** ** Handlers that raise and mutate: the monad [M] *)

Definition M (A : Type) : Type := state → pyresult A * state.

Definition mret {A} (a : A) : M A := fun s => (Ok a, s).
Definition mbind {A B} (m : M A) (k : A → M B) : M B :=
  fun s => match m s with
           | (Ok a, s') => k a s'
           | (Raise e, s') => (Raise e, s')
           end.
(** A computation that only raises or returns. *)
Definition lift {A} (r : pyresult A) : M A := fun s => (r, s).
(** A statement that only writes the state. *)
Definition modify (f : state → state) : M unit := fun s => (Ok tt, f s).
Definition gets {A} (f : state → A) : M A := fun s => (Ok (f s), s).
(** [try: m except Exception as e: h e]; what [m] wrote stays written. *)
Definition mcatch {A} (m : M A) (h : exn → M A) : M A :=
  fun s => match m s with
           | (Ok a, s') => (Ok a, s')
           | (Raise e, s') => h e s'
           end.

Declare Scope m_scope.
Delimit Scope m_scope with M.
Notation "x <- m ;; k" := (mbind m (fun x => k))
  (at level 100, m at next level, right associativity) : m_scope.
Notation "m ;;; k" := (mbind m (fun _ => k))
  (at level 100, right associativity) : m_scope.

(** ** auth_dev.py *)

Record config := Config {
  ADMIN_EMAIL : string;
  DEMO_REQUEST_LIMIT : Z;
  DEMO_TOKEN_LIMIT : Z;
  GOOGLE_CLIENT_ID : option string;
  GOOGLE_REDIRECT_URI : option string
}.

(** The configuration when the environment sets none of the options. *)
Definition default_config : config :=
  Config "dinhdobathi@gmail.com" 2 100 None None.

Record redirect := RedirectResponse { url : string; status_code : Z }.

(** The profile as the callback reads it: the ["id"] entry, any value;
    the ["email"] entry, a string; the ["name"] and ["picture"] entries,
    any values, [None] when the profile has no such entry. *)
Record userinfo := UserInfo {
  info_id : json;
  info_email : string;
  info_name : option json;
  info_picture : option json
}.

(** Google's answers during the callback: the token endpoint, given the
    authorization code, and the userinfo endpoint, given the access token.
    Each stands for the request, [raise_for_status()] and [.json()], the
    second also for the reading of ["id"] and ["email"], which raises on a
    profile that is no object or lacks one of them.  The e-mail address of
    a profile is taken to be a string, as the keys of [user_usage] are:
    with an address that cannot be a key, [get_user_usage] raises before
    anything is written, which is the case of a failed reading here. *)
Record google := Google {
  post_token : string → pyresult json;
  get_userinfo : json → pyresult userinfo
}.

(** The query string of [GET /auth/callback] with the cookie session. *)
Record callback_request := CallbackRequest {
  query_code : option string;
  query_state : option string;
  callback_session : web_session
}.

Section Auth.
Variable cfg : config.

Definition is_admin_user (email : string) : bool :=
  String.eqb email (ADMIN_EMAIL cfg).

(** Returns the record of [email], creating a zeroed one when absent. *)
Definition get_user_usage (email : string) (s : state) : usage * state :=
  match user_usage s !! email with
  | Some u => (u, s)
  | None => (Usage 0 0, set_user_usage (insert email (Usage 0 0)) s)
  end.

Definition request_limit_message : string :=
  "Demo limit reached (" +:+ PyStr.of_Z (DEMO_REQUEST_LIMIT cfg)
    +:+ " requests). Contact admin for full access.".

Definition token_limit_message : string :=
  "Demo token limit reached (" +:+ PyStr.of_Z (DEMO_TOKEN_LIMIT cfg)
    +:+ " tokens). Contact admin for full access.".

Definition check_demo_limits (email : string) (s : state) : (bool * string) * state :=
  if is_admin_user email then ((true, EmptyString), s)
  else
    let '(usage, s) := get_user_usage email s in
    if DEMO_REQUEST_LIMIT cfg <=? request_count usage then
      ((false, request_limit_message), s)
    else if DEMO_TOKEN_LIMIT cfg <=? token_count usage then
      ((false, token_limit_message), s)
    else ((true, EmptyString), s).

Definition increment_usage (email : string) (estimated_tokens : Z) (s : state) : state :=
  if is_admin_user email then s
  else
    let '(usage, s) := get_user_usage email s in
    set_user_usage
      (insert email (Usage (request_count usage + 1)
                           (token_count usage + estimated_tokens))) s.

Definition get_current_user (session : web_session) : option user :=
  session_user session.

Definition require_auth (session : web_session) : pyresult user :=
  match get_current_user session with
  | None => Raise (Exn (HTTPException 401) "Authentication required")
  | Some user => Ok user
  end.

Definition fmt_opt (o : option string) : string := from_option id "None" o.

(** [state] is the value drawn from [secrets.token_urlsafe(32)]. *)
Definition login_google (state : string) (session : web_session)
    : redirect * web_session :=
  let session := WebSession (session_user session) (Some state) in
  let auth_url :=
    "https://accounts.google.com/o/oauth2/v2/auth?"
    +:+ "client_id=" +:+ fmt_opt (GOOGLE_CLIENT_ID cfg) +:+ "&"
    +:+ "redirect_uri=" +:+ fmt_opt (GOOGLE_REDIRECT_URI cfg) +:+ "&"
    +:+ "scope=openid%20email%20profile&"
    +:+ "response_type=code&"
    +:+ "state=" +:+ state in
  (RedirectResponse auth_url 302, session).

(** The callback returns the redirect and the cookie session it leaves. *)
Definition auth_callback (g : google) (request : callback_request)
    : state → (redirect * web_session) * state :=
  let session := callback_session request in
  let code := query_code request in
  let state := query_state request in
  if negb (bool_decide (state = session_oauth_state session)) then
    fun s => ((RedirectResponse "/login?error=invalid_state" 302, session), s)
  else
    match code with
    | None | Some EmptyString =>
        fun s => ((RedirectResponse "/login?error=no_code" 302, session), s)
    | Some code =>
        fun s =>
          let exchanged :=
            (token_info <- post_token g code ;;
             access_token <- Json.getitem token_info "access_token" ;;
             get_userinfo g access_token)%py in
          match exchanged with
          | Ok user_info =>
              let '(usage, s) := get_user_usage (info_email user_info) s in
              let user := UserIdentity
                            (info_id user_info)
                            (info_email user_info)
                            (default (JStr EmptyString) (info_name user_info))
                            (default (JStr EmptyString) (info_picture user_info))
                            (is_admin_user (info_email user_info))
                            usage in
              (* request.session['user'] = user *)
              let session := WebSession (Some user) (session_oauth_state session) in
              (* users[user['id']] = user: a TypeError, caught by the handler,
                 when the id cannot be a key *)
              if Json.hashable (user_id user) then
                let s := set_users (fun assigned => assigned ++ [(user_id user, user)]) s in
                (* request.session.pop('oauth_state', None) *)
                ((RedirectResponse "/" 302,
                  WebSession (session_user session) None), s)
              else
                ((RedirectResponse "/login?error=auth_failed" 302, session), s)
          | Raise _ =>
              ((RedirectResponse "/login?error=auth_failed" 302, session), s)
          end
    end.

Definition logout (session : web_session) : redirect * web_session :=
  (RedirectResponse "/login" 302, WebSession None None).

End Auth.

(** ** main_dev.py: the file content extractor *)

(** What [PIL.Image.open] exposes of an image. *)
Record image := Image {
  image_format : option string;
  image_size : Z * Z;
  image_mode : string
}.

(** The libraries imported together in one [try]: python-docx, openpyxl and
    Pillow.  [Document] yields the paragraph texts; [load_workbook] yields,
    per sheet, its name and its rows of cells, a cell being [None] or the
    value already rendered by [str]. *)
Record office_libs := OfficeLibs {
  Document : list byte → pyresult (list string);
  load_workbook : list byte → pyresult (list (string * list (list (option string))));
  Image_open : list byte → pyresult image
}.

(** The codecs and the optional libraries of the running process.  A library
    whose import failed is [None], so [PDF_AVAILABLE] and [IMAGE_AVAILABLE]
    are the flags of the two guarded imports.  [PdfReader] yields the pages,
    each page the outcome of its [extract_text()]. *)
Record platform := Platform {
  utf8_decode : list byte → option string;
  b64decode : string → pyresult (list byte);
  PyPDF2 : option (list byte → pyresult (list (pyresult string)));
  office : option office_libs
}.

Definition text_extensions : list string :=
  ["txt"; "json"; "yaml"; "yml"; "md"; "csv"; "log"].
Definition excel_extensions : list string := ["xlsx"; "xls"].
Definition image_extensions : list string :=
  ["jpg"; "jpeg"; "png"; "gif"; "bmp"; "webp"].

(** [x in l] for a list of strings *)
Definition str_in (x : string) (l : list string) : bool :=
  existsb (String.eqb x) l.

Definition newline : string := String (ascii_of_N 10) EmptyString.
Definition tab : string := String (ascii_of_N 9) EmptyString.

Section Files.
Variable P : platform.

Definition PDF_AVAILABLE : bool := bool_decide (is_Some (PyPDF2 P)).
Definition IMAGE_AVAILABLE : bool := bool_decide (is_Some (office P)).

(** [file_name.lower().split('.')[-1]] *)
Definition file_extension_of (file_name : string) : string :=
  PyStr.last_field (PyStr.split_on "." (PyStr.lower file_name)).

(** The loop over [enumerate(pdf_reader.pages, 1)]. *)
Fixpoint pdf_pages (page_num : Z) (pages : list (pyresult string))
    : pyresult (list string) :=
  match pages with
  | [] => Ok []
  | page :: pages' =>
      (text <- page ;;
       rest <- pdf_pages (page_num + 1) pages' ;;
       Ok (("--- Page " +:+ PyStr.of_Z page_num +:+ " ---") :: text :: rest))%py
  end.

Definition docx_paragraphs (paragraphs : list string) : list string :=
  List.filter PyStr.strip_nonempty paragraphs.

Definition excel_row (row : list (option string)) : string :=
  PyStr.join tab (map (default EmptyString) row).

Definition excel_rows (rows : list (list (option string))) : list string :=
  map excel_row (List.filter (existsb (fun cell => bool_decide (is_Some cell))) rows).

Definition excel_sheets (sheets : list (string * list (list (option string))))
    : list string :=
  concat (map (fun '(sheet_name, rows) =>
                 ("--- Sheet: " +:+ sheet_name +:+ " ---") :: excel_rows rows) sheets).

Definition image_analysis (image : image) (file_name : string) : string :=
  newline +:+ "Image Analysis:" +:+ newline
  +:+ "- Format: " +:+ fmt_opt (image_format image) +:+ newline
  +:+ "- Size: " +:+ PyStr.of_Z (fst (image_size image)) +:+ "x"
                 +:+ PyStr.of_Z (snd (image_size image)) +:+ " pixels" +:+ newline
  +:+ "- Mode: " +:+ image_mode image +:+ newline
  +:+ "- File: " +:+ file_name +:+ newline.

(** A name bound by a guarded import; unbound when the import failed. *)
Definition imported {A} (name : string) (lib : option A) : pyresult A :=
  match lib with
  | Some l => Ok l
  | None => Raise (Exn (OtherException "NameError")
                    ("name '" +:+ name +:+ "' is not defined"))
  end.

(** [file_data.decode('utf-8')] *)
Definition decode_utf8 (file_data : list byte) : pyresult string :=
  match utf8_decode P file_data with
  | Some text => Ok text
  | None => Raise (Exn UnicodeDecodeError "'utf-8' codec can't decode bytes")
  end.

(** [try: r except UnicodeDecodeError: h] *)
Definition catch_unicode {A} (r : pyresult A) (h : pyresult A) : pyresult A :=
  match r with
  | Raise (Exn UnicodeDecodeError _) => h
  | _ => r
  end.

Definition process_file_content (file_data : list byte) (file_name : string)
    : pyresult string :=
  rcatch
    (let file_extension := file_extension_of file_name in
     (* Text files *)
     if str_in file_extension text_extensions then
       catch_unicode
         (decode_utf8 file_data)
         (Ok ("[Binary text file: " +:+ file_name +:+ "]"))
     (* PDF files *)
     else if String.eqb file_extension "pdf" && PDF_AVAILABLE then
       rcatch
         (PdfReader <- imported "PyPDF2" (PyPDF2 P) ;;
          pages <- PdfReader file_data ;;
          text_content <- pdf_pages 1 pages ;;
          Ok (PyStr.join newline text_content))%py
         (fun e => Ok ("[PDF processing error: " +:+ exn_str e +:+ "]"))
     (* Word documents *)
     else if String.eqb file_extension "docx" && IMAGE_AVAILABLE then
       rcatch
         (lib <- imported "Document" (office P) ;;
          paragraphs <- Document lib file_data ;;
          Ok (PyStr.join newline (docx_paragraphs paragraphs)))%py
         (fun e => Ok ("[DOCX processing error: " +:+ exn_str e +:+ "]"))
     (* Excel files *)
     else if str_in file_extension excel_extensions && IMAGE_AVAILABLE then
       rcatch
         (lib <- imported "openpyxl" (office P) ;;
          sheets <- load_workbook lib file_data ;;
          Ok (PyStr.join newline (excel_sheets sheets)))%py
         (fun e => Ok ("[Excel processing error: " +:+ exn_str e +:+ "]"))
     (* Image files *)
     else if str_in file_extension image_extensions && IMAGE_AVAILABLE then
       rcatch
         (lib <- imported "Image" (office P) ;;
          image <- Image_open lib file_data ;;
          Ok (image_analysis image file_name))%py
         (fun e => Ok ("[Image processing error: " +:+ exn_str e +:+ "]"))
     else Ok ("[Unsupported file type: " +:+ file_extension +:+ "]"))
    (fun e => Ok ("[File processing error: " +:+ exn_str e +:+ "]")).

End Files.

(** ** main_dev.py: the chat orchestrator *)

(** The form fields of [POST /api/chat] with the cookie session. *)
Record chat_request := ChatRequest {
  request_session : web_session;
  message : string;
  model : string;
  session_id : string;
  file_content : option string;
  file_name : option string;
  is_image_request : bool
}.

(** The dictionaries the endpoint returns. *)
Inductive payload :=
| ErrorPayload (error : json) (file_name : option string)
| ContentPayload (content : json) (file_name : option string)
| ImagePayload (content : json) (file_name : option string).

(** What a handler reads of an [httpx] response. *)
Record http_response := HttpResponse {
  response_status_code : Z;
  raise_for_status : pyresult unit;
  response_json : pyresult json
}.

(** The gateway during one request: the outcome of [await client.post]. *)
Definition gateway : Type := gateway_call → pyresult http_response.

(** [bool(o)] for an optional form field *)
Definition opt_truthy (o : option string) : bool :=
  match o with Some s => PyStr.truthy s | None => false end.

Definition image_models : list string :=
  ["dall-e-3"; "dall-e-2"; "dall-e"; "midjourney"; "stable-diffusion";
   "sdxl"; "kandinsky"; "deepfloyd"].

Definition is_image_generation_model (model : string) : bool :=
  existsb (fun img_model => PyStr.contains img_model (PyStr.lower model)) image_models.

Definition image_keywords : list string :=
  ["generate image"; "create image"; "draw"; "picture"; "photo"; "image of"].

Definition generate_image_prompt (user_message : string) : string :=
  if existsb (fun keyword => PyStr.contains keyword (PyStr.lower user_message)) image_keywords
  then user_message
  else "Create a high-quality, detailed image of: " +:+ user_message.

Definition max_file_chars : nat := 4000.

(** [f"{model}:{user_content}:{file_name or 'no_file'}"] *)
Definition cache_key_of (model user_content : string) (file_name : option string) : string :=
  model +:+ ":" +:+ user_content +:+ ":"
    +:+ (if opt_truthy file_name then default EmptyString file_name else "no_file").

Definition placeholder : string := "No response received".

(** [chat_sessions[session_id].append(t)] *)
Definition append_turn (session_id : string) (t : turn) : M unit :=
  fun s =>
    match chat_sessions s !! session_id with
    | Some turns => (Ok tt, set_chat_sessions (insert session_id (turns ++ [t])) s)
    | None => (Raise (Exn KeyError ("'" +:+ session_id +:+ "'")), s)
    end.

(** [if session_id not in chat_sessions: chat_sessions[session_id] = []] *)
Definition init_session (session_id : string) : M unit :=
  modify (fun s =>
    match chat_sessions s !! session_id with
    | Some _ => s
    | None => set_chat_sessions (insert session_id []) s
    end).

(** [del response_cache[key]] *)
Definition cache_del (key : string) : M unit :=
  fun s =>
    match PyDict.del key (response_cache s) with
    | Ok c => (Ok tt, set_response_cache c s)
    | Raise e => (Raise e, s)
    end.

Fixpoint cache_del_all (keys : list string) : M unit :=
  match keys with
  | [] => mret tt
  | key :: keys' => (cache_del key ;;; cache_del_all keys')%M
  end.

(** Caching a reply and limiting the size of the cache. *)
Definition cache_store (cache_key : string) (assistant_message : json) : M unit :=
  (modify (fun s => set_response_cache
                      (PyDict.set cache_key assistant_message (response_cache s)) s) ;;;
   cache <- gets response_cache ;;
   if (100 <? PyDict.len cache)%nat then
     let oldest_keys := firstn 20 (PyDict.keys cache) in
     cache_del_all oldest_keys
   else mret tt)%M.

Definition assistant_turn (content : json) : turn :=
  Turn Assistant content None None None.

Section Chat.
Variable cfg : config.
Variable P : platform.
(** [str(v)] of a value parsed from JSON, as an f-string renders it. *)
Variable py_str : json → string.

Definition user_turn (request : chat_request) : turn :=
  Turn User (JStr (message request))
       (if opt_truthy (file_content request) then file_name request else None)
       (Some (is_image_request request)) None.

(** The text extracted from an upload, as the text path embeds it. *)
Definition file_info_of (file_content file_name : string) : string :=
  match (file_data <- b64decode P file_content ;;
         process_file_content P file_data file_name)%py with
  | Ok file_text =>
      if PyStr.truthy file_text then
        let file_text :=
          if (max_file_chars <? PyStr.len file_text)%nat
          then PyStr.take max_file_chars file_text +:+ newline +:+ "... (truncated)"
          else file_text in
        newline +:+ newline +:+ "[Uploaded file: " +:+ file_name +:+ "]" +:+ newline
          +:+ "---" +:+ newline +:+ file_text +:+ newline +:+ "---"
      else
        newline +:+ newline +:+ "[Uploaded file: " +:+ file_name
          +:+ " (binary or non-text)]"
  | Raise _ =>
      newline +:+ newline +:+ "[Uploaded file: " +:+ file_name +:+ " (could not decode)]"
  end.

(** Lines 400-412: the user content sent upstream. *)
Definition build_user_content (request : chat_request) : M string :=
  match file_content request, file_name request with
  | Some fc, Some fn =>
      if PyStr.truthy fc && PyStr.truthy fn then
        (modify (log_event (EvFileDecode fc fn)) ;;;
         mret (message request +:+ file_info_of fc fn))%M
      else mret (message request)
  | _, _ => mret (message request)
  end.

(** [await client.post(...)] *)
Definition post (gw : gateway) (call : gateway_call) : M http_response :=
  fun s => (gw call, log_event (EvGateway call) s).

Definition error_payload (text : string) (request : chat_request) : payload :=
  ErrorPayload (JStr text) (file_name request).

Definition model_not_found (model_name : string) : string :=
  "Model '" +:+ model_name
    +:+ "' not found. Please select a different model from the dropdown.".

(** The body of the [try] of the text path (lines 463-518). *)
Definition text_path_try (gw : gateway) (user : user) (request : chat_request)
    (cache_key user_content : string) : M payload :=
  (response <- post gw (ChatCompletions (model request) user_content) ;;
   result <- lift (response_json response) ;;
   has_error <- lift (Json.contains "error" result) ;;
   if has_error : bool then
     error_msg <- lift (Json.getitem result "error") ;;
     not_found <- lift (Json.contains "NotFoundError" error_msg) ;;
     if not_found : bool then
       model_match <- lift (Json.search_quoted error_msg) ;;
       match model_match with
       | Some model_name => mret (error_payload (model_not_found model_name) request)
       | None =>
           mret (error_payload
                   "Model not found. Please select a different model from the dropdown."
                   request)
       end
     else mret (ErrorPayload error_msg (file_name request))
   else
     has_choices <- lift (Json.contains "choices" result) ;;
     no_choices <- (if has_choices : bool
                    then choices <- lift (Json.getitem result "choices") ;;
                         mret (negb (Json.truthy choices))
                    else mret true) ;;
     if no_choices : bool then
       mret (error_payload "Invalid response format from API" request)
     else
       choices <- lift (Json.get result "choices" (JList [JDict []])) ;;
       choice <- lift (Json.getitem0 choices) ;;
       msg <- lift (Json.get choice "message" (JDict [])) ;;
       assistant_message <- lift (Json.get msg "content" (JStr placeholder)) ;;
       if negb (Json.truthy assistant_message) || Json.eq_str assistant_message placeholder
       then mret (error_payload "No response content received from API" request)
       else
         (* Add assistant message to session *)
         append_turn (session_id request) (assistant_turn assistant_message) ;;;
         (* Cache the response, limit the cache size *)
         cache_store cache_key assistant_message ;;;
         (* Increment usage for demo users *)
         reply_words <- lift (Json.split assistant_message) ;;
         let estimated_tokens :=
           Z.of_nat (length reply_words)
           + Z.of_nat (length (PyStr.split_ws user_content)) in
         modify (increment_usage cfg (user_email user) estimated_tokens) ;;;
         mret (ContentPayload assistant_message (file_name request)))%M.

(** The [except] clauses of the text path (lines 520-539). *)
Definition text_path_except (request : chat_request) (e : exn) : M payload :=
  match exn_class_of e with
  | HTTPStatusError status_code text =>
      if status_code =? 404 then
        mret (error_payload (model_not_found (model request)) request)
      else if status_code =? 401 then
        mret (error_payload "Authentication failed. Please check your API key." request)
      else if status_code =? 403 then
        mret (error_payload
                "Access forbidden. Please check your API key and permissions." request)
      else
        mret (error_payload
                ("API error (" +:+ PyStr.of_Z status_code +:+ "): " +:+ text) request)
  | TimeoutException =>
      mret (error_payload "Request timed out. Please try again." request)
  | ConnectError =>
      mret (error_payload
              "Could not connect to the API server. Please check your internet connection."
              request)
  | JSONDecodeError =>
      mret (error_payload "Invalid JSON response from API" request)
  | _ =>
      mret (error_payload
              ("Unexpected error: " +:+ exn_type_name e +:+ ": " +:+ exn_str e) request)
  end.

(** [check_demo_limits] as a step of a handler. *)
Definition check_limits (email : string) : M (bool * string) :=
  fun s => let '(r, s') := check_demo_limits cfg email s in (Ok r, s').

(** The text path (lines 381-539): cache lookup, then the upstream call. *)
Definition text_path (gw : gateway) (user : user) (request : chat_request) : M payload :=
  (let cache_key := cache_key_of (model request) (message request) (file_name request) in
   cache <- gets response_cache ;;
   match PyDict.get cache_key cache with
   | Some cached_response =>
       append_turn (session_id request) (assistant_turn cached_response) ;;;
       mret (ContentPayload cached_response (file_name request))
   | None =>
       user_content <- build_user_content request ;;
       mcatch (text_path_try gw user request cache_key user_content)
              (text_path_except request)
   end)%M.

(** The prompt of the image path with the context of an upload. *)
Definition image_prompt_of (request : chat_request) : M string :=
  let image_prompt := generate_image_prompt (message request) in
  match file_content request, file_name request with
  | Some fc, Some fn =>
      if PyStr.truthy fc && PyStr.truthy fn then
        (modify (log_event (EvFileDecode fc fn)) ;;;
         match (file_data <- b64decode P fc ;;
                process_file_content P file_data fn)%py with
         | Ok file_text =>
             if PyStr.truthy file_text then
               mret (image_prompt +:+ newline +:+ newline
                       +:+ "Context from uploaded file (" +:+ fn +:+ "):" +:+ newline
                       +:+ PyStr.take 1000 file_text)
             else mret image_prompt
         | Raise _ => mret image_prompt
         end)%M
      else mret image_prompt
  | _, _ => mret image_prompt
  end.

Definition image_success_message (image_url image_prompt : string) : string :=
  "🎨 **Image Generated Successfully!**" +:+ newline +:+ newline
  +:+ "### 🖼️ **Generated Image**" +:+ newline
  +:+ "![Generated Image](" +:+ image_url +:+ ")" +:+ newline +:+ newline
  +:+ "### 📝 **Prompt Used**" +:+ newline
  +:+ image_prompt +:+ newline +:+ newline
  +:+ "### 🚀 **Next Steps**" +:+ newline
  +:+ "• **Download** the image by right-clicking and selecting 'Save Image As'" +:+ newline
  +:+ "• **Share** the image URL with others" +:+ newline
  +:+ "• **Generate more** images by describing what you'd like to see".

Definition image_error_message (reason : string) : string :=
  "🖼️ **Image Generation Error**" +:+ newline +:+ newline
  +:+ "### ❌ **Issue**" +:+ newline
  +:+ "Failed to generate image: " +:+ reason +:+ newline +:+ newline
  +:+ "### 💡 **Suggestions**" +:+ newline
  +:+ "• Try a different model that supports image generation" +:+ newline
  +:+ "• Check if your API key has image generation permissions" +:+ newline
  +:+ "• Ensure your prompt is clear and descriptive" +:+ newline +:+ newline
  +:+ "### 🚀 **Next Steps**" +:+ newline
  +:+ "Try asking for a text description instead or use a different model.".

(** The body of the [try] of the image path (lines 191-249). *)
Definition image_try (gw : gateway) (user : user) (request : chat_request)
    (image_prompt : string) : M payload :=
  (response <- post gw (ImagesGenerations (model request) image_prompt) ;;
   response <- (if response_status_code response =? 404
                then post gw (ImageFallbackChat (model request) image_prompt)
                else mret response) ;;
   lift (raise_for_status response) ;;;
   result <- lift (response_json response) ;;
   has_data <- lift (Json.contains "data" result) ;;
   use_data <- (if has_data : bool
                then data <- lift (Json.getitem result "data") ;;
                     mret (Json.truthy data)
                else mret false) ;;
   assistant_message <-
     (if use_data : bool then
        data <- lift (Json.getitem result "data") ;;
        first <- lift (Json.getitem0 data) ;;
        image_url <- lift (Json.getitem first "url") ;;
        mret (JStr (image_success_message (py_str image_url) image_prompt))
      else
        choices <- lift (Json.get result "choices" (JList [JDict []])) ;;
        choice <- lift (Json.getitem0 choices) ;;
        msg <- lift (Json.get choice "message" (JDict [])) ;;
        lift (Json.get msg "content" (JStr "Image generation completed."))) ;;
   append_turn (session_id request)
               (Turn Assistant assistant_message None None (Some true)) ;;;
   modify (increment_usage cfg (user_email user) 100) ;;;
   mret (ImagePayload assistant_message (file_name request)))%M.

Definition handle_image_generation (gw : gateway) (request : chat_request) : M payload :=
  (user <- lift (require_auth (request_session request)) ;;
   limits <- check_limits (user_email user) ;;
   let '(can_proceed, error_message) := limits in
   if negb can_proceed then mret (error_payload error_message request)
   else
     image_prompt <- image_prompt_of request ;;
     mcatch (image_try gw user request image_prompt)
            (fun e =>
               let error_message := image_error_message (exn_str e) in
               append_turn (session_id request)
                           (Turn Assistant (JStr error_message) None None (Some false)) ;;;
               mret (error_payload error_message request)))%M.

Definition should_generate_image (request : chat_request) : bool :=
  is_image_request request
  || (is_image_generation_model (model request) && negb (opt_truthy (file_content request))).

(** [POST /api/chat] *)
Definition chat_completion (gw : gateway) (request : chat_request) : M payload :=
  (user <- lift (require_auth (request_session request)) ;;
   (* Check demo limits for non-admin users *)
   limits <- check_limits (user_email user) ;;
   let '(can_proceed, error_message) := limits in
   if negb can_proceed then mret (error_payload error_message request)
   else
     (* Initialize session if it doesn't exist, add user message *)
     init_session (session_id request) ;;;
     append_turn (session_id request) (user_turn request) ;;;
     if should_generate_image request
     then handle_image_generation gw request
     else text_path gw user request)%M.

End Chat.

(** ** v1.2.0/main.py: the chat endpoint before quotas and images

    The release has the sessions and the cache of the developer demo, and
    neither usage limits nor an image path; an upload is decoded as UTF-8
    on the spot.  Its form has no image flag: [is_image_request] of the
    request is not read.  Of the identity only its presence is tested. *)

Module V120.
Section Chat.
Variable P : platform.

Definition user_turn (request : chat_request) : turn :=
  Turn User (JStr (message request))
       (if opt_truthy (file_content request) then file_name request else None)
       None None.

(** [file_data.decode('utf-8')] with [except Exception: file_text = None] *)
Definition file_info_of (file_content file_name : string) : string :=
  match b64decode P file_content with
  | Ok file_data =>
      match utf8_decode P file_data with
      | Some file_text =>
          if PyStr.truthy file_text then
            let file_text :=
              if (max_file_chars <? PyStr.len file_text)%nat
              then PyStr.take max_file_chars file_text +:+ newline +:+ "... (truncated)"
              else file_text in
            newline +:+ newline +:+ "[Uploaded file: " +:+ file_name +:+ "]" +:+ newline
              +:+ "---" +:+ newline +:+ file_text +:+ newline +:+ "---"
          else
            newline +:+ newline +:+ "[Uploaded file: " +:+ file_name
              +:+ " (binary or non-text)]"
      | None =>
          newline +:+ newline +:+ "[Uploaded file: " +:+ file_name
            +:+ " (binary or non-text)]"
      end
  | Raise _ =>
      newline +:+ newline +:+ "[Uploaded file: " +:+ file_name +:+ " (could not decode)]"
  end.

Definition build_user_content (request : chat_request) : M string :=
  match file_content request, file_name request with
  | Some fc, Some fn =>
      if PyStr.truthy fc && PyStr.truthy fn then
        (modify (log_event (EvFileDecode fc fn)) ;;;
         mret (message request +:+ file_info_of fc fn))%M
      else mret (message request)
  | _, _ => mret (message request)
  end.

(** The body of the [try] (lines 210-261). *)
Definition chat_try (gw : gateway) (request : chat_request)
    (cache_key user_content : string) : M payload :=
  (response <- post gw (ChatCompletions (model request) user_content) ;;
   result <- lift (response_json response) ;;
   has_error <- lift (Json.contains "error" result) ;;
   if has_error : bool then
     error_msg <- lift (Json.getitem result "error") ;;
     not_found <- lift (Json.contains "NotFoundError" error_msg) ;;
     if not_found : bool then
       model_match <- lift (Json.search_quoted error_msg) ;;
       match model_match with
       | Some model_name => mret (error_payload (model_not_found model_name) request)
       | None =>
           mret (error_payload
                   "Model not found. Please select a different model from the dropdown."
                   request)
       end
     else mret (ErrorPayload error_msg (file_name request))
   else
     has_choices <- lift (Json.contains "choices" result) ;;
     no_choices <- (if has_choices : bool
                    then choices <- lift (Json.getitem result "choices") ;;
                         mret (negb (Json.truthy choices))
                    else mret true) ;;
     if no_choices : bool then
       mret (error_payload "Invalid response format from API" request)
     else
       choices <- lift (Json.get result "choices" (JList [JDict []])) ;;
       choice <- lift (Json.getitem0 choices) ;;
       msg <- lift (Json.get choice "message" (JDict [])) ;;
       assistant_message <- lift (Json.get msg "content" (JStr placeholder)) ;;
       if negb (Json.truthy assistant_message) || Json.eq_str assistant_message placeholder
       then mret (error_payload "No response content received from API" request)
       else
         append_turn (session_id request) (assistant_turn assistant_message) ;;;
         cache_store cache_key assistant_message ;;;
         mret (ContentPayload assistant_message (file_name request)))%M.

(** [POST /api/chat]; the [except] clauses are those of the developer demo,
    word for word. *)
Definition chat_completion (gw : gateway) (request : chat_request) : M payload :=
  (user <- lift (require_auth (request_session request)) ;;
   init_session (session_id request) ;;;
   append_turn (session_id request) (user_turn request) ;;;
   let cache_key := cache_key_of (model request) (message request) (file_name request) in
   cache <- gets response_cache ;;
   match PyDict.get cache_key cache with
   | Some cached_response =>
       append_turn (session_id request) (assistant_turn cached_response) ;;;
       mret (ContentPayload cached_response (file_name request))
   | None =>
       user_content <- build_user_content request ;;
       mcatch (chat_try gw request cache_key user_content)
              (text_path_except request)
   end)%M.

End Chat.
End V120.

(** ** Observations used to state the properties *)

(** The counters of [email] as [get_user_usage] reads them. *)
Definition usage_of (s : state) (email : string) : usage :=
  (get_user_usage email s).1.

(** [increment_usage] called once per element of [tokens], in order. *)
Definition increments (cfg : config) (email : string) (tokens : list Z) (s : state) : state :=
  fold_left (fun s estimated_tokens => increment_usage cfg email estimated_tokens s) tokens s.

(** Successful replies cached one after the other. *)
Fixpoint store_all (replies : list (string * json)) : M unit :=
  match replies with
  | [] => mret tt
  | (cache_key, reply) :: replies' =>
      (cache_store cache_key reply ;;; store_all replies')%M
  end.

(** A request is served by the text path when it carries an identity, the
    usage-limit check lets it through and the image path is not chosen. *)
Definition takes_text_path (cfg : config) (request : chat_request) (s : state) : Prop :=
  ∃ user, session_user (request_session request) = Some user
          ∧ (check_demo_limits cfg (user_email user) s).1.1 = true
          ∧ should_generate_image request = false.

(** The state in which the path of a request is chosen: the limits were
    checked and the user's turn was appended to the session, created if
    new. *)
Definition after_user_turn (cfg : config) (request : chat_request) (email : string)
    (s : state) : state :=
  let s1 := (check_demo_limits cfg email s).2 in
  set_chat_sessions
    (insert (session_id request)
            (default [] (chat_sessions s1 !! session_id request) ++ [user_turn request]))
    s1.

(** The user content the text path sends upstream on a cache miss. *)
Definition user_content_of (P : platform) (request : chat_request) : string :=
  match file_content request, file_name request with
  | Some fc, Some fn =>
      if PyStr.truthy fc && PyStr.truthy fn
      then message request +:+ file_info_of P fc fn
      else message request
  | _, _ => message request
  end.

(** Concrete collaborators, users and requests on which the properties are
    instantiated. *)
Module Example.

(** Decodes the byte strings that are plain ASCII. *)
Definition ascii_decode (data : list byte) : option string :=
  if forallb (fun b => (Byte.to_N b <? 128)%N) data
  then Some (string_of_list_byte data) else None.

(** A process with PyPDF2, whose reader rejects every document, and
    without the office libraries; its base64 decoder rejects everything. *)
Definition host : platform :=
  Platform ascii_decode
           (fun _ => Raise (Exn (OtherException "Error") "Incorrect padding"))
           (Some (fun _ => Raise (Exn (OtherException "PdfReadError")
                                      "EOF marker not found")))
           None.

Definition render (v : json) : string :=
  match v with JStr text => text | _ => "None" end.

Definition bob : user :=
  UserIdentity (JStr "7") "bob@example.com" (JStr "Bob") (JStr EmptyString) false
               (Usage 0 0).

Definition hello : chat_request :=
  ChatRequest (WebSession (Some bob) None) "Hello" "gpt-4" "s1" None None false.

(** The same question from another chat session, with an upload. *)
Definition hello_again : chat_request :=
  ChatRequest (WebSession (Some bob) None) "Hello" "gpt-4" "s2" (Some "aGk=") None false.

(** Two uploads of different bytes under one file name. *)
Definition notes : chat_request :=
  ChatRequest (WebSession (Some bob) None) "Summarise" "gpt-4" "s1"
              (Some "aGVsbG8=") (Some "notes.txt") false.

Definition other_notes : chat_request :=
  ChatRequest (WebSession (Some bob) None) "Summarise" "gpt-4" "s2"
              (Some "d29ybGQ=") (Some "notes.txt") false.

(** A process without optional libraries whose decoders accept anything. *)
Definition bare_host : platform :=
  Platform (fun data => Some (string_of_list_byte data)) (fun _ => Ok []) None None.

(** A gateway that answers every call with status 200 and [result]. *)
Definition answers (result : json) : gateway :=
  fun _ => Ok (HttpResponse 200 (Ok tt) (Ok result)).

Definition down : gateway :=
  fun _ => Raise (Exn ConnectError "All connection attempts failed").

(** A chat completion whose single choice carries [content]. *)
Definition completion (content : json) : json :=
  JDict [("choices", JList [JDict [("message", JDict [("content", content)])]])].

(** A response with an error field next to a choice of empty content. *)
Definition failed_completion : json :=
  JDict [("error", JStr "upstream overloaded");
         ("choices", JList [JDict [("message", JDict [("content", JStr EmptyString)])]])].

(** Bob has used up the two requests of the default configuration. *)
Definition exhausted : state :=
  set_user_usage (insert "bob@example.com" (Usage 2 10)) initial_state.

(** 101 replies under the keys "0" ... "100". *)
Definition replies : list (string * json) :=
  map (fun n => (PyStr.of_Z (Z.of_nat n), JInt (Z.of_nat n))) (seq 0 101).

Definition callback : callback_request :=
  CallbackRequest (Some "4/0AX4XfWh") (Some "forged")
                  (WebSession None (Some "issued")).

Definition callback_without_code : callback_request :=
  CallbackRequest None (Some "issued") (WebSession None (Some "issued")).

Definition google_down : google :=
  Google (fun _ => Raise (Exn ConnectError "All connection attempts failed"))
         (fun _ => Raise (Exn ConnectError "All connection attempts failed")).

End Example.

(** ** The state over time *)

(** Chat requests served one after the other, each with the gateway as it
    answers at that time. *)
Fixpoint serve (cfg : config) (P : platform) (py_str : json → string)
    (requests : list (gateway * chat_request)) (s : state) : state :=
  match requests with
  | [] => s
  | (gw, request) :: requests' =>
      serve cfg P py_str requests' (chat_completion cfg P py_str gw request s).2
  end.

(** [s'] is a later state of [s]: no counter went down, every session kept
    its turns and gained turns at its end, the cache holds at most 100
    entries or no more than before, its keys stayed distinct and the log
    grew at its end. *)
Definition evolves (s s' : state) : Prop :=
  (∀ email, request_count (usage_of s email) ≤ request_count (usage_of s' email)
            ∧ token_count (usage_of s email) ≤ token_count (usage_of s' email))
  ∧ (∀ sid turns, chat_sessions s !! sid = Some turns →
       ∃ more, chat_sessions s' !! sid = Some (turns ++ more))
  ∧ (length (response_cache s') ≤ Nat.max 100 (length (response_cache s)))%nat
  ∧ (NoDup (PyDict.keys (response_cache s)) → NoDup (PyDict.keys (response_cache s')))
  ∧ (∃ more, trace s' = trace s ++ more).

(** A later state reached on behalf of [email]: besides, the counters of
    the other addresses are the same, and for the admin address the usage
    table itself is. *)
Definition evolves_for (cfg : config) (email : string) (s s' : state) : Prop :=
  evolves s s'
  ∧ (∀ e, e ≠ email → usage_of s' e = usage_of s e)
  ∧ (is_admin_user cfg email = true → user_usage s' = user_usage s).

(** A handler step that only moves the state forward, whatever it returns. *)
Definition forward {A} (cfg : config) (email : string) (m : M A) : Prop :=
  ∀ s, evolves_for cfg email s (m s).2.

(** ** main_dev.py: the other endpoints *)

(** What a page endpoint answers: a redirect, the chat page rendered for a
    user, or the login page rendered with the error it displays. *)
Inductive page :=
| PageRedirect (r : redirect)
| ChatPage (user : user)
| LoginPage (error : option string).

(** [GET /] *)
Definition chat_page (session : web_session) : page :=
  match get_current_user session with
  | None => PageRedirect (RedirectResponse "/login" 302)
  | Some user => ChatPage user
  end.

(** [GET /login] with the query parameters [error] and [message]. *)
Definition login_page (session : web_session) (error message : option string) : page :=
  match get_current_user session with
  | Some _ => PageRedirect (RedirectResponse "/" 302)
  | None =>
      let error_message := default EmptyString message in
      let error_display :=
        if bool_decide (error = Some "access_denied") then
          Some ("Access Denied: " +:+ error_message)
        else if bool_decide (error = Some "invalid_state") then
          Some "Invalid authentication state. Please try again."
        else if bool_decide (error = Some "no_code") then
          Some "Authentication failed. Please try again."
        else if bool_decide (error = Some "auth_failed") then
          Some "Authentication failed. Please try again."
        else if opt_truthy error then error else None in
      LoginPage error_display
  end.

(** [GET /api/models]; [fetch] is the outcome of [await client.get]. *)
Definition get_models (fetch : pyresult http_response) (session : web_session)
    : pyresult json :=
  (user <- require_auth session ;;
   rcatch
     (response <- fetch ;;
      _ <- raise_for_status response ;;
      response_json response)
     (fun e => Ok (JDict [("error", JStr "Failed to fetch models"); ("data", JList [])])))%py.

(** [GET /api/chat-history/{session_id}] *)
Definition get_chat_history (session : web_session) (session_id : string) (s : state)
    : pyresult (list turn) :=
  (user <- require_auth session ;;
   match chat_sessions s !! session_id with
   | Some messages => Ok messages
   | None => Ok []
   end)%py.

(** [POST /api/new-session]; [uuid] is the value drawn from [uuid.uuid4()]. *)
Definition create_new_session (session : web_session) (uuid : string) : M string :=
  (user <- lift (require_auth session) ;;
   modify (set_chat_sessions (insert uuid [])) ;;;
   mret uuid)%M.

(** The dictionary under ["usage"] that [GET /api/usage] returns. *)
Inductive usage_report :=
| Unlimited
| Limited (request_count token_count request_limit token_limit : Z) (limit_reached : bool).

(** [GET /api/usage]: read off the identity of the cookie session. *)
Definition get_usage (cfg : config) (session : web_session) : pyresult usage_report :=
  (user <- require_auth session ;;
   if user_is_admin user then Ok Unlimited
   else
     let usage := user_usage_at_login user in
     Ok (Limited (request_count usage) (token_count usage)
                 (DEMO_REQUEST_LIMIT cfg) (DEMO_TOKEN_LIMIT cfg)
                 (DEMO_REQUEST_LIMIT cfg <=? request_count usage)))%py.

(** The prompt the image path sends to the gateway. *)
Definition image_prompt_text (P : platform) (request : chat_request) : string :=
  let image_prompt := generate_image_prompt (message request) in
  match file_content request, file_name request with
  | Some fc, Some fn =>
      if PyStr.truthy fc && PyStr.truthy fn then
        match (file_data <- b64decode P fc ;;
               process_file_content P file_data fn)%py with
        | Ok file_text =>
            if PyStr.truthy file_text then
              image_prompt +:+ newline +:+ newline
                +:+ "Context from uploaded file (" +:+ fn +:+ "):" +:+ newline
                +:+ PyStr.take 1000 file_text
            else image_prompt
        | Raise _ => image_prompt
        end
      else image_prompt
  | _, _ => image_prompt
  end.

(** A request is served by the image path when it carries an identity, the
    usage-limit check lets it through and the image path is chosen. *)
Definition takes_image_path (cfg : config) (request : chat_request) (s : state) : Prop :=
  ∃ user, session_user (request_session request) = Some user
          ∧ (check_demo_limits cfg (user_email user) s).1.1 = true
          ∧ should_generate_image request = true.

(** The decoding an upload causes, as logged: none without a file content
    and a file name. *)
Definition upload_events (request : chat_request) : list event :=
  match file_content request, file_name request with
  | Some fc, Some fn =>
      if PyStr.truthy fc && PyStr.truthy fn then [EvFileDecode fc fn] else []
  | _, _ => []
  end.

(** The calls of the image path, as logged: the image endpoint and, when it
    answers with status 404, the chat completion it falls back to. *)
Definition image_calls (gw : gateway) (model prompt : string) : list event :=
  EvGateway (ImagesGenerations model prompt)
  :: match gw (ImagesGenerations model prompt) with
     | Ok response =>
         if response_status_code response =? 404
         then [EvGateway (ImageFallbackChat model prompt)] else []
     | Raise _ => []
     end.

(** Further collaborators, users and requests on which the properties of
    the endpoints are instantiated. *)
Module Scenario.

(** A demo user under the request ceiling and over the token ceiling of the
    default configuration. *)
Definition carol : user :=
  UserIdentity (JStr "9") "carol@example.com" (JStr "Carol") (JStr EmptyString) false
               (Usage 1 120).

Definition over_tokens : state :=
  set_user_usage (insert "carol@example.com" (Usage 1 120)) initial_state.

(** A state in which the session of [Example.hello] holds one turn. *)
Definition greeted : state :=
  set_chat_sessions (insert "s1" [Turn User (JStr "Hi") None (Some false) None])
                    initial_state.

(** A request for an image, by the model it names. *)
Definition paint : chat_request :=
  ChatRequest (WebSession (Some Example.bob) None) "a red fox" "dall-e-3" "s1"
              None None false.

(** A request without identity. *)
Definition anonymous : chat_request :=
  ChatRequest (WebSession None None) "Hello" "gpt-4" "s1" None None false.

(** Two requests whose model and message differ and whose keys agree. *)
Definition colon_in_message : chat_request :=
  ChatRequest (WebSession (Some Example.bob) None) "mini:Hello" "gpt-4" "s1"
              None None false.

Definition colon_in_model : chat_request :=
  ChatRequest (WebSession (Some Example.bob) None) "Hello" "gpt-4:mini" "s2"
              None None false.

(** A gateway whose image endpoint is missing and whose chat endpoint
    answers with [result]. *)
Definition without_images (result : json) : gateway :=
  fun call =>
    match call with
    | ImagesGenerations _ _ =>
        Ok (HttpResponse 404
              (Raise (Exn (HTTPStatusError 404 "Not Found") "Client error '404 Not Found'"))
              (Ok (JDict [("detail", JStr "Not Found")])))
    | _ => Ok (HttpResponse 200 (Ok tt) (Ok result))
    end.

(** A gateway that answers every call with status 500 and [result]. *)
Definition failing_with (result : json) : gateway :=
  fun _ =>
    Ok (HttpResponse 500
          (Raise (Exn (HTTPStatusError 500 "Internal Server Error")
                      "Server error '500 Internal Server Error'"))
          (Ok result)).

(** Google answering with a token and Bob's profile. *)
Definition bobs_profile : userinfo :=
  UserInfo (JStr "7") "bob@example.com" (Some (JStr "Bob")) None.

Definition google_up : google :=
  Google (fun _ => Ok (JDict [("access_token", JStr "ya29.a0")]))
         (fun _ => Ok bobs_profile).

(** Google answering with a profile whose id is a list. *)
Definition odd_profile : userinfo :=
  UserInfo (JList [JInt 7]) "bob@example.com" (Some (JStr "Bob")) None.

Definition google_odd : google :=
  Google (fun _ => Ok (JDict [("access_token", JStr "ya29.a0")]))
         (fun _ => Ok odd_profile).

(** The callback that returns the state that was issued. *)
Definition returning : callback_request :=
  CallbackRequest (Some "4/0AX4XfWh") (Some "issued") (WebSession None (Some "issued")).

(** A process with PyPDF2 whose reader finds two pages in every document. *)
Definition two_pages : list byte → pyresult (list (pyresult string)) :=
  fun _ => Ok [Ok "Title"; Ok "Body"].

Definition pdf_host : platform :=
  Platform Example.ascii_decode (fun _ => Ok []) (Some two_pages) None.

End Scenario.

(** One step of a case analysis that follows the control flow of a
    handler: the innermost scrutinee is named and split. *)
Ltac step :=
  match goal with
  | |- context [match ?x with _ => _ end] =>
      lazymatch x with
      | context [match _ with _ => _ end] => fail
      | _ => destruct x eqn:?
      end
  end.

(** Closes a goal that reads the freshly cached reply back, from the fact
    that a reply cached under a new key survives the eviction and the
    outcome of the size test found in the context. *)
Ltac kept_in_cache :=
  match goal with
  | Hkept : ∀ reply, _ = Some reply, Hsize : (100 <? _)%nat = _ |- _ = Some ?c =>
      rewrite <- (Hkept c); by rewrite Hsize
  end.

(** * Properties *)

(** ** The usage tracker *)

Section UsageTracker.
Variable cfg : config.

Lemma is_admin_user_true email : is_admin_user cfg email = true ↔ email = ADMIN_EMAIL cfg.
Proof. unfold is_admin_user. apply String.eqb_eq. Qed.

Lemma is_admin_user_false email : is_admin_user cfg email = false ↔ email ≠ ADMIN_EMAIL cfg.
Proof. unfold is_admin_user. apply String.eqb_neq. Qed.

Lemma usage_of_lookup s email :
  usage_of s email = default (Usage 0 0) (user_usage s !! email).
Proof. unfold usage_of, get_user_usage. by destruct (user_usage s !! email). Qed.

(** Creating the zeroed record changes no counter and nothing else. *)
Lemma get_user_usage_frame email s :
  let s' := (get_user_usage email s).2 in
  (∀ e, usage_of s' e = usage_of s e)
  ∧ user_usage s' !! email = Some (usage_of s email)
  ∧ chat_sessions s' = chat_sessions s
  ∧ response_cache s' = response_cache s
  ∧ users s' = users s
  ∧ trace s' = trace s.
Proof.
  rewrite usage_of_lookup. unfold get_user_usage.
  destruct (user_usage s !! email) as [u|] eqn:Hu; simpl; [by rewrite Hu|].
  split_and!; try done; [|by rewrite lookup_insert_eq].
  intros e. rewrite !usage_of_lookup. simpl.
  destruct (decide (email = e)) as [<-|Hne].
  - by rewrite lookup_insert_eq, Hu.
  - by rewrite lookup_insert_ne.
Qed.

Lemma check_demo_limits_admin s :
  check_demo_limits cfg (ADMIN_EMAIL cfg) s = ((true, EmptyString), s).
Proof.
  unfold check_demo_limits.
  by rewrite (proj2 (is_admin_user_true _) eq_refl).
Qed.

Lemma check_demo_limits_demo email s :
  email ≠ ADMIN_EMAIL cfg →
  (check_demo_limits cfg email s).1 =
    if DEMO_REQUEST_LIMIT cfg <=? request_count (usage_of s email)
    then (false, request_limit_message cfg)
    else if DEMO_TOKEN_LIMIT cfg <=? token_count (usage_of s email)
         then (false, token_limit_message cfg)
         else (true, EmptyString).
Proof.
  intros Hne%is_admin_user_false. unfold check_demo_limits. rewrite Hne.
  unfold usage_of. destruct (get_user_usage email s) as [u s']. simpl.
  by repeat case_match.
Qed.

(** The check writes nothing but, possibly, the zeroed record. *)
Lemma check_demo_limits_frame email s :
  let s' := (check_demo_limits cfg email s).2 in
  (∀ e, usage_of s' e = usage_of s e)
  ∧ chat_sessions s' = chat_sessions s
  ∧ response_cache s' = response_cache s
  ∧ users s' = users s
  ∧ trace s' = trace s.
Proof.
  unfold check_demo_limits.
  destruct (is_admin_user cfg email); [done|].
  pose proof (get_user_usage_frame email s) as H.
  destruct (get_user_usage email s) as [u s']. simpl in *.
  destruct H as (Hu & _ & Hrest).
  repeat case_match; simpl; by split.
Qed.

Lemma increment_usage_admin estimated_tokens s :
  increment_usage cfg (ADMIN_EMAIL cfg) estimated_tokens s = s.
Proof.
  unfold increment_usage.
  by rewrite (proj2 (is_admin_user_true _) eq_refl).
Qed.

Lemma increment_usage_demo email estimated_tokens s :
  email ≠ ADMIN_EMAIL cfg →
  usage_of (increment_usage cfg email estimated_tokens s) email
  = Usage (request_count (usage_of s email) + 1)
          (token_count (usage_of s email) + estimated_tokens).
Proof.
  intros Hne%is_admin_user_false. unfold increment_usage. rewrite Hne.
  unfold usage_of at 2 3. destruct (get_user_usage email s) as [u s']. simpl.
  rewrite usage_of_lookup. simpl. by rewrite lookup_insert_eq.
Qed.

Lemma increment_usage_other email e estimated_tokens s :
  e ≠ email →
  usage_of (increment_usage cfg email estimated_tokens s) e = usage_of s e.
Proof.
  intros Hne. unfold increment_usage.
  destruct (is_admin_user cfg email); [done|].
  pose proof (get_user_usage_frame email s) as (Hu & _).
  destruct (get_user_usage email s) as [u s']. simpl in *.
  rewrite <- Hu. rewrite !usage_of_lookup. simpl.
  by rewrite lookup_insert_ne.
Qed.

Lemma increment_usage_frame email estimated_tokens s :
  let s' := increment_usage cfg email estimated_tokens s in
  chat_sessions s' = chat_sessions s
  ∧ response_cache s' = response_cache s
  ∧ users s' = users s
  ∧ trace s' = trace s.
Proof.
  unfold increment_usage.
  destruct (is_admin_user cfg email); [done|].
  pose proof (get_user_usage_frame email s) as H.
  destruct (get_user_usage email s) as [u s']. simpl in *.
  by destruct H as (_ & _ & Hrest).
Qed.

Lemma increments_snoc email tokens t s :
  increments cfg email (tokens ++ [t]) s
  = increment_usage cfg email t (increments cfg email tokens s).
Proof. unfold increments. by rewrite fold_left_app. Qed.

Lemma increments_demo email tokens s :
  email ≠ ADMIN_EMAIL cfg →
  usage_of (increments cfg email tokens s) email
  = Usage (request_count (usage_of s email) + Z.of_nat (length tokens))
          (token_count (usage_of s email) + foldr Z.add 0 tokens).
Proof.
  intros Hne. induction tokens as [|t tokens IH] using rev_ind.
  - simpl. destruct (usage_of s email). simpl. f_equal; lia.
  - rewrite increments_snoc, increment_usage_demo, IH by done. simpl.
    rewrite length_app, foldr_app. simpl.
    f_equal; [lia|].
    assert (∀ l a, foldr Z.add a l = a + foldr Z.add 0 l) as Hfold.
    { induction l as [|x l IHl]; intros a; simpl; [lia|]. rewrite IHl. lia. }
    rewrite (Hfold tokens (t + 0)). lia.
Qed.

Lemma increments_admin tokens s :
  increments cfg (ADMIN_EMAIL cfg) tokens s = s.
Proof.
  revert s. induction tokens as [|t tokens IH]; intros s; [done|].
  unfold increments in *. simpl. by rewrite increment_usage_admin.
Qed.

End UsageTracker.

(** C4.  [check_demo_limits] allows the admin address with an empty reason.
    For any other address it allows exactly when the request count is below
    the request ceiling and the token count is below the token ceiling, with
    an empty reason; when it denies, the reason is that of the first violated
    condition, the request ceiling being tested first. *)
Theorem check_demo_limits_spec (cfg : config) (email : string) (s : state) :
  let result := (check_demo_limits cfg email s).1 in
  let usage := usage_of s email in
  (email = ADMIN_EMAIL cfg → result = (true, EmptyString))
  ∧ (email ≠ ADMIN_EMAIL cfg →
       (result.1 = true ↔
          request_count usage < DEMO_REQUEST_LIMIT cfg
          ∧ token_count usage < DEMO_TOKEN_LIMIT cfg)
       ∧ (result.1 = true → result.2 = EmptyString)
       ∧ (DEMO_REQUEST_LIMIT cfg ≤ request_count usage →
            result = (false, request_limit_message cfg))
       ∧ (request_count usage < DEMO_REQUEST_LIMIT cfg →
          DEMO_TOKEN_LIMIT cfg ≤ token_count usage →
            result = (false, token_limit_message cfg))).
Proof.
  simpl. split.
  - intros ->. by rewrite check_demo_limits_admin.
  - intros Hne. rewrite check_demo_limits_demo by done.
    destruct (Z.leb_spec (DEMO_REQUEST_LIMIT cfg) (request_count (usage_of s email)));
      destruct (Z.leb_spec (DEMO_TOKEN_LIMIT cfg) (token_count (usage_of s email)));
      simpl; split_and!; try done; try lia; intros; try lia; try done.
Qed.

(** C5.  [increment_usage] leaves the state as it is for the admin address.
    For any other address one call adds 1 to the request count and
    [estimated_tokens] to the token count; after the increments of a list of
    N estimates on a record that was fresh the request count is N (and the
    token count their sum); and once the request count has reached the
    request ceiling [check_demo_limits] denies. *)
Theorem increment_usage_spec (cfg : config) (email : string) (s : state)
    (estimated_tokens : Z) (tokens : list Z) :
  (email = ADMIN_EMAIL cfg →
     increment_usage cfg email estimated_tokens s = s
     ∧ increments cfg email tokens s = s)
  ∧ (email ≠ ADMIN_EMAIL cfg →
       usage_of (increment_usage cfg email estimated_tokens s) email
       = Usage (request_count (usage_of s email) + 1)
               (token_count (usage_of s email) + estimated_tokens)
       ∧ (usage_of s email = Usage 0 0 →
            usage_of (increments cfg email tokens s) email
            = Usage (Z.of_nat (length tokens)) (foldr Z.add 0 tokens))
       ∧ (DEMO_REQUEST_LIMIT cfg ≤ request_count (usage_of s email) →
            (check_demo_limits cfg email s).1.1 = false)
       ∧ (usage_of s email = Usage 0 0 →
          DEMO_REQUEST_LIMIT cfg ≤ Z.of_nat (length tokens) →
            (check_demo_limits cfg email (increments cfg email tokens s)).1.1 = false)).
Proof.
  split.
  - intros ->. by rewrite increment_usage_admin, increments_admin.
  - intros Hne. split_and!.
    + by apply increment_usage_demo.
    + intros Hfresh. rewrite increments_demo by done. by rewrite Hfresh.
    + intros Hle. rewrite check_demo_limits_demo by done.
      by rewrite (proj2 (Z.leb_le _ _) Hle).
    + intros Hfresh Hle. rewrite check_demo_limits_demo by done.
      rewrite increments_demo, Hfresh by done.
      destruct (Z.leb_spec (DEMO_REQUEST_LIMIT cfg)
                  (request_count (Usage (request_count (Usage 0 0) + Z.of_nat (length tokens))
                                        (token_count (Usage 0 0) + foldr Z.add 0 tokens))))
        as [_|Hlt]; [done|].
      simpl in Hlt. lia.
Qed.

(** ** The insertion-ordered dictionary and the response cache *)

Section PyDictFacts.
Context {V : Type}.
Implicit Types (d : PyDict.t V) (k : string) (v : V).

Lemma pydict_get_None k d : PyDict.get k d = None ↔ k ∉ PyDict.keys d.
Proof.
  induction d as [|[k' v'] d IH]; simpl.
  - split; [intros _; apply not_elem_of_nil | done].
  - rewrite not_elem_of_cons. destruct (String.eqb_spec k' k) as [->|Hne].
    + split; [done | intros [? _]; done].
    + rewrite IH. split; [intros ?; split; [congruence | done] | by intros [_ ?]].
Qed.

Lemma pydict_get_Some k v d :
  NoDup (PyDict.keys d) → (k, v) ∈ d → PyDict.get k d = Some v.
Proof.
  induction d as [|[k' v'] d IH]; simpl; intros Hnd Hin.
  - by apply elem_of_nil in Hin.
  - apply NoDup_cons in Hnd as [Hk' Hnd].
    apply elem_of_cons in Hin as [Heq|Hin].
    + inversion Heq; subst. by rewrite String.eqb_refl.
    + destruct (String.eqb_spec k' k) as [->|Hne]; [|by apply IH].
      exfalso. apply Hk'. apply list_elem_of_fmap. by exists (k, v).
Qed.

(** A new key goes to the end. *)
Lemma pydict_set_fresh k v d :
  PyDict.get k d = None → PyDict.set k v d = d ++ [(k, v)].
Proof.
  induction d as [|[k' v'] d IH]; simpl; [done|].
  destruct (String.eqb k' k); [done|]. intros H. by rewrite IH.
Qed.

(** Deleting the first [n] keys, oldest first, drops the first [n]
    entries and keeps the others in order. *)
Lemma pydict_del_all_firstn (n : nat) d :
  (n ≤ length d)%nat →
  PyDict.del_all (firstn n (PyDict.keys d)) d = Ok (skipn n d).
Proof.
  revert d. induction n as [|n IH]; intros d Hn; [done|].
  destruct d as [|[k v] d]; simpl in *; [lia|].
  rewrite String.eqb_refl. simpl. apply IH. lia.
Qed.

Lemma pydict_skipn_absent (n : nat) k d :
  NoDup (PyDict.keys d) → k ∈ firstn n (PyDict.keys d) → PyDict.get k (skipn n d) = None.
Proof.
  intros Hnd Hin. apply pydict_get_None. unfold PyDict.keys in *.
  rewrite <- skipn_map. rewrite <- (take_drop n (map fst d)) in Hnd.
  apply NoDup_app in Hnd as (_ & Hdisj & _). by apply Hdisj.
Qed.

Lemma pydict_skipn_present (n : nat) k v d :
  NoDup (PyDict.keys d) → (k, v) ∈ skipn n d → PyDict.get k (skipn n d) = Some v.
Proof.
  intros Hnd Hin. apply pydict_get_Some; [|done]. unfold PyDict.keys in *.
  rewrite <- skipn_map. rewrite <- (take_drop n (map fst d)) in Hnd.
  by apply NoDup_app in Hnd as (_ & _ & ?).
Qed.

Lemma pydict_get_snoc_fresh k v d :
  PyDict.get k d = None → PyDict.get k (d ++ [(k, v)]) = Some v.
Proof.
  induction d as [|[k' v'] d IH]; simpl.
  - by rewrite String.eqb_refl.
  - by destruct (String.eqb k' k).
Qed.

Lemma pydict_get_skipn_None (n : nat) k d :
  PyDict.get k d = None → PyDict.get k (skipn n d) = None.
Proof.
  rewrite !pydict_get_None. unfold PyDict.keys. rewrite <- skipn_map.
  intros Hk Hin. apply Hk. rewrite <- (take_drop n (map fst d)).
  apply elem_of_app. by right.
Qed.

(** A reply cached under a new key is there after the eviction: the new
    key is the youngest. *)
Lemma pydict_fresh_survives k v d :
  PyDict.get k d = None →
  PyDict.get k (let stored := PyDict.set k v d in
                if (100 <? length stored)%nat then skipn 20 stored else stored)
  = Some v.
Proof.
  intros Hfresh. cbv zeta. rewrite pydict_set_fresh by done.
  destruct (Nat.ltb_spec 100 (length (d ++ [(k, v)]))) as [Hlt|_].
  - rewrite length_app in Hlt. simpl in Hlt.
    rewrite skipn_app. replace (20 - length d)%nat with 0%nat by lia. simpl.
    by apply pydict_get_snoc_fresh, pydict_get_skipn_None.
  - by apply pydict_get_snoc_fresh.
Qed.

End PyDictFacts.

Section CacheFacts.

(** The loop that deletes the keys never raises on the keys of the cache
    itself; it agrees with [PyDict.del_all]. *)
Lemma cache_del_all_run keys s c :
  PyDict.del_all keys (response_cache s) = Ok c →
  cache_del_all keys s = (Ok tt, set_response_cache c s).
Proof.
  revert s. induction keys as [|k keys IH]; simpl; intros s Hdel.
  - inversion Hdel. by destruct s.
  - unfold mbind, cache_del.
    destruct (PyDict.del k (response_cache s)) as [c0|] eqn:E; simpl in Hdel; [|done].
    rewrite (IH (set_response_cache c0 s)) by done. done.
Qed.

(** What caching a reply does to the state: it never raises, and only the
    cache changes. *)
Lemma cache_store_run cache_key reply s :
  cache_store cache_key reply s
  = (Ok tt,
     set_response_cache
       (let cache := PyDict.set cache_key reply (response_cache s) in
        if (100 <? length cache)%nat then skipn 20 cache else cache) s).
Proof.
  unfold cache_store, mbind, modify, gets. simpl.
  unfold PyDict.len.
  destruct (Nat.ltb_spec 100 (length (PyDict.set cache_key reply (response_cache s))))
    as [Hlt|Hle]; [|done].
  rewrite (cache_del_all_run _ _
             (skipn 20 (PyDict.set cache_key reply (response_cache s)))); [done|].
  simpl. apply pydict_del_all_firstn. lia.
Qed.

(** While the cache holds at most 100 entries nothing is evicted. *)
Lemma store_all_small replies s :
  NoDup (PyDict.keys (response_cache s ++ replies)) →
  (length (response_cache s ++ replies) ≤ 100)%nat →
  store_all replies s = (Ok tt, set_response_cache (response_cache s ++ replies) s).
Proof.
  revert s. induction replies as [|[k v] replies IH]; intros s Hnd Hlen.
  - simpl. rewrite app_nil_r. by destruct s.
  - simpl. unfold mbind. rewrite cache_store_run.
    assert (PyDict.get k (response_cache s) = None) as Hfresh.
    { apply pydict_get_None. unfold PyDict.keys in *. rewrite map_app in Hnd.
      apply NoDup_app in Hnd as (_ & Hdisj & _). intros Hin.
      apply (Hdisj k Hin). simpl. apply elem_of_cons. by left. }
    rewrite pydict_set_fresh by done. cbv zeta.
    rewrite length_app in Hlen. simpl in Hlen.
    destruct (Nat.ltb_spec 100 (length (response_cache s ++ [(k, v)]))) as [Hlt|_].
    { rewrite length_app in Hlt. simpl in Hlt. lia. }
    rewrite IH; simpl.
    + by rewrite <- app_assoc.
    + by rewrite <- app_assoc.
    + rewrite <- app_assoc, length_app. simpl. lia.
Qed.

Lemma store_all_snoc replies k v s :
  store_all (replies ++ [(k, v)]) s
  = (store_all replies ;;; cache_store k v)%M s.
Proof.
  revert s. induction replies as [|[k0 v0] replies IH]; intros s; simpl.
  - unfold mbind, mret. by rewrite cache_store_run.
  - unfold mbind in *. rewrite cache_store_run. by rewrite IH.
Qed.

End CacheFacts.

(** C3.  Caching a reply never raises.  When the cache then holds more than
    100 entries its first 20 entries in insertion order are removed and the
    others stay, in order; otherwise nothing is removed.  No lookup enters
    into this: the order is that of [PyDict.set] alone.  Consequently,
    caching 101 replies under distinct keys from an empty cache leaves the
    last 81 of them: the 20 earliest keys are absent. *)
Theorem response_cache_eviction (s : state) (cache_key : string) (reply : json)
    (s0 : state) (replies : list (string * json)) :
  NoDup (PyDict.keys replies) →
  length replies = 101%nat →
  response_cache s0 = PyDict.empty →
  let stored := PyDict.set cache_key reply (response_cache s) in
  let after := response_cache (cache_store cache_key reply s).2 in
  let final := response_cache (store_all replies s0).2 in
  (cache_store cache_key reply s).1 = Ok tt
  ∧ ((100 < length stored)%nat → after = skipn 20 stored)
  ∧ ((length stored ≤ 100)%nat → after = stored)
  ∧ (store_all replies s0).1 = Ok tt
  ∧ final = skipn 20 replies
  ∧ (length final ≤ 81)%nat
  ∧ (∀ k, k ∈ firstn 20 (PyDict.keys replies) → PyDict.mem k final = false)
  ∧ (∀ k v, (k, v) ∈ skipn 20 replies → PyDict.get k final = Some v).
Proof.
  intros Hnd Hlen Hempty. cbv zeta.
  rewrite cache_store_run. simpl.
  split; [done|]. split.
  { intros Hlt. by rewrite (proj2 (Nat.ltb_lt _ _) Hlt). }
  split.
  { intros Hle. by rewrite (proj2 (Nat.ltb_ge _ _) Hle). }
  induction replies as [|[k v] init _] using rev_ind; [done|].
  rewrite length_app in Hlen. simpl in Hlen.
  assert (store_all (init ++ [(k, v)]) s0
          = (Ok tt, set_response_cache (skipn 20 (init ++ [(k, v)])) s0)) as Hrun.
  { rewrite store_all_snoc. unfold mbind.
    rewrite store_all_small; rewrite Hempty; simpl.
    - rewrite cache_store_run. simpl.
      rewrite pydict_set_fresh.
      + destruct (Nat.ltb_spec 100 (length (init ++ [(k, v)]))) as [_|Hle]; [done|].
        rewrite length_app in Hle. simpl in Hle. lia.
      + apply pydict_get_None. unfold PyDict.keys in *. rewrite map_app in Hnd.
        apply NoDup_app in Hnd as (_ & Hdisj & _). intros Hin.
        apply (Hdisj k Hin). simpl. apply elem_of_cons. by left.
    - unfold PyDict.keys in *. rewrite map_app in Hnd.
      by apply NoDup_app in Hnd as (? & _ & _).
    - lia. }
  rewrite Hrun. simpl. split_and!; try done.
  - rewrite length_skipn, length_app. simpl. lia.
  - intros k0 Hin. unfold PyDict.mem. by rewrite pydict_skipn_absent.
  - intros k0 v0 Hin. by apply pydict_skipn_present.
Qed.

(** ** The OAuth callback *)

(** C8.  A callback whose [state] parameter differs from the state stored in
    the session is answered by a redirect to [/login?error=invalid_state];
    the session and the process-wide state are left as they were, so no
    user is stored in the session or in [users].  When the state matches
    and no authorization code is present the redirect carries [no_code],
    and again nothing is stored. *)
Theorem auth_callback_fails_closed (cfg : config) (g : google)
    (request : callback_request) (s : state) :
  let session := callback_session request in
  let out := auth_callback cfg g request s in
  (query_state request ≠ session_oauth_state session →
     out = ((RedirectResponse "/login?error=invalid_state" 302, session), s)
     ∧ session_user out.1.2 = session_user session
     ∧ users out.2 = users s)
  ∧ (query_state request = session_oauth_state session →
     opt_truthy (query_code request) = false →
     out = ((RedirectResponse "/login?error=no_code" 302, session), s)
     ∧ session_user out.1.2 = session_user session
     ∧ users out.2 = users s).
Proof.
  cbv zeta. unfold auth_callback. split.
  - intros Hne. by rewrite bool_decide_eq_false_2.
  - intros Heq Hcode. rewrite bool_decide_eq_true_2 by done. simpl.
    destruct (query_code request) as [[|c code]|]; done.
Qed.

(** ** The file content extractor *)

Section PyStrFacts.

Lemma split_on_nonempty sep s : PyStr.split_on sep s ≠ [].
Proof.
  destruct s as [|c s]; simpl; [done|].
  destruct (Ascii.eqb c sep); [done|].
  by destruct (PyStr.split_on sep s).
Qed.

(** Splitting at a separator splits what precedes it and what follows. *)
Lemma split_on_app sep a t :
  PyStr.split_on sep (a +:+ String sep t)
  = PyStr.split_on sep a ++ PyStr.split_on sep t.
Proof.
  induction a as [|c a IH]; simpl.
  - by rewrite Ascii.eqb_refl.
  - destruct (Ascii.eqb c sep); simpl; [by rewrite IH|].
    rewrite IH. pose proof (split_on_nonempty sep a) as Hne.
    by destruct (PyStr.split_on sep a).
Qed.

Lemma last_field_app l1 l2 :
  l2 ≠ [] → PyStr.last_field (l1 ++ l2) = PyStr.last_field l2.
Proof.
  intros Hne. unfold PyStr.last_field.
  induction l1 as [|x l1 IH]; simpl; [done|].
  rewrite IH. destruct (l1 ++ l2) eqn:E; [|done].
  apply app_eq_nil in E as [_ ?]. done.
Qed.

(** Induction on the length of a text, for what reads several bytes at
    a time. *)
Lemma string_length_ind (Q : string → Prop) :
  (∀ s, (∀ t, (String.length t < String.length s)%nat → Q t) → Q s) → ∀ s, Q s.
Proof.
  intros step s. remember (String.length s) as n eqn:Hn.
  revert s Hn. induction n as [n IH] using lt_wf_ind. intros s ->.
  apply step. intros t Ht. by apply (IH _ Ht).
Qed.

Lemma code_of_N n : (n < 256)%N → PyStr.code (ascii_of_N n) = n.
Proof. apply N_ascii_embedding. Qed.

Lemma code_bound c : (PyStr.code c < 256)%N.
Proof. apply N_ascii_bounded. Qed.

Lemma code_inj c d : PyStr.code c = PyStr.code d → c = d.
Proof.
  intros H. rewrite <- (ascii_N_embedding c), <- (ascii_N_embedding d).
  unfold PyStr.code in H. by rewrite H.
Qed.

(** A byte that [lower_ascii] changes is ASCII, and so is what it becomes. *)
Lemma lower_ascii_cases c :
  PyStr.lower_ascii c = c
  ∨ ((PyStr.code c < 128)%N ∧ (97 ≤ PyStr.code (PyStr.lower_ascii c) < 128)%N).
Proof.
  unfold PyStr.lower_ascii.
  destruct (_ && _)%N eqn:Hcap; [right|by left].
  apply andb_prop in Hcap as [?%N.leb_le ?%N.leb_le].
  rewrite code_of_N by lia. lia.
Qed.

Lemma lower_ascii_code c :
  (128 ≤ PyStr.code c)%N ∨ (128 ≤ PyStr.code (PyStr.lower_ascii c))%N →
  PyStr.lower_ascii c = c.
Proof. destruct (lower_ascii_cases c) as [?|[? ?]]; [done|lia]. Qed.

Lemma lower_ascii_idemp c : PyStr.lower_ascii (PyStr.lower_ascii c) = PyStr.lower_ascii c.
Proof.
  destruct (lower_ascii_cases c) as [Hc|[_ Hlow]]; [by rewrite !Hc|].
  unfold PyStr.lower_ascii at 1.
  by rewrite (proj2 (N.leb_gt _ 90)), andb_false_r by lia.
Qed.

(** The first byte of a character that [lower] treats as a whole is not
    ASCII, nor is its second. *)
Lemma is_latin1_capital_code c d :
  PyStr.is_latin1_capital c d = true →
  PyStr.code c = 195%N ∧ (128 ≤ PyStr.code d ≤ 158)%N.
Proof.
  unfold PyStr.is_latin1_capital.
  rewrite !andb_true_iff, N.eqb_eq, !N.leb_le. lia.
Qed.

Lemma is_dotted_capital_i_code c d :
  PyStr.is_dotted_capital_i c d = true → PyStr.code c = 196%N ∧ PyStr.code d = 176%N.
Proof. unfold PyStr.is_dotted_capital_i. by rewrite andb_true_iff, !N.eqb_eq. Qed.

Lemma is_kelvin_sign_code c d e :
  PyStr.is_kelvin_sign c d e = true →
  PyStr.code c = 226%N ∧ PyStr.code d = 132%N ∧ PyStr.code e = 170%N.
Proof. unfold PyStr.is_kelvin_sign. rewrite !andb_true_iff, !N.eqb_eq. tauto. Qed.

(** [lower] on a text of two bytes and more. *)
Lemma lower_cons2 c d s2 :
  PyStr.lower (String c (String d s2))
  = if PyStr.is_latin1_capital c d then
      String c (String (ascii_of_N (PyStr.code d + 32)) (PyStr.lower s2))
    else if PyStr.is_dotted_capital_i c d then
      String "i" (String (ascii_of_N 204) (String (ascii_of_N 135) (PyStr.lower s2)))
    else
      match s2 with
      | EmptyString => String (PyStr.lower_ascii c) (PyStr.lower (String d s2))
      | String e s3 =>
          if PyStr.is_kelvin_sign c d e then String "k" (PyStr.lower s3)
          else String (PyStr.lower_ascii c) (PyStr.lower (String d s2))
      end.
Proof. by destruct s2. Qed.

(** Where no such character starts, [lower] goes on byte by byte. *)
Lemma lower_plain c s1 :
  (∀ d s2, s1 = String d s2 →
     PyStr.is_latin1_capital c d = false
     ∧ PyStr.is_dotted_capital_i c d = false
     ∧ ∀ e s3, s2 = String e s3 → PyStr.is_kelvin_sign c d e = false) →
  PyStr.lower (String c s1) = String (PyStr.lower_ascii c) (PyStr.lower s1).
Proof.
  intros Hplain. destruct s1 as [|d s2]; [done|].
  destruct (Hplain d s2 eq_refl) as (Hl & Hi & Hk).
  rewrite lower_cons2, Hl, Hi. destruct s2 as [|e s3]; [done|].
  by rewrite (Hk e s3 eq_refl).
Qed.

Lemma lower_plain_lead c s1 :
  PyStr.code c ≠ 195%N → PyStr.code c ≠ 196%N → PyStr.code c ≠ 226%N →
  PyStr.lower (String c s1) = String (PyStr.lower_ascii c) (PyStr.lower s1).
Proof.
  intros H1 H2 H3. apply lower_plain. intros d s2 _. split_and!.
  - destruct (PyStr.is_latin1_capital c d) eqn:E; [|done].
    by apply is_latin1_capital_code in E as [? _].
  - destruct (PyStr.is_dotted_capital_i c d) eqn:E; [|done].
    by apply is_dotted_capital_i_code in E as [? _].
  - intros e s3 _. destruct (PyStr.is_kelvin_sign c d e) eqn:E; [|done].
    by apply is_kelvin_sign_code in E as [? _].
Qed.

Lemma lower_cons_ascii c s :
  (PyStr.code c <? 128)%N = true →
  PyStr.lower (String c s) = String (PyStr.lower_ascii c) (PyStr.lower s).
Proof. intros Hc%N.ltb_lt. apply lower_plain_lead; lia. Qed.

(** Lower-casing goes through a concatenation whose first part is ASCII, *)
Lemma lower_app_ascii a b :
  PyStr.is_ascii a = true →
  PyStr.lower (a +:+ b) = PyStr.lower a +:+ PyStr.lower b.
Proof.
  induction a as [|c a IH]; [done|].
  change (String c a +:+ b) with (String c (a +:+ b)).
  cbn [PyStr.is_ascii]. intros [Hc Ha]%andb_prop.
  by rewrite !lower_cons_ascii, IH.
Qed.

(** and through one whose second part starts with an ASCII character. *)
Lemma lower_app a x b :
  (PyStr.code x <? 128)%N = true →
  PyStr.lower (a +:+ String x b) = PyStr.lower a +:+ PyStr.lower (String x b).
Proof.
  intros Hx%N.ltb_lt. induction a as [a IH] using string_length_ind.
  destruct a as [|c [|d s2]]; [done| |].
  - change (PyStr.lower (String c (String x b))
            = String (PyStr.lower_ascii c) (PyStr.lower (String x b))).
    apply lower_plain. intros ? ? [= <- <-]. split_and!.
    + destruct (PyStr.is_latin1_capital c x) eqn:E; [|done].
      apply is_latin1_capital_code in E. lia.
    + destruct (PyStr.is_dotted_capital_i c x) eqn:E; [|done].
      apply is_dotted_capital_i_code in E. lia.
    + intros e s3 _. destruct (PyStr.is_kelvin_sign c x e) eqn:E; [|done].
      apply is_kelvin_sign_code in E. lia.
  - change (String c (String d s2) +:+ String x b)
      with (String c (String d (s2 +:+ String x b))).
    rewrite !lower_cons2.
    destruct (PyStr.is_latin1_capital c d); [by rewrite IH by (simpl; lia)|].
    destruct (PyStr.is_dotted_capital_i c d); [by rewrite IH by (simpl; lia)|].
    assert (PyStr.lower (String d (s2 +:+ String x b))
            = PyStr.lower (String d s2) +:+ PyStr.lower (String x b)) as Htail.
    { apply (IH (String d s2)). simpl. lia. }
    destruct s2 as [|e s3].
    + change (EmptyString +:+ String x b) with (String x b) in *. cbv beta iota.
      destruct (PyStr.is_kelvin_sign c d x) eqn:E.
      * apply is_kelvin_sign_code in E. lia.
      * by rewrite Htail.
    + change (String e s3 +:+ String x b) with (String e (s3 +:+ String x b)) in *.
      cbv beta iota.
      destruct (PyStr.is_kelvin_sign c d e); [by rewrite IH by (simpl; lia)|].
      by rewrite Htail.
Qed.

(** A byte beyond ASCII at the head of a lower-cased text was there before. *)
Lemma lower_head d s2 :
  ∃ h t, PyStr.lower (String d s2) = String h t
         ∧ ((128 ≤ PyStr.code h)%N → h = d).
Proof.
  assert (∃ h t, String (PyStr.lower_ascii d) (PyStr.lower s2) = String h t
                 ∧ ((128 ≤ PyStr.code h)%N → h = d)) as Hplain.
  { eexists _, _. split; [done|]. intros ?. apply lower_ascii_code. by right. }
  destruct s2 as [|e s3]; [done|].
  rewrite lower_cons2.
  destruct (PyStr.is_latin1_capital d e); [by eexists _, _|].
  destruct (PyStr.is_dotted_capital_i d e).
  { eexists _, _. split; [done|]. vm_compute. intros H. by destruct H. }
  destruct s3 as [|f s4]; [done|].
  destruct (PyStr.is_kelvin_sign d e f); [|done].
  eexists _, _. split; [done|]. vm_compute. intros H. by destruct H.
Qed.

(** No character is put together from what is left of two. *)
Lemma lower_plain_again c d s2 :
  PyStr.lower (String c (String d s2))
  = String (PyStr.lower_ascii c) (PyStr.lower (String d s2)) →
  PyStr.is_latin1_capital c d = false →
  PyStr.is_dotted_capital_i c d = false →
  (∀ e s3, s2 = String e s3 → PyStr.is_kelvin_sign c d e = false) →
  PyStr.lower (String (PyStr.lower_ascii c) (PyStr.lower (String d s2)))
  = String (PyStr.lower_ascii c) (PyStr.lower (PyStr.lower (String d s2))).
Proof.
  intros Hplain Hl Hi Hk.
  destruct (lower_ascii_cases c) as [Hc|[Hc Hlow]].
  2: { rewrite lower_plain_lead by lia. by rewrite lower_ascii_idemp. }
  rewrite Hc. rewrite lower_plain; [by rewrite Hc|].
  intros h t Ht.
  destruct (lower_head d s2) as (h' & t' & Ht' & Hh).
  rewrite Ht in Ht'. injection Ht' as <- <-.
  split_and!.
  - destruct (PyStr.is_latin1_capital c h) eqn:E; [|done].
    pose proof E as [? ?]%is_latin1_capital_code.
    assert (h = d) as -> by (apply Hh; lia). congruence.
  - destruct (PyStr.is_dotted_capital_i c h) eqn:E; [|done].
    pose proof E as [? ?]%is_dotted_capital_i_code.
    assert (h = d) as -> by (apply Hh; lia). congruence.
  - intros e' t' ->. destruct (PyStr.is_kelvin_sign c h e') eqn:E; [|done].
    pose proof E as (Hc' & Hd & He)%is_kelvin_sign_code.
    assert (h = d) as -> by (apply Hh; lia).
    rewrite lower_plain_lead in Ht by lia. injection Ht as _ Htail.
    destruct s2 as [|e s3]; [done|].
    destruct (lower_head e s3) as (h2 & t2 & Ht2 & Hh2).
    rewrite Htail in Ht2. injection Ht2 as <- <-.
    assert (e' = e) as -> by (apply Hh2; lia).
    by rewrite (Hk e s3 eq_refl) in E.
Qed.

(** Lower-casing twice is lower-casing once. *)
Lemma lower_idemp s : PyStr.lower (PyStr.lower s) = PyStr.lower s.
Proof.
  induction s as [s IH] using string_length_ind.
  destruct s as [|c [|d s2]]; [done| |].
  { change (PyStr.lower (String c EmptyString))
      with (String (PyStr.lower_ascii c) EmptyString).
    by rewrite lower_plain, lower_ascii_idemp by done. }
  pose proof (lower_plain_again c d s2) as Hplain.
  rewrite (lower_cons2 c d s2) in *.
  destruct (PyStr.is_latin1_capital c d) eqn:Hl.
  { clear Hplain. apply is_latin1_capital_code in Hl as [Hc Hd].
    assert (PyStr.code (ascii_of_N (PyStr.code d + 32)) = (PyStr.code d + 32)%N) as Hd'
      by (apply code_of_N; lia).
    rewrite lower_plain.
    - rewrite lower_plain_lead by lia. rewrite IH by (simpl; lia).
      rewrite !lower_ascii_code; [done|left; lia|left; lia].
    - intros ? ? [= <- <-]. split_and!.
      + destruct (PyStr.is_latin1_capital c _) eqn:E; [|done].
        apply is_latin1_capital_code in E. lia.
      + destruct (PyStr.is_dotted_capital_i c _) eqn:E; [|done].
        apply is_dotted_capital_i_code in E. lia.
      + intros e s3 _. destruct (PyStr.is_kelvin_sign c _ e) eqn:E; [|done].
        apply is_kelvin_sign_code in E. lia. }
  destruct (PyStr.is_dotted_capital_i c d) eqn:Hi.
  { clear Hplain. rewrite lower_cons_ascii by done.
    rewrite lower_plain_lead by (vm_compute; congruence).
    rewrite (lower_plain_lead (ascii_of_N 135)) by (vm_compute; congruence).
    by rewrite IH by (simpl; lia). }
  destruct s2 as [|e s3].
  { rewrite Hplain by done. by rewrite IH by (simpl; lia). }
  destruct (PyStr.is_kelvin_sign c d e) eqn:Hk.
  { rewrite lower_cons_ascii by done. by rewrite IH by (simpl; lia). }
  rewrite Hplain; [|done..|].
  - by rewrite IH by (simpl; lia).
  - by intros ? ? [= <- <-].
Qed.

(** The primitives on a text with characters of two and four bytes: the
    words, the length, a slice and the lower case are those of the
    characters.  The second byte of the accented letter, 0xA0, is no white
    space; the no-break space U+00A0, bytes 0xC2 0xA0, is.  The Kelvin sign
    U+212A, bytes 0xE2 0x84 0xAA, becomes the letter k, so that a model
    name written with it is an image model where the name in lower case
    is one, and the capital I with a dot, bytes 0xC4 0xB0, the letter i
    and the combining dot. *)
Lemma utf8_text_examples :
  PyStr.split_ws "Voilà! 😅" = ["Voilà!"; "😅"]
  ∧ PyStr.len "Voilà! 😅" = 8%nat
  ∧ PyStr.take 5 "Voilà! 😅" = "Voilà"
  ∧ PyStr.lower "ÀÉ×Ü" = "àé×ü"
  ∧ PyStr.lower (String (ascii_of_N 226) (String (ascii_of_N 132)
                   (String (ascii_of_N 170) "ANDINSKY"))) = "kandinsky"
  ∧ is_image_generation_model
      (String (ascii_of_N 226) (String (ascii_of_N 132)
         (String (ascii_of_N 170) "ANDINSKY-3"))) = true
  ∧ PyStr.lower (String (ascii_of_N 196) (String (ascii_of_N 176) "D"))
    = String "i" (String (ascii_of_N 204) (String (ascii_of_N 135) "d"))
  ∧ PyStr.split_ws ("a" +:+ String (ascii_of_N 194) (String (ascii_of_N 160) "b"))
    = ["a"; "b"]
  ∧ Json.getitem0 (JStr "😅!") = Ok (JStr "😅").
Proof. by vm_compute. Qed.

(** The extension the extractor dispatches on, for a name that ends in a
    dot and a suffix without dots. *)
Lemma last_field_suffix base suffix :
  PyStr.split_on "." suffix = [suffix] →
  PyStr.last_field (PyStr.split_on "." (base +:+ String "." suffix)) = suffix.
Proof.
  intros Hs. rewrite split_on_app, last_field_app; rewrite Hs; done.
Qed.

Lemma prefix_app needle rest : String.prefix needle (needle +:+ rest) = true.
Proof.
  induction needle as [|c n IH]; simpl; [by destruct rest|].
  destruct (ascii_dec c c); [done | congruence].
Qed.

Lemma contains_prefix needle hay :
  String.prefix needle hay = true → PyStr.contains needle hay = true.
Proof. intros H. destruct hay; cbn [PyStr.contains]; by rewrite H. Qed.

Lemma contains_app needle before after :
  PyStr.contains needle (before +:+ needle +:+ after) = true.
Proof.
  induction before as [|c b IH].
  - change (PyStr.contains needle (needle +:+ after) = true).
    apply contains_prefix, prefix_app.
  - change (String c b +:+ needle +:+ after) with (String c (b +:+ needle +:+ after)).
    simpl. rewrite IH. apply orb_true_r.
Qed.

End PyStrFacts.

Section FileFacts.
Variable P : platform.

Lemma file_extension_txt base : file_extension_of (base +:+ ".txt") = "txt".
Proof.
  unfold file_extension_of. rewrite lower_app by done.
  by apply last_field_suffix.
Qed.

Lemma file_extension_pdf base : file_extension_of (base +:+ ".pdf") = "pdf".
Proof.
  unfold file_extension_of. rewrite lower_app by done.
  by apply last_field_suffix.
Qed.

(** Every branch of the extractor returns: its own handler turns what the
    branch raises into a string. *)
Lemma process_file_content_total file_data file_name :
  ∃ text, process_file_content P file_data file_name = Ok text.
Proof.
  unfold process_file_content, rcatch, catch_unicode, decode_utf8.
  repeat case_match; eauto.
Qed.

End FileFacts.

(** C6.  [process_file_content] returns a string for every byte string and
    file name; it never raises.  For a name ending in [.txt], bytes that are
    valid UTF-8 come back as the decoded text, unchanged.  For a name ending
    in [.pdf], when the PDF library is there and reading the document or
    extracting a page raises, the result is a string containing
    ["PDF processing error"]. *)
Theorem process_file_content_never_raises (P : platform) (file_data : list byte)
    (file_name base text : string)
    (PdfReader : list byte → pyresult (list (pyresult string))) (e : exn) :
  (∃ out, process_file_content P file_data file_name = Ok out)
  ∧ (utf8_decode P file_data = Some text →
       process_file_content P file_data (base +:+ ".txt") = Ok text)
  ∧ (PyPDF2 P = Some PdfReader →
     (pages <- PdfReader file_data ;; pdf_pages 1 pages)%py = Raise e →
       ∃ out, process_file_content P file_data (base +:+ ".pdf") = Ok out
              ∧ PyStr.contains "PDF processing error" out = true).
Proof.
  split; [apply process_file_content_total|]. split.
  - intros Hdecode. unfold process_file_content.
    rewrite file_extension_txt. simpl.
    unfold decode_utf8. by rewrite Hdecode.
  - intros Hlib Hfail. unfold process_file_content.
    rewrite file_extension_pdf. simpl.
    unfold PDF_AVAILABLE. rewrite Hlib.
    rewrite bool_decide_eq_true_2 by by eexists. simpl.
    assert ((pages <- PdfReader file_data ;;
             text_content <- pdf_pages 1 pages ;;
             Ok (PyStr.join newline text_content))%py = Raise e) as ->.
    { unfold rbind in *. destruct (PdfReader file_data) as [pages|e0]; [|congruence].
      destruct (pdf_pages 1 pages); congruence. }
    simpl. eexists. split; [done|].
    apply (contains_app "PDF processing error" "[" (": " +:+ exn_str e +:+ "]")).
Qed.

(** ** The chat orchestrator *)

Section ChatFacts.
Variable cfg : config.
Variable P : platform.
Variable py_str : json → string.

Lemma init_session_append request t s :
  (init_session (session_id request) ;;; append_turn (session_id request) t)%M s
  = (Ok tt,
     set_chat_sessions
       (insert (session_id request)
               (default [] (chat_sessions s !! session_id request) ++ [t])) s).
Proof.
  unfold mbind, init_session, modify, append_turn.
  destruct (chat_sessions s !! session_id request) as [turns|] eqn:E; simpl.
  - by rewrite E.
  - rewrite lookup_insert_eq. unfold set_chat_sessions. simpl.
    by rewrite insert_insert_eq.
Qed.

(** A denied request returns at the check. *)
Lemma chat_completion_denied gw request user s :
  session_user (request_session request) = Some user →
  (check_demo_limits cfg (user_email user) s).1.1 = false →
  chat_completion cfg P py_str gw request s
  = (Ok (ErrorPayload (JStr (check_demo_limits cfg (user_email user) s).1.2)
                      (file_name request)),
     (check_demo_limits cfg (user_email user) s).2).
Proof.
  intros Huser Hdenied.
  unfold chat_completion, mbind, lift, require_auth, get_current_user, check_limits.
  rewrite Huser.
  destruct (check_demo_limits cfg (user_email user) s) as [[can_proceed msg] s1].
  simpl in *. by subst.
Qed.

(** A request let through by the check whose path is the text path. *)
Lemma chat_completion_text gw request user s :
  session_user (request_session request) = Some user →
  (check_demo_limits cfg (user_email user) s).1.1 = true →
  should_generate_image request = false →
  chat_completion cfg P py_str gw request s
  = text_path cfg P gw user request (after_user_turn cfg request (user_email user) s).
Proof.
  intros Huser Hallowed Htext.
  unfold chat_completion, lift, require_auth, get_current_user, check_limits.
  rewrite Huser. unfold after_user_turn.
  unfold mbind at 1 2.
  destruct (check_demo_limits cfg (user_email user) s) as [[can_proceed msg] s1].
  simpl in *. subst.
  pose proof (init_session_append request (user_turn request) s1) as Happ.
  unfold mbind in *. simpl in *.
  rewrite Happ. by rewrite Htext.
Qed.

Lemma after_user_turn_session request email s :
  chat_sessions (after_user_turn cfg request email s) !! session_id request
  = Some (default [] (chat_sessions s !! session_id request) ++ [user_turn request]).
Proof.
  unfold after_user_turn. simpl. rewrite lookup_insert_eq.
  by destruct (check_demo_limits_frame cfg email s) as (_ & -> & _).
Qed.

Lemma after_user_turn_frame request email s :
  let s' := after_user_turn cfg request email s in
  (∀ e, usage_of s' e = usage_of s e)
  ∧ response_cache s' = response_cache s
  ∧ users s' = users s
  ∧ trace s' = trace s.
Proof.
  destruct (check_demo_limits_frame cfg email s) as (Hu & _ & Hc & Hus & Ht).
  unfold after_user_turn. simpl. split_and!; try done.
  intros e. rewrite <- Hu. by rewrite !usage_of_lookup.
Qed.

(** The second check, the one of the image path, runs on the counters the
    first check read: it decides as the first did. *)
Lemma check_demo_limits_again request email s :
  (check_demo_limits cfg email (after_user_turn cfg request email s)).1
  = (check_demo_limits cfg email s).1.
Proof.
  destruct (after_user_turn_frame request email s) as (Hu & _).
  cbv zeta in Hu.
  destruct (is_admin_user cfg email) eqn:Hadmin.
  - apply is_admin_user_true in Hadmin as ->. by rewrite !check_demo_limits_admin.
  - apply is_admin_user_false in Hadmin.
    rewrite !check_demo_limits_demo by done. by rewrite Hu.
Qed.

(** What the [try] of the text path leaves, by outcome, when the cache
    has no entry for the key.  The gateway is called once.  A returned
    reply is in the cache under the key.  An error payload is returned
    with sessions, cache and usage records as they were.  An exception
    leaves the usage records as they were, and sessions and cache too,
    unless it is raised by [split] on the reply after the reply was
    appended and cached. *)
Lemma text_path_try_outcome gw user request key uc s :
  PyDict.get key (response_cache s) = None →
  let out := text_path_try cfg gw user request key uc s in
  trace out.2 = trace s ++ [EvGateway (ChatCompletions (model request) uc)]
  ∧ users out.2 = users s
  ∧ match out.1 with
    | Ok (ContentPayload c fn) =>
        fn = file_name request
        ∧ PyDict.get key (response_cache out.2) = Some c
        ∧ is_ok (Json.split c) = true
    | Ok (ImagePayload _ _) => False
    | Ok (ErrorPayload _ fn) =>
        fn = file_name request
        ∧ chat_sessions out.2 = chat_sessions s
        ∧ response_cache out.2 = response_cache s
        ∧ user_usage out.2 = user_usage s
    | Raise e =>
        user_usage out.2 = user_usage s
        ∧ ((chat_sessions out.2 = chat_sessions s
            ∧ response_cache out.2 = response_cache s)
           ∨ (∃ c, Json.split c = Raise e
                   ∧ PyDict.get key (response_cache out.2) = Some c))
    end.
Proof.
  intros Hmiss. cbv zeta.
  pose proof (fun reply => pydict_fresh_survives key reply (response_cache s) Hmiss)
    as Hkept.
  cbv zeta in Hkept.
  unfold text_path_try, post, mbind, lift, mret, modify, gets, append_turn, error_payload.
  repeat (step; simpl; rewrite ?cache_store_run; simpl).
  all: try (split; [done|split; [done|]]).
  all: try done.
  all: try (split; [done|]; by left).
  all: try (split; [done|]; right; eexists; split; [eassumption|]; kept_in_cache).
  all: match goal with
       | |- context [increment_usage ?c ?e ?t ?s0] =>
           destruct (increment_usage_frame c e t s0) as (_ & -> & -> & ->)
       end; simpl.
  all: split_and!; try done; [kept_in_cache|].
  all: match goal with H : Json.split _ = Ok _ |- _ => by rewrite H end.
Qed.

(** A hit: the cached reply is appended and returned, nothing else. *)
Lemma text_path_hit gw user request s cached turns :
  PyDict.get (cache_key_of (model request) (message request) (file_name request))
             (response_cache s) = Some cached →
  chat_sessions s !! session_id request = Some turns →
  text_path cfg P gw user request s
  = (Ok (ContentPayload cached (file_name request)),
     set_chat_sessions
       (insert (session_id request) (turns ++ [assistant_turn cached])) s).
Proof.
  intros Hhit Hsession. unfold text_path, mbind, gets, append_turn. simpl.
  by rewrite Hhit, Hsession.
Qed.

(** Building the user content writes nothing but the log. *)
Lemma build_user_content_run request s :
  (build_user_content P request s).1 = Ok (user_content_of P request)
  ∧ chat_sessions (build_user_content P request s).2 = chat_sessions s
  ∧ response_cache (build_user_content P request s).2 = response_cache s
  ∧ user_usage (build_user_content P request s).2 = user_usage s
  ∧ users (build_user_content P request s).2 = users s.
Proof.
  unfold build_user_content, user_content_of, mbind, modify, mret.
  by repeat case_match.
Qed.

Lemma text_path_except_error request e s :
  ∃ text, text_path_except request e s
          = (Ok (ErrorPayload (JStr text) (file_name request)), s).
Proof.
  unfold text_path_except, error_payload, mret.
  repeat case_match; by eexists.
Qed.

(** What the text path leaves, by outcome, in a state where the session
    exists.  It never raises.  A returned reply is in the cache under the
    key of the request.  An error payload leaves the usage records as
    they were, and sessions and cache too, unless [split] raised on a
    reply that was already appended and cached. *)
Lemma text_path_outcome gw user request s turns :
  chat_sessions s !! session_id request = Some turns →
  let key := cache_key_of (model request) (message request) (file_name request) in
  let out := text_path cfg P gw user request s in
  users out.2 = users s
  ∧ match out.1 with
    | Ok (ContentPayload c fn) =>
        fn = file_name request
        ∧ PyDict.get key (response_cache out.2) = Some c
    | Ok (ImagePayload _ _) => False
    | Ok (ErrorPayload _ fn) =>
        fn = file_name request
        ∧ user_usage out.2 = user_usage s
        ∧ ((chat_sessions out.2 = chat_sessions s
            ∧ response_cache out.2 = response_cache s)
           ∨ (∃ c, is_ok (Json.split c) = false
                   ∧ PyDict.get key (response_cache out.2) = Some c))
    | Raise _ => False
    end.
Proof.
  intros Hsession. cbv zeta.
  destruct (PyDict.get (cache_key_of (model request) (message request) (file_name request))
              (response_cache s)) as [cached|] eqn:Hget.
  { rewrite (text_path_hit gw user request s cached turns) by done. simpl.
    by rewrite Hget. }
  unfold text_path, mbind, gets. rewrite Hget.
  destruct (build_user_content_run request s) as (Huc & Hs & Hc & Hu & Hus).
  destruct (build_user_content P request s) as [r s2]. simpl in *. subst r.
  rewrite <- Hc in Hget.
  pose proof (text_path_try_outcome gw user request _ (user_content_of P request) s2 Hget)
    as (_ & Husers & Hout).
  cbv zeta in *. unfold mcatch.
  destruct (text_path_try cfg gw user request _ (user_content_of P request) s2)
    as [[[err fn|c fn|c fn]|e] s3]; simpl in *.
  - destruct Hout as (-> & ? & ? & ?). split; [congruence|].
    split; [done|]. split; [congruence|]. left. split; congruence.
  - destruct Hout as (-> & ? & _). split; [congruence|]. done.
  - done.
  - destruct (text_path_except_error request e s3) as [text ->]. simpl.
    destruct Hout as (? & Hcases). split; [congruence|].
    split; [done|]. split; [congruence|].
    destruct Hcases as [[? ?]|(c & Hsplit & ?)].
    + left. split; congruence.
    + right. exists c. by rewrite Hsplit.
Qed.

End ChatFacts.

(** C1, as amended.  A request denied by the usage-limit check is answered
    at once by the error payload made of the reason and the file name.  The
    gateway is not called and no upload is decoded; the sessions are left as
    they were, so the user's turn is not appended: the check comes before
    the append.  Cache and usage counters are unchanged. *)
Theorem denied_request_returns_at_once (cfg : config) (P : platform)
    (py_str : json → string) (gw : gateway) (request : chat_request)
    (user : user) (s : state) :
  session_user (request_session request) = Some user →
  (check_demo_limits cfg (user_email user) s).1.1 = false →
  let out := chat_completion cfg P py_str gw request s in
  out.1 = Ok (ErrorPayload (JStr (check_demo_limits cfg (user_email user) s).1.2)
                           (file_name request))
  ∧ trace out.2 = trace s
  ∧ chat_sessions out.2 = chat_sessions s
  ∧ response_cache out.2 = response_cache s
  ∧ (∀ email, usage_of out.2 email = usage_of s email).
Proof.
  intros Huser Hdenied. cbv zeta.
  rewrite (chat_completion_denied cfg P py_str gw request user s) by done. simpl.
  destruct (check_demo_limits_frame cfg (user_email user) s) as (Hu & Hs & Hc & _ & Ht).
  by split_and!.
Qed.

Lemma denied_request_returns_at_once_witness :
  let out := chat_completion default_config Example.host Example.render
               Example.down Example.hello Example.exhausted in
  out.1 = Ok (ErrorPayload
                (JStr "Demo limit reached (2 requests). Contact admin for full access.")
                None)
  ∧ trace out.2 = trace Example.exhausted
  ∧ chat_sessions out.2 = chat_sessions Example.exhausted
  ∧ response_cache out.2 = response_cache Example.exhausted
  ∧ (∀ email, usage_of out.2 email = usage_of Example.exhausted email).
Proof.
  apply (denied_request_returns_at_once default_config Example.host Example.render
           Example.down Example.hello Example.bob Example.exhausted);
    reflexivity.
Defined.

(** C1 as stated fails: when Bob, who has used up his requests, is denied,
    his turn is not in the session; the session was not even created. *)
Lemma denied_request_user_turn_absent :
  let out := chat_completion default_config Example.host Example.render
               Example.down Example.hello Example.exhausted in
  (check_demo_limits default_config (user_email Example.bob) Example.exhausted).1.1 = false
  ∧ out.1 = Ok (ErrorPayload
                  (JStr "Demo limit reached (2 requests). Contact admin for full access.")
                  None)
  ∧ ¬ (∃ turns, chat_sessions out.2 !! session_id Example.hello = Some turns
                ∧ user_turn Example.hello ∈ turns).
Proof.
  split; [reflexivity|]. split; [reflexivity|].
  intros (turns & Hturns & _). vm_compute in Hturns. discriminate.
Qed.

Section RepeatedRequest.
Variable cfg : config.
Variable py_str : json → string.

(** A request served by the text path that returned a reply left it in the
    cache under its key. *)
Lemma served_reply_is_cached P gw request s c fn :
  takes_text_path cfg request s →
  (chat_completion cfg P py_str gw request s).1 = Ok (ContentPayload c fn) →
  PyDict.get (cache_key_of (model request) (message request) (file_name request))
             (response_cache (chat_completion cfg P py_str gw request s).2)
  = Some c.
Proof.
  intros (user & Huser & Hallowed & Htext).
  rewrite (chat_completion_text cfg P py_str gw request user s) by done.
  pose proof (text_path_outcome cfg P gw user request _ _
                (after_user_turn_session cfg request (user_email user) s)) as (_ & Hout).
  cbv zeta in Hout. intros Hreply. rewrite Hreply in Hout. by destruct Hout.
Qed.

(** The second of two requests with the same model, message and file
    name, both served by the text path, the first answered with a reply:
    what it returns and the state it leaves. *)
Lemma repeated_request_hits P1 P2 gw1 gw2 r1 r2 s c fn :
  model r1 = model r2 → message r1 = message r2 → file_name r1 = file_name r2 →
  takes_text_path cfg r1 s →
  (chat_completion cfg P1 py_str gw1 r1 s).1 = Ok (ContentPayload c fn) →
  let s1 := (chat_completion cfg P1 py_str gw1 r1 s).2 in
  takes_text_path cfg r2 s1 →
  let out := chat_completion cfg P2 py_str gw2 r2 s1 in
  PyDict.get (cache_key_of (model r2) (message r2) (file_name r2)) (response_cache s1)
  = Some c
  ∧ out.1 = Ok (ContentPayload c (file_name r2))
  ∧ chat_sessions out.2
    = <[session_id r2 := default [] (chat_sessions s1 !! session_id r2)
                           ++ [user_turn r2; assistant_turn c]]> (chat_sessions s1)
  ∧ trace out.2 = trace s1
  ∧ response_cache out.2 = response_cache s1
  ∧ users out.2 = users s1
  ∧ (∀ email, usage_of out.2 email = usage_of s1 email).
Proof.
  intros Hmodel Hmessage Hname Hfirst Hreply s1 (user & Huser & Hallowed & Htext).
  pose proof (served_reply_is_cached P1 gw1 r1 s c fn Hfirst Hreply) as Hcached.
  rewrite Hmodel, Hmessage, Hname in Hcached. fold s1 in Hcached.
  cbv zeta. split; [done|].
  rewrite (chat_completion_text cfg P2 py_str gw2 r2 user s1) by done.
  destruct (after_user_turn_frame cfg r2 (user_email user) s1) as (Hu & Hc & Hus & Ht).
  cbv zeta in *.
  rewrite (text_path_hit cfg P2 gw2 user r2 _ c _
             ltac:(by rewrite Hc) (after_user_turn_session cfg r2 (user_email user) s1)).
  destruct (check_demo_limits_frame cfg (user_email user) s1) as (_ & Hs' & _).
  simpl. split_and!; try done.
  - rewrite Hs', insert_insert_eq. by rewrite <- app_assoc.
  - intros email. rewrite <- Hu. by rewrite !usage_of_lookup.
Qed.

End RepeatedRequest.

(** C2.  Of two requests with the same model, message and file name, both
    served by the text path, the first answered with a reply: the second is
    a cache hit.  It returns the content the first returned; its session
    gains the user's turn and then the cached reply as an assistant turn,
    the turn of role assistant whose content is that reply and whose file
    name is [None]; the gateway is not called; the usage counters are not
    incremented. *)
Theorem identical_request_is_served_from_cache (cfg : config) (P : platform)
    (py_str : json → string) (gw1 gw2 : gateway) (r1 r2 : chat_request)
    (s : state) (c : json) (fn : option string) :
  model r1 = model r2 → message r1 = message r2 → file_name r1 = file_name r2 →
  takes_text_path cfg r1 s →
  (chat_completion cfg P py_str gw1 r1 s).1 = Ok (ContentPayload c fn) →
  let s1 := (chat_completion cfg P py_str gw1 r1 s).2 in
  takes_text_path cfg r2 s1 →
  let out := chat_completion cfg P py_str gw2 r2 s1 in
  out.1 = Ok (ContentPayload c (file_name r2))
  ∧ chat_sessions out.2 !! session_id r2
    = Some (default [] (chat_sessions s1 !! session_id r2)
              ++ [Turn User (JStr (message r2))
                       (if opt_truthy (file_content r2) then file_name r2 else None)
                       (Some (is_image_request r2)) None;
                  Turn Assistant c None None None])
  ∧ trace out.2 = trace s1
  ∧ response_cache out.2 = response_cache s1
  ∧ (∀ email, usage_of out.2 email = usage_of s1 email).
Proof.
  intros Hmodel Hmessage Hname Hfirst Hreply s1 Hsecond.
  destruct (repeated_request_hits cfg py_str P P gw1 gw2 r1 r2 s c fn
              Hmodel Hmessage Hname Hfirst Hreply Hsecond)
    as (_ & Hout & Hsessions & Htrace & Hcache & _ & Husage).
  cbv zeta. split_and!; try done.
  fold s1 in Hsessions. rewrite Hsessions. by rewrite lookup_insert_eq.
Qed.

(** C10.  The cache key of the text path is made of the model, the message
    as typed and the file name, with [no_file] for a missing name; the
    upload does not enter into it.  So when two requests served by the text
    path agree on the three, whatever their file contents and whatever the
    decoders of the second would do, and the first was answered with a
    reply, that reply sits under the key of the second, the second returns
    it, and the log shows that no upload was decoded and the gateway was not
    called. *)
Theorem cache_key_ignores_file_content (cfg : config) (P1 P2 : platform)
    (py_str : json → string) (gw1 gw2 : gateway) (r1 r2 : chat_request)
    (s : state) (c : json) (fn : option string) :
  model r1 = model r2 → message r1 = message r2 → file_name r1 = file_name r2 →
  takes_text_path cfg r1 s →
  (chat_completion cfg P1 py_str gw1 r1 s).1 = Ok (ContentPayload c fn) →
  let s1 := (chat_completion cfg P1 py_str gw1 r1 s).2 in
  takes_text_path cfg r2 s1 →
  let key := cache_key_of (model r2) (message r2) (file_name r2) in
  let out := chat_completion cfg P2 py_str gw2 r2 s1 in
  cache_key_of (model r1) (message r1) (file_name r1) = key
  ∧ cache_key_of (model r2) (message r2) None
    = model r2 +:+ ":" +:+ message r2 +:+ ":no_file"
  ∧ PyDict.get key (response_cache s1) = Some c
  ∧ out.1 = Ok (ContentPayload c (file_name r2))
  ∧ trace out.2 = trace s1.
Proof.
  intros Hmodel Hmessage Hname Hfirst Hreply s1 Hsecond.
  destruct (repeated_request_hits cfg py_str P1 P2 gw1 gw2 r1 r2 s c fn
              Hmodel Hmessage Hname Hfirst Hreply Hsecond)
    as (Hcached & Hout & _ & Htrace & _).
  cbv zeta. split_and!; try done.
  by rewrite Hmodel, Hmessage, Hname.
Qed.

Lemma identical_request_is_served_from_cache_witness :
  let s1 := (chat_completion default_config Example.host Example.render
               (Example.answers (Example.completion (JStr "Hi Bob")))
               Example.hello initial_state).2 in
  let out := chat_completion default_config Example.host Example.render
               Example.down Example.hello_again s1 in
  out.1 = Ok (ContentPayload (JStr "Hi Bob") None)
  ∧ chat_sessions out.2 !! "s2"
    = Some (default [] (chat_sessions s1 !! "s2")
              ++ [Turn User (JStr "Hello") None (Some false) None;
                  Turn Assistant (JStr "Hi Bob") None None None])
  ∧ trace out.2 = trace s1
  ∧ response_cache out.2 = response_cache s1
  ∧ (∀ email, usage_of out.2 email = usage_of s1 email).
Proof.
  apply (identical_request_is_served_from_cache default_config Example.host Example.render
           (Example.answers (Example.completion (JStr "Hi Bob"))) Example.down
           Example.hello Example.hello_again initial_state (JStr "Hi Bob") None);
    try reflexivity.
  - exists Example.bob. split_and!; reflexivity.
  - exists Example.bob. split_and!; reflexivity.
Defined.

Lemma cache_key_ignores_file_content_witness :
  let s1 := (chat_completion default_config Example.host Example.render
               (Example.answers (Example.completion (JStr "Two lines.")))
               Example.notes initial_state).2 in
  let out := chat_completion default_config Example.bare_host Example.render
               Example.down Example.other_notes s1 in
  cache_key_of "gpt-4" "Summarise" (Some "notes.txt") = "gpt-4:Summarise:notes.txt"
  ∧ cache_key_of "gpt-4" "Summarise" None = "gpt-4:Summarise:no_file"
  ∧ PyDict.get "gpt-4:Summarise:notes.txt" (response_cache s1) = Some (JStr "Two lines.")
  ∧ out.1 = Ok (ContentPayload (JStr "Two lines.") (Some "notes.txt"))
  ∧ trace out.2 = trace s1.
Proof.
  apply (cache_key_ignores_file_content default_config Example.host Example.bare_host
           Example.render
           (Example.answers (Example.completion (JStr "Two lines."))) Example.down
           Example.notes Example.other_notes initial_state
           (JStr "Two lines.") (Some "notes.txt"));
    try reflexivity.
  - exists Example.bob. split_and!; reflexivity.
  - exists Example.bob. split_and!; reflexivity.
Defined.

(** C7, as amended.  In the text path, on a cache miss, when the parsed
    response is an object without an [error] field whose [choices] is a
    non-empty list, and the content extracted from the first choice is
    falsy or is the placeholder ["No response received"], the endpoint
    returns the error payload ["No response content received from API"] with
    the file name.  The session holds the user's turn and no assistant turn;
    cache and usage counters are unchanged. *)
Theorem empty_reply_is_reported (cfg : config) (P : platform) (py_str : json → string)
    (gw : gateway) (request : chat_request) (s : state)
    (response : http_response) (d : list (string * json))
    (choice : json) (rest : list json) (msg content : json) :
  takes_text_path cfg request s →
  PyDict.get (cache_key_of (model request) (message request) (file_name request))
             (response_cache s) = None →
  gw (ChatCompletions (model request) (user_content_of P request)) = Ok response →
  response_json response = Ok (JDict d) →
  PyDict.get "error" d = None →
  PyDict.get "choices" d = Some (JList (choice :: rest)) →
  Json.get choice "message" (JDict []) = Ok msg →
  Json.get msg "content" (JStr placeholder) = Ok content →
  Json.truthy content = false ∨ content = JStr placeholder →
  let out := chat_completion cfg P py_str gw request s in
  out.1 = Ok (ErrorPayload (JStr "No response content received from API")
                           (file_name request))
  ∧ chat_sessions out.2 !! session_id request
    = Some (default [] (chat_sessions s !! session_id request) ++ [user_turn request])
  ∧ response_cache out.2 = response_cache s
  ∧ (∀ email, usage_of out.2 email = usage_of s email).
Proof.
  intros (user & Huser & Hallowed & Htext) Hmiss Hgw Hjson Herror Hchoices Hmsg Hcontent Hempty.
  cbv zeta.
  rewrite (chat_completion_text cfg P py_str gw request user s) by done.
  destruct (after_user_turn_frame cfg request (user_email user) s) as (Hu & Hc & _ & _).
  pose proof (after_user_turn_session cfg request (user_email user) s) as Hsession.
  cbv zeta in *.
  generalize dependent (after_user_turn cfg request (user_email user) s).
  intros s1 Hu Hc Hsession.
  destruct (build_user_content_run P request s1) as (Huc & Hs2 & Hc2 & Hu2 & _).
  assert (text_path cfg P gw user request s1
          = (Ok (ErrorPayload (JStr "No response content received from API")
                              (file_name request)),
             log_event (EvGateway (ChatCompletions (model request)
                                     (user_content_of P request)))
                       (build_user_content P request s1).2)) as ->.
  { unfold text_path, mbind at 1, gets. rewrite Hc, Hmiss.
    unfold mbind at 1.
    destruct (build_user_content P request s1) as [uc s2]. simpl in Huc. subst uc.
    unfold mcatch, text_path_try, post, mbind, lift, mret, error_payload.
    rewrite Hgw, Hjson. simpl. unfold PyDict.mem. rewrite Herror, Hchoices. simpl.
    rewrite Hmsg, Hcontent.
    destruct Hempty as [-> | ->]; reflexivity. }
  simpl. split_and!; try done.
  - by rewrite Hs2.
  - by rewrite Hc2.
  - intros email. rewrite <- Hu. rewrite !usage_of_lookup. simpl. by rewrite Hu2.
Qed.

Lemma empty_reply_is_reported_witness :
  let out := chat_completion default_config Example.host Example.render
               (Example.answers (Example.completion (JStr EmptyString)))
               Example.hello initial_state in
  out.1 = Ok (ErrorPayload (JStr "No response content received from API") None)
  ∧ chat_sessions out.2 !! "s1"
    = Some (default [] (chat_sessions initial_state !! "s1") ++ [user_turn Example.hello])
  ∧ response_cache out.2 = response_cache initial_state
  ∧ (∀ email, usage_of out.2 email = usage_of initial_state email).
Proof.
  apply (empty_reply_is_reported default_config Example.host Example.render
           (Example.answers (Example.completion (JStr EmptyString)))
           Example.hello initial_state
           (HttpResponse 200 (Ok tt) (Ok (Example.completion (JStr EmptyString))))
           [("choices", JList [JDict [("message", JDict [("content", JStr EmptyString)])]])]
           (JDict [("message", JDict [("content", JStr EmptyString)])]) []
           (JDict [("content", JStr EmptyString)]) (JStr EmptyString));
    try reflexivity.
  - exists Example.bob. split_and!; reflexivity.
  - by left.
Defined.

(** C7 as stated fails: the response below has a non-empty [choices] list
    whose first choice carries an empty content, and the endpoint returns
    the text of its [error] field, which is tested first. *)
Lemma error_field_precedes_empty_reply :
  let out := chat_completion default_config Example.host Example.render
               (Example.answers Example.failed_completion)
               Example.hello initial_state in
  (∃ d choice msg content,
     Example.failed_completion = JDict d
     ∧ PyDict.get "choices" d = Some (JList [choice])
     ∧ Json.get choice "message" (JDict []) = Ok msg
     ∧ Json.get msg "content" (JStr placeholder) = Ok content
     ∧ Json.truthy content = false)
  ∧ out.1 = Ok (ErrorPayload (JStr "upstream overloaded") None)
  ∧ out.1 ≠ Ok (ErrorPayload (JStr "No response content received from API") None).
Proof.
  split; [|split; [reflexivity | discriminate]].
  by eexists _, _, _, _.
Qed.

(** The extent of the frame at an error return of the text path: the usage
    counters are those before the request; the cache is the one before the
    request unless the reply, which [split] rejects, was already cached. *)
Lemma text_path_error_frame (cfg : config) (P : platform) (py_str : json → string)
    (gw : gateway) (request : chat_request) (s : state) (err : json) (fn : option string) :
  takes_text_path cfg request s →
  (chat_completion cfg P py_str gw request s).1 = Ok (ErrorPayload err fn) →
  let out := chat_completion cfg P py_str gw request s in
  (∀ email, usage_of out.2 email = usage_of s email)
  ∧ (response_cache out.2 = response_cache s
     ∨ ∃ c, is_ok (Json.split c) = false
            ∧ PyDict.get (cache_key_of (model request) (message request) (file_name request))
                         (response_cache out.2) = Some c).
Proof.
  intros (user & Huser & Hallowed & Htext). cbv zeta.
  rewrite (chat_completion_text cfg P py_str gw request user s) by done.
  destruct (after_user_turn_frame cfg request (user_email user) s) as (Hu & Hc & _ & _).
  pose proof (text_path_outcome cfg P gw user request _ _
                (after_user_turn_session cfg request (user_email user) s)) as (_ & Hout).
  cbv zeta in *. intros Herr. rewrite Herr in Hout.
  destruct Hout as (_ & Husage & Hcases). split.
  - intros email. rewrite <- Hu. rewrite !usage_of_lookup. by rewrite Husage.
  - destruct Hcases as [[_ Hcache]|Hbad]; [left; congruence | by right].
Qed.

(** C9 at the failing input: the gateway answers with a reply whose content
    is a non-empty list.  The endpoint returns an error payload, the
    [AttributeError] of [split] caught by the last [except] clause, and yet
    the cache, empty before, holds the reply and the session holds it as an
    assistant turn.  The usage counters are unchanged. *)
Theorem unsplittable_reply_is_cached_on_error :
  let out := chat_completion default_config Example.host Example.render
               (Example.answers (Example.completion (JList [JStr "Hi"])))
               Example.hello initial_state in
  out.1 = Ok (ErrorPayload
                (JStr "Unexpected error: AttributeError: 'list' object has no attribute 'split'")
                None)
  ∧ response_cache initial_state = []
  ∧ response_cache out.2 = [("gpt-4:Hello:no_file", JList [JStr "Hi"])]
  ∧ chat_sessions out.2 !! "s1"
    = Some [user_turn Example.hello; assistant_turn (JList [JStr "Hi"])]
  ∧ usage_of out.2 "bob@example.com" = usage_of initial_state "bob@example.com".
Proof. by split_and!. Qed.

Lemma response_cache_eviction_witness :
  let final := response_cache (store_all Example.replies initial_state).2 in
  (cache_store "k" JNull initial_state).1 = Ok tt
  ∧ (length final ≤ 81)%nat
  ∧ PyDict.mem "0" final = false
  ∧ PyDict.mem "19" final = false
  ∧ PyDict.get "20" final = Some (JInt 20)
  ∧ PyDict.get "100" final = Some (JInt 100).
Proof.
  assert (NoDup (PyDict.keys Example.replies)) as Hnd.
  { apply (bool_decide_unpack (NoDup (PyDict.keys Example.replies))).
    vm_compute. exact I. }
  destruct (response_cache_eviction initial_state "k" JNull initial_state Example.replies
              Hnd eq_refl eq_refl)
    as (Hok & _ & _ & _ & Hfinal & Hlen & Habsent & Hpresent).
  cbv zeta. split_and!.
  - exact Hok.
  - exact Hlen.
  - apply Habsent. vm_compute. apply list_elem_of_here.
  - apply Habsent. vm_compute. do 19 apply list_elem_of_further. apply list_elem_of_here.
  - apply Hpresent. vm_compute. apply list_elem_of_here.
  - apply Hpresent. vm_compute. do 80 apply list_elem_of_further. apply list_elem_of_here.
Defined.

Lemma check_demo_limits_spec_witness :
  (check_demo_limits default_config "dinhdobathi@gmail.com" Example.exhausted).1
  = (true, EmptyString)
  ∧ (check_demo_limits default_config "bob@example.com" Example.exhausted).1
    = (false, "Demo limit reached (2 requests). Contact admin for full access.")
  ∧ ((check_demo_limits default_config "bob@example.com" initial_state).1.1 = true
     ↔ request_count (usage_of initial_state "bob@example.com") < 2
       ∧ token_count (usage_of initial_state "bob@example.com") < 100).
Proof.
  split_and!.
  - apply (proj1 (check_demo_limits_spec default_config "dinhdobathi@gmail.com"
                    Example.exhausted)).
    reflexivity.
  - apply (proj2 (check_demo_limits_spec default_config "bob@example.com"
                    Example.exhausted)); [discriminate|].
    vm_compute. discriminate.
  - apply (proj2 (check_demo_limits_spec default_config "bob@example.com" initial_state)).
    discriminate.
Defined.

Lemma increment_usage_spec_witness :
  increment_usage default_config "dinhdobathi@gmail.com" 7 initial_state = initial_state
  ∧ usage_of (increment_usage default_config "bob@example.com" 7 initial_state)
             "bob@example.com" = Usage 1 7
  ∧ usage_of (increments default_config "bob@example.com" [7; 5] initial_state)
             "bob@example.com" = Usage 2 12
  ∧ (check_demo_limits default_config "bob@example.com"
       (increments default_config "bob@example.com" [7; 5] initial_state)).1.1 = false.
Proof.
  split_and!.
  - apply (proj1 (increment_usage_spec default_config "dinhdobathi@gmail.com"
                    initial_state 7 [])).
    reflexivity.
  - apply (proj2 (increment_usage_spec default_config "bob@example.com"
                    initial_state 7 [])).
    discriminate.
  - apply (proj2 (increment_usage_spec default_config "bob@example.com"
                    initial_state 7 [7; 5])); [discriminate | reflexivity].
  - apply (proj2 (increment_usage_spec default_config "bob@example.com"
                    initial_state 7 [7; 5])); [discriminate | reflexivity |].
    vm_compute. discriminate.
Defined.

Lemma process_file_content_never_raises_witness :
  process_file_content Example.host [x68; x69]%byte "notes.txt" = Ok "hi"
  ∧ ∃ out, process_file_content Example.host [x25; x50]%byte "scan.pdf" = Ok out
           ∧ PyStr.contains "PDF processing error" out = true.
Proof.
  destruct (process_file_content_never_raises Example.host [x68; x69]%byte
              "notes.txt" "notes" "hi"
              (fun _ => Raise (Exn (OtherException "PdfReadError") "EOF marker not found"))
              (Exn (OtherException "PdfReadError") "EOF marker not found"))
    as (_ & Htxt & _).
  destruct (process_file_content_never_raises Example.host [x25; x50]%byte
              "scan.pdf" "scan" "hi"
              (fun _ => Raise (Exn (OtherException "PdfReadError") "EOF marker not found"))
              (Exn (OtherException "PdfReadError") "EOF marker not found"))
    as (_ & _ & Hpdf).
  split.
  - apply Htxt. reflexivity.
  - apply Hpdf; reflexivity.
Defined.

Lemma auth_callback_fails_closed_witness :
  auth_callback default_config Example.google_down Example.callback initial_state
  = ((RedirectResponse "/login?error=invalid_state" 302, WebSession None (Some "issued")),
     initial_state)
  ∧ auth_callback default_config Example.google_down Example.callback_without_code
      initial_state
    = ((RedirectResponse "/login?error=no_code" 302, WebSession None (Some "issued")),
       initial_state).
Proof.
  split.
  - apply (proj1 (auth_callback_fails_closed default_config Example.google_down
                    Example.callback initial_state)).
    discriminate.
  - apply (proj2 (auth_callback_fails_closed default_config Example.google_down
                    Example.callback_without_code initial_state)); reflexivity.
Defined.

(** ** The same properties on v1.2.0 *)

Section V120Facts.

(** What the [try] of v1.2.0 leaves when the cache has no entry for the
    key: a returned reply is in the cache under the key; an error payload
    or an exception leaves sessions and cache as they were. *)
Lemma v120_chat_try_outcome gw request key uc s :
  PyDict.get key (response_cache s) = None →
  let out := V120.chat_try gw request key uc s in
  trace out.2 = trace s ++ [EvGateway (ChatCompletions (model request) uc)]
  ∧ match out.1 with
    | Ok (ContentPayload c fn) =>
        fn = file_name request
        ∧ PyDict.get key (response_cache out.2) = Some c
    | Ok (ImagePayload _ _) => False
    | Ok (ErrorPayload _ fn) =>
        fn = file_name request
        ∧ chat_sessions out.2 = chat_sessions s
        ∧ response_cache out.2 = response_cache s
    | Raise e =>
        chat_sessions out.2 = chat_sessions s
        ∧ response_cache out.2 = response_cache s
    end.
Proof.
  intros Hmiss. cbv zeta.
  pose proof (fun reply => pydict_fresh_survives key reply (response_cache s) Hmiss)
    as Hkept.
  cbv zeta in Hkept.
  unfold V120.chat_try, post, mbind, lift, mret, modify, gets, append_turn, error_payload.
  repeat (step; simpl; rewrite ?cache_store_run; simpl).
  all: try done.
  all: split; [done|]; split; [done|]; kept_in_cache.
Qed.

Lemma v120_build_user_content_run P request s :
  chat_sessions (V120.build_user_content P request s).2 = chat_sessions s
  ∧ response_cache (V120.build_user_content P request s).2 = response_cache s
  ∧ is_ok (V120.build_user_content P request s).1 = true.
Proof.
  unfold V120.build_user_content, mbind, modify, mret.
  by repeat case_match.
Qed.

(** The state of v1.2.0 in which the cache is looked up. *)
Lemma v120_user_turn_appended P gw request user s :
  session_user (request_session request) = Some user →
  V120.chat_completion P gw request s
  = (let s1 := set_chat_sessions
                 (insert (session_id request)
                    (default [] (chat_sessions s !! session_id request)
                       ++ [V120.user_turn request])) s in
     match PyDict.get (cache_key_of (model request) (message request) (file_name request))
             (response_cache s) with
     | Some cached =>
         (Ok (ContentPayload cached (file_name request)),
          set_chat_sessions
            (insert (session_id request)
               (default [] (chat_sessions s !! session_id request)
                  ++ [V120.user_turn request; assistant_turn cached])) s)
     | None =>
         (user_content <- V120.build_user_content P request ;;
          mcatch (V120.chat_try gw request
                    (cache_key_of (model request) (message request) (file_name request))
                    user_content)
                 (text_path_except request))%M s1
     end).
Proof.
  intros Huser. cbv zeta.
  unfold V120.chat_completion, lift, require_auth, get_current_user.
  rewrite Huser. unfold mbind at 1. simpl.
  pose proof (init_session_append request (V120.user_turn request) s) as Happ.
  unfold mbind at 1 2. unfold mbind in Happ at 1.
  destruct (init_session (session_id request) s) as [[[]|e] s0]; [|done].
  rewrite Happ. unfold mbind at 1, gets. simpl.
  destruct (PyDict.get _ (response_cache s)) as [cached|]; [|done].
  unfold mbind, append_turn, mret. simpl. rewrite lookup_insert_eq. simpl.
  unfold set_chat_sessions. simpl. by rewrite insert_insert_eq, <- app_assoc.
Qed.

(** In v1.2.0 every request with an identity reaches the cache: after a
    request that returned a reply, a request with the same model, message
    and file name returns that reply; the gateway is not called, no upload
    is decoded, the cache is unchanged. *)
Lemma v120_repeated_request_hits P1 P2 gw1 gw2 r1 r2 u1 u2 s c fn :
  session_user (request_session r1) = Some u1 →
  session_user (request_session r2) = Some u2 →
  model r1 = model r2 → message r1 = message r2 → file_name r1 = file_name r2 →
  (V120.chat_completion P1 gw1 r1 s).1 = Ok (ContentPayload c fn) →
  let s1 := (V120.chat_completion P1 gw1 r1 s).2 in
  let out := V120.chat_completion P2 gw2 r2 s1 in
  out.1 = Ok (ContentPayload c (file_name r2))
  ∧ chat_sessions out.2 !! session_id r2
    = Some (default [] (chat_sessions s1 !! session_id r2)
              ++ [V120.user_turn r2; assistant_turn c])
  ∧ trace out.2 = trace s1
  ∧ response_cache out.2 = response_cache s1.
Proof.
  intros Hu1 Hu2 Hmodel Hmessage Hname Hreply. cbv zeta.
  assert (PyDict.get (cache_key_of (model r2) (message r2) (file_name r2))
            (response_cache (V120.chat_completion P1 gw1 r1 s).2) = Some c) as Hcached.
  { rewrite <- Hmodel, <- Hmessage, <- Hname.
    revert Hreply. rewrite (v120_user_turn_appended P1 gw1 r1 u1 s Hu1). cbv zeta.
    destruct (PyDict.get _ (response_cache s)) as [cached|] eqn:Hget; simpl.
    { intros [= -> _]. done. }
    unfold mbind, mcatch.
    destruct (v120_build_user_content_run P1 r1
                (set_chat_sessions
                   (insert (session_id r1)
                      (default [] (chat_sessions s !! session_id r1)
                         ++ [V120.user_turn r1])) s)) as (_ & Hc & Hok).
    destruct (V120.build_user_content P1 r1 _) as [[uc|e] s2]; [|done].
    simpl in Hc. rewrite <- Hc in Hget.
    pose proof (v120_chat_try_outcome gw1 r1 _ uc s2 Hget) as (_ & Hout).
    cbv zeta in Hout.
    destruct (V120.chat_try gw1 r1 _ uc s2) as [[[err fn'|c' fn'|c' fn']|e] s3];
      simpl in *.
    - done.
    - intros [= -> _]. by destruct Hout.
    - done.
    - destruct (text_path_except_error r1 e s3) as [text ->]. done. }
  rewrite (v120_user_turn_appended P2 gw2 r2 u2 _ Hu2). cbv zeta.
  rewrite Hcached. simpl. split_and!; try done.
  by rewrite lookup_insert_eq.
Qed.

End V120Facts.

(** ** The state only moves forward *)

Section Forward.
Variable cfg : config.

Create HintDb forward discriminated.

Lemma evolves_refl s : evolves s s.
Proof.
  unfold evolves. split_and!; try done.
  - intros sid turns H. exists []. by rewrite app_nil_r.
  - lia.
  - exists []. by rewrite app_nil_r.
Qed.

Lemma evolves_trans s1 s2 s3 : evolves s1 s2 → evolves s2 s3 → evolves s1 s3.
Proof.
  intros (Hu1 & Hs1 & Hc1 & Hk1 & [t1 Ht1]) (Hu2 & Hs2 & Hc2 & Hk2 & [t2 Ht2]).
  unfold evolves. split_and!.
  - intros email. destruct (Hu1 email), (Hu2 email). lia.
  - intros sid turns H. destruct (Hs1 _ _ H) as [m1 H1]. destruct (Hs2 _ _ H1) as [m2 H2].
    exists (m1 ++ m2). by rewrite app_assoc.
  - lia.
  - auto.
  - exists (t1 ++ t2). by rewrite Ht2, Ht1, app_assoc.
Qed.

Lemma evolves_for_refl email s : evolves_for cfg email s s.
Proof. split; [apply evolves_refl | done]. Qed.

Lemma evolves_for_trans email s1 s2 s3 :
  evolves_for cfg email s1 s2 → evolves_for cfg email s2 s3 → evolves_for cfg email s1 s3.
Proof.
  intros (H1 & Hl1 & Ha1) (H2 & Hl2 & Ha2). split; [by eapply evolves_trans|]. split.
  - intros e He. by rewrite Hl2, Hl1.
  - intros Hadmin. by rewrite Ha2, Ha1.
Qed.

(** A state that differs in sessions, cache and log only. *)
Lemma evolves_for_same_usage email s s' :
  user_usage s' = user_usage s →
  (∀ sid turns, chat_sessions s !! sid = Some turns →
     ∃ more, chat_sessions s' !! sid = Some (turns ++ more)) →
  (length (response_cache s') ≤ Nat.max 100 (length (response_cache s)))%nat →
  (NoDup (PyDict.keys (response_cache s)) → NoDup (PyDict.keys (response_cache s'))) →
  (∃ more, trace s' = trace s ++ more) →
  evolves_for cfg email s s'.
Proof.
  intros Hu Hs Hc Hk Ht.
  assert (∀ e, usage_of s' e = usage_of s e) as He.
  { intros e. by rewrite !usage_of_lookup, Hu. }
  split; [|by split]. unfold evolves. split_and!; try done.
  intros e. rewrite He. lia.
Qed.

Lemma forward_ret {A} email (a : A) : forward cfg email (mret a).
Proof. intros s. apply evolves_for_refl. Qed.

Lemma forward_lift {A} email (r : pyresult A) : forward cfg email (lift r).
Proof. intros s. apply evolves_for_refl. Qed.

Lemma forward_gets {A} email (f : state → A) : forward cfg email (gets f).
Proof. intros s. apply evolves_for_refl. Qed.

Lemma forward_bind {A B} email (m : M A) (k : A → M B) :
  forward cfg email m → (∀ a, forward cfg email (k a)) → forward cfg email (mbind m k).
Proof.
  intros Hm Hk s. unfold mbind. specialize (Hm s).
  destruct (m s) as [[a|e] s1]; [|done].
  eapply evolves_for_trans; [exact Hm | apply Hk].
Qed.

Lemma forward_catch {A} email (m : M A) (h : exn → M A) :
  forward cfg email m → (∀ e, forward cfg email (h e)) → forward cfg email (mcatch m h).
Proof.
  intros Hm Hh s. unfold mcatch. specialize (Hm s).
  destruct (m s) as [[a|e] s1]; [done|].
  eapply evolves_for_trans; [exact Hm | apply Hh].
Qed.

Lemma forward_log email ev : forward cfg email (modify (log_event ev)).
Proof.
  intros s. apply evolves_for_same_usage; simpl; try done.
  - intros sid turns H. exists []. by rewrite app_nil_r.
  - lia.
  - by eexists.
Qed.

Lemma forward_post email gw call : forward cfg email (post gw call).
Proof.
  intros s. apply evolves_for_same_usage; simpl; try done.
  - intros sid turns H. exists []. by rewrite app_nil_r.
  - lia.
  - by eexists.
Qed.

Lemma forward_append_turn email sid t : forward cfg email (append_turn sid t).
Proof.
  intros s. unfold append_turn.
  destruct (chat_sessions s !! sid) as [turns|] eqn:E; [|apply evolves_for_refl].
  apply evolves_for_same_usage; simpl; try done.
  - intros sid' turns' H. destruct (decide (sid = sid')) as [<-|Hne].
    + rewrite lookup_insert_eq. exists [t]. congruence.
    + rewrite lookup_insert_ne by done. exists []. by rewrite app_nil_r.
  - lia.
  - exists []. by rewrite app_nil_r.
Qed.

Lemma forward_init_session email sid : forward cfg email (init_session sid).
Proof.
  intros s. unfold init_session, modify. simpl.
  destruct (chat_sessions s !! sid) as [turns|] eqn:E; [apply evolves_for_refl|].
  apply evolves_for_same_usage; simpl; try done.
  - intros sid' turns' H. destruct (decide (sid = sid')) as [<-|Hne]; [congruence|].
    rewrite lookup_insert_ne by done. exists []. by rewrite app_nil_r.
  - lia.
  - exists []. by rewrite app_nil_r.
Qed.

Lemma pydict_set_length {V} k (v : V) d :
  (length (PyDict.set k v d) ≤ S (length d))%nat.
Proof.
  induction d as [|[k' v'] d IH]; simpl; [lia|].
  destruct (String.eqb k' k); simpl; lia.
Qed.

Lemma pydict_set_keys_present {V} k (v : V) d :
  PyDict.get k d ≠ None → PyDict.keys (PyDict.set k v d) = PyDict.keys d.
Proof.
  induction d as [|[k' v'] d IH]; simpl; [done|].
  destruct (String.eqb k' k); [done|]. intros H. simpl. f_equal. by apply IH.
Qed.

(** Assignment keeps the keys distinct. *)
Lemma pydict_set_nodup {V} k (v : V) d :
  NoDup (PyDict.keys d) → NoDup (PyDict.keys (PyDict.set k v d)).
Proof.
  intros Hnd. destruct (PyDict.get k d) as [x|] eqn:E.
  - rewrite pydict_set_keys_present; [done | by rewrite E].
  - rewrite pydict_set_fresh by done. unfold PyDict.keys in *.
    rewrite map_app. simpl. apply NoDup_app. split_and!; [done| |apply NoDup_singleton].
    intros x Hx ->%list_elem_of_singleton. by apply pydict_get_None in E.
Qed.

Lemma forward_cache_store email key reply : forward cfg email (cache_store key reply).
Proof.
  intros s. rewrite cache_store_run. simpl.
  apply evolves_for_same_usage; simpl; try done.
  - intros sid turns H. exists []. by rewrite app_nil_r.
  - pose proof (pydict_set_length key reply (response_cache s)).
    destruct (Nat.ltb_spec 100 (length (PyDict.set key reply (response_cache s)))).
    + rewrite length_skipn. lia.
    + lia.
  - intros Hnd. apply (pydict_set_nodup key reply) in Hnd.
    destruct (100 <? _)%nat; [|done].
    unfold PyDict.keys in *. rewrite <- skipn_map.
    rewrite <- (take_drop 20 (map fst _)) in Hnd.
    by apply NoDup_app in Hnd as (_ & _ & ?).
  - exists []. by rewrite app_nil_r.
Qed.

Lemma forward_check_limits email : forward cfg email (check_limits cfg email).
Proof.
  intros s. unfold check_limits.
  destruct (check_demo_limits_frame cfg email s) as (Hu & Hs & Hc & Hi & Ht).
  cbv zeta in Hu, Hs, Hc, Hi, Ht.
  assert ((let '(r, s') := check_demo_limits cfg email s in (Ok r, s')).2
          = (check_demo_limits cfg email s).2) as ->.
  { by destruct (check_demo_limits cfg email s). }
  split; [|split].
  - unfold evolves. rewrite Hs, Hc, Ht. split_and!; try done.
    + intros e. rewrite Hu. lia.
    + intros sid turns H. exists []. by rewrite app_nil_r.
    + lia.
    + exists []. by rewrite app_nil_r.
  - intros e _. apply Hu.
  - intros Hadmin. unfold check_demo_limits. by rewrite Hadmin.
Qed.

Lemma forward_increment_usage email estimated_tokens :
  0 ≤ estimated_tokens →
  forward cfg email (modify (increment_usage cfg email estimated_tokens)).
Proof.
  intros Hpos s. unfold modify. simpl.
  destruct (increment_usage_frame cfg email estimated_tokens s) as (Hs & Hc & Hi & Ht).
  cbv zeta in Hs, Hc, Hi, Ht.
  split; [|split].
  - unfold evolves. rewrite Hs, Hc, Ht. split_and!; try done.
    + intros e. destruct (decide (e = email)) as [->|Hne].
      * destruct (is_admin_user cfg email) eqn:Hadmin.
        { unfold increment_usage. rewrite Hadmin. lia. }
        apply is_admin_user_false in Hadmin.
        rewrite increment_usage_demo by done. simpl. lia.
      * rewrite increment_usage_other by done. lia.
    + intros sid turns H. exists []. by rewrite app_nil_r.
    + lia.
    + exists []. by rewrite app_nil_r.
  - intros e He. by apply increment_usage_other.
  - intros Hadmin. unfold increment_usage. by rewrite Hadmin.
Qed.

(** The steps proved forward, as hints: a goal [forward] on a handler
    written with the monad is taken apart through its binds, handlers and
    branches down to such steps. *)
#[local] Hint Extern 0 (forward _ _ (mret _)) => apply forward_ret : forward.
#[local] Hint Extern 0 (forward _ _ (lift _)) => apply forward_lift : forward.
#[local] Hint Extern 0 (forward _ _ (gets _)) => apply forward_gets : forward.
#[local] Hint Extern 0 (forward _ _ (modify (log_event _))) => apply forward_log : forward.
#[local] Hint Extern 0 (forward _ _ (modify (increment_usage _ _ _))) =>
  apply forward_increment_usage; lia : forward.
#[local] Hint Extern 0 (forward _ _ (post _ _)) => apply forward_post : forward.
#[local] Hint Extern 0 (forward _ _ (append_turn _ _)) => apply forward_append_turn : forward.
#[local] Hint Extern 0 (forward _ _ (init_session _)) => apply forward_init_session : forward.
#[local] Hint Extern 0 (forward _ _ (cache_store _ _)) => apply forward_cache_store : forward.
#[local] Hint Extern 0 (forward _ _ (check_limits _ _)) => apply forward_check_limits : forward.
#[local] Hint Extern 1 (forward _ _ (mbind _ _)) => apply forward_bind; [|intros ?] : forward.
#[local] Hint Extern 1 (forward _ _ (mcatch _ _)) => apply forward_catch; [|intros ?] : forward.
#[local] Hint Extern 2 (forward _ _ _) =>
  lazymatch goal with
  | |- forward _ _ (match ?x with _ => _ end) => destruct x
  | |- forward _ _ (let _ := _ in _) => cbv zeta
  end : forward.

Lemma forward_text_path_try gw user request key uc :
  forward cfg (user_email user) (text_path_try cfg gw user request key uc).
Proof. unfold text_path_try. auto 60 with forward nocore. Qed.

Lemma forward_text_path_except email request e :
  forward cfg email (text_path_except request e).
Proof. unfold text_path_except. auto 20 with forward nocore. Qed.

Lemma forward_build_user_content P email request :
  forward cfg email (build_user_content P request).
Proof. unfold build_user_content. auto 20 with forward nocore. Qed.

#[local] Hint Extern 0 (forward _ _ (text_path_try _ _ _ _ _ _)) =>
  apply forward_text_path_try : forward.
#[local] Hint Extern 0 (forward _ _ (text_path_except _ _)) =>
  apply forward_text_path_except : forward.
#[local] Hint Extern 0 (forward _ _ (build_user_content _ _)) =>
  apply forward_build_user_content : forward.

Lemma forward_text_path P gw user request :
  forward cfg (user_email user) (text_path cfg P gw user request).
Proof. unfold text_path. auto 20 with forward nocore. Qed.

Lemma forward_image_prompt_of P email request :
  forward cfg email (image_prompt_of P request).
Proof. unfold image_prompt_of. auto 20 with forward nocore. Qed.

Lemma forward_image_try py_str gw user request prompt :
  forward cfg (user_email user) (image_try cfg py_str gw user request prompt).
Proof. unfold image_try. auto 60 with forward nocore. Qed.

#[local] Hint Extern 0 (forward _ _ (text_path _ _ _ _ _)) =>
  apply forward_text_path : forward.
#[local] Hint Extern 0 (forward _ _ (image_prompt_of _ _)) =>
  apply forward_image_prompt_of : forward.
#[local] Hint Extern 0 (forward _ _ (image_try _ _ _ _ _ _)) =>
  apply forward_image_try : forward.

Lemma mbind_lift_ok {A B} (a : A) (k : A → M B) : mbind (lift (Ok a)) k = k a.
Proof. done. Qed.

Lemma forward_handle_image_generation P py_str gw request user :
  session_user (request_session request) = Some user →
  forward cfg (user_email user) (handle_image_generation cfg P py_str gw request).
Proof.
  intros Huser. unfold handle_image_generation, require_auth, get_current_user.
  rewrite Huser, mbind_lift_ok. auto 20 with forward nocore.
Qed.

#[local] Hint Extern 0 (forward _ _ (handle_image_generation _ _ _ _ _)) =>
  apply forward_handle_image_generation; assumption : forward.

(** Whatever the request and the gateway, the endpoint moves the state
    forward, on behalf of the identity of the request. *)
Lemma forward_chat_completion P py_str gw request user :
  session_user (request_session request) = Some user →
  forward cfg (user_email user) (chat_completion cfg P py_str gw request).
Proof.
  intros Huser. unfold chat_completion, require_auth, get_current_user.
  rewrite Huser, mbind_lift_ok. auto 20 with forward nocore.
Qed.

Lemma chat_completion_unauthenticated P py_str gw request s :
  session_user (request_session request) = None →
  chat_completion cfg P py_str gw request s
  = (Raise (Exn (HTTPException 401) "Authentication required"), s).
Proof.
  intros Hnone. unfold chat_completion, require_auth, get_current_user, mbind, lift.
  by rewrite Hnone.
Qed.

Lemma chat_completion_evolves P py_str gw request s :
  evolves s (chat_completion cfg P py_str gw request s).2.
Proof.
  destruct (session_user (request_session request)) as [user|] eqn:Huser.
  - by apply (forward_chat_completion P py_str gw request user Huser s).
  - rewrite chat_completion_unauthenticated by done. apply evolves_refl.
Qed.

Lemma serve_evolves P py_str requests s :
  evolves s (serve cfg P py_str requests s).
Proof.
  revert s. induction requests as [|[gw request] requests IH]; intros s; simpl.
  - apply evolves_refl.
  - eapply evolves_trans; [apply chat_completion_evolves | apply IH].
Qed.

Lemma serve_counters P py_str requests s email :
  request_count (usage_of s email)
    ≤ request_count (usage_of (serve cfg P py_str requests s) email)
  ∧ token_count (usage_of s email)
    ≤ token_count (usage_of (serve cfg P py_str requests s) email).
Proof. destruct (serve_evolves P py_str requests s) as (Hu & _). apply Hu. Qed.

End Forward.

(** X1.  Over any sequence of chat requests, with any gateway answers, no
    usage counter of any address ever goes down. *)
Theorem usage_never_decreases (cfg : config) (P : platform) (py_str : json → string)
    (requests : list (gateway * chat_request)) (s : state) (email : string) :
  request_count (usage_of s email)
    ≤ request_count (usage_of (serve cfg P py_str requests s) email)
  ∧ token_count (usage_of s email)
    ≤ token_count (usage_of (serve cfg P py_str requests s) email).
Proof.
  apply serve_counters.
Qed.

(** X2.  Sessions are append-only: over any sequence of chat requests a
    session that exists keeps existing, and its turns stay, in order, at the
    front of what it holds later. *)
Theorem sessions_are_append_only (cfg : config) (P : platform) (py_str : json → string)
    (requests : list (gateway * chat_request)) (s : state)
    (sid : string) (turns : list turn) :
  chat_sessions s !! sid = Some turns →
  ∃ more, chat_sessions (serve cfg P py_str requests s) !! sid = Some (turns ++ more).
Proof.
  destruct (serve_evolves cfg P py_str requests s) as (_ & Hs & _). apply Hs.
Qed.

(** X3.  In every state reached from the initial one by chat requests the
    response cache holds at most 100 entries, under pairwise distinct
    keys. *)
Theorem response_cache_stays_bounded (cfg : config) (P : platform)
    (py_str : json → string) (requests : list (gateway * chat_request)) :
  let s := serve cfg P py_str requests initial_state in
  (length (response_cache s) ≤ 100)%nat ∧ NoDup (PyDict.keys (response_cache s)).
Proof.
  destruct (serve_evolves cfg P py_str requests initial_state) as (_ & _ & Hc & Hk & _).
  simpl in *. split; [lia|]. apply Hk. constructor.
Qed.

(** X4.  A denial is permanent: once [check_demo_limits] denies an address,
    it denies it after any further sequence of chat requests, by anyone. *)
Theorem denial_is_permanent (cfg : config) (P : platform) (py_str : json → string)
    (requests : list (gateway * chat_request)) (s : state) (email : string) :
  (check_demo_limits cfg email s).1.1 = false →
  (check_demo_limits cfg email (serve cfg P py_str requests s)).1.1 = false.
Proof.
  intros Hdenied.
  destruct (is_admin_user cfg email) eqn:Hadmin.
  { apply is_admin_user_true in Hadmin as ->.
    by rewrite check_demo_limits_admin in Hdenied. }
  apply is_admin_user_false in Hadmin.
  rewrite check_demo_limits_demo in * by done.
  destruct (serve_counters cfg P py_str requests s email) as [Hr Ht].
  repeat case_match; simpl in *; try done; lia.
Qed.

(** X5 (src/main_dev.py, chat_completion): a chat request changes the
    counters of no address but that of its identity, and a request of the
    admin changes no usage record at all. *)
Theorem request_touches_own_counters (cfg : config) (P : platform)
    (py_str : json → string) (gw : gateway) (request : chat_request)
    (user : user) (s : state) :
  session_user (request_session request) = Some user →
  let out := chat_completion cfg P py_str gw request s in
  (∀ email, email ≠ user_email user → usage_of out.2 email = usage_of s email)
  ∧ (user_email user = ADMIN_EMAIL cfg → user_usage out.2 = user_usage s).
Proof.
  intros Huser. cbv zeta.
  destruct (forward_chat_completion cfg P py_str gw request user Huser s)
    as (_ & Hl & Ha).
  split_and!; try done.
  intros Hadmin. apply Ha. by apply is_admin_user_true.
Qed.

Section TextReply.
Variable cfg : config.
Variable P : platform.

(** The [try] of the text path on a reply that is a non-empty string other
    than the placeholder. *)
Lemma text_path_try_reply gw user request key uc s response d choice rest msg text turns :
  gw (ChatCompletions (model request) uc) = Ok response →
  response_json response = Ok (JDict d) →
  PyDict.get "error" d = None →
  PyDict.get "choices" d = Some (JList (choice :: rest)) →
  Json.get choice "message" (JDict []) = Ok msg →
  Json.get msg "content" (JStr placeholder) = Ok (JStr text) →
  text ≠ EmptyString → text ≠ placeholder →
  chat_sessions s !! session_id request = Some turns →
  text_path_try cfg gw user request key uc s
  = (Ok (ContentPayload (JStr text) (file_name request)),
     increment_usage cfg (user_email user)
       (Z.of_nat (length (PyStr.split_ws text)) + Z.of_nat (length (PyStr.split_ws uc)))
       (cache_store key (JStr text)
          (set_chat_sessions
             (insert (session_id request) (turns ++ [assistant_turn (JStr text)]))
             (log_event (EvGateway (ChatCompletions (model request) uc)) s))).2).
Proof.
  intros Hgw Hjson Herror Hchoices Hmsg Hcontent Hne Hph Hsession.
  unfold text_path_try, post, mbind, lift, mret, error_payload.
  rewrite Hgw, Hjson. simpl. unfold PyDict.mem. rewrite Herror, Hchoices. simpl.
  rewrite Hmsg, Hcontent. simpl.
  assert (PyStr.truthy text = true) as ->. { by destruct text. }
  assert (String.eqb text placeholder = false) as ->. { by apply String.eqb_neq. }
  simpl. unfold append_turn. simpl. rewrite Hsession.
  rewrite cache_store_run. simpl. done.
Qed.

End TextReply.

(** X6.  The successful exchange, end to end.  A request served by the text
    path on a cache miss, answered by the gateway with an object without
    [error] field whose first choice carries as content a non-empty string
    other than the placeholder, returns that string.  The history of the
    session then ends with the user's turn (the message, the file name when
    a file content came with it, the image flag) and the turn of role
    assistant whose content is that string and whose file name is [None];
    the reply is cached under the key of the request; and a demo user is
    charged one request and the words of the reply plus the words of the
    content sent, as [str.split] counts them. *)
Theorem text_reply_is_recorded (cfg : config) (P : platform) (py_str : json → string)
    (gw : gateway) (request : chat_request) (user : user) (s : state)
    (response : http_response) (d : list (string * json))
    (choice : json) (rest : list json) (msg : json) (text : string) :
  session_user (request_session request) = Some user →
  (check_demo_limits cfg (user_email user) s).1.1 = true →
  should_generate_image request = false →
  PyDict.get (cache_key_of (model request) (message request) (file_name request))
             (response_cache s) = None →
  gw (ChatCompletions (model request) (user_content_of P request)) = Ok response →
  response_json response = Ok (JDict d) →
  PyDict.get "error" d = None →
  PyDict.get "choices" d = Some (JList (choice :: rest)) →
  Json.get choice "message" (JDict []) = Ok msg →
  Json.get msg "content" (JStr placeholder) = Ok (JStr text) →
  text ≠ EmptyString → text ≠ placeholder →
  let out := chat_completion cfg P py_str gw request s in
  out.1 = Ok (ContentPayload (JStr text) (file_name request))
  ∧ get_chat_history (request_session request) (session_id request) out.2
    = Ok (default [] (chat_sessions s !! session_id request)
            ++ [Turn User (JStr (message request))
                     (if opt_truthy (file_content request) then file_name request
                      else None)
                     (Some (is_image_request request)) None;
                Turn Assistant (JStr text) None None None])
  ∧ PyDict.get (cache_key_of (model request) (message request) (file_name request))
               (response_cache out.2) = Some (JStr text)
  ∧ (user_email user ≠ ADMIN_EMAIL cfg →
       usage_of out.2 (user_email user)
       = Usage (request_count (usage_of s (user_email user)) + 1)
               (token_count (usage_of s (user_email user))
                + (Z.of_nat (length (PyStr.split_ws text))
                   + Z.of_nat (length (PyStr.split_ws (user_content_of P request)))))).
Proof.
  intros Huser Hallowed Htext Hmiss Hgw Hjson Herror Hchoices Hmsg Hcontent Hne Hph.
  cbv zeta.
  rewrite (chat_completion_text cfg P py_str gw request user s) by done.
  destruct (after_user_turn_frame cfg request (user_email user) s) as (Hu & Hc & _ & _).
  pose proof (after_user_turn_session cfg request (user_email user) s) as Hsession.
  cbv zeta in *.
  generalize dependent (after_user_turn cfg request (user_email user) s).
  intros s1 Hu Hc Hsession.
  destruct (build_user_content_run P request s1) as (Huc & Hs2 & Hc2 & Hu2 & _).
  assert (text_path cfg P gw user request s1
          = text_path_try cfg gw user request
              (cache_key_of (model request) (message request) (file_name request))
              (user_content_of P request) (build_user_content P request s1).2) as ->.
  { unfold text_path, mbind at 1, gets. rewrite Hc, Hmiss. unfold mbind at 1.
    destruct (build_user_content P request s1) as [uc s2]. simpl in Huc. subst uc.
    simpl. unfold mcatch.
    erewrite text_path_try_reply; try eassumption; [done|].
    simpl in Hs2. by rewrite Hs2. }
  erewrite text_path_try_reply; try eassumption; [|by rewrite Hs2].
  rewrite cache_store_run. simpl.
  match goal with
  | |- context [increment_usage ?c ?e ?t ?s0] =>
      destruct (increment_usage_frame c e t s0) as (Hs3 & Hc3 & _ & _);
      pose proof (increment_usage_demo c e t s0) as Hu3
  end.
  cbv zeta in Hs3, Hc3. simpl in Hs3, Hc3.
  split_and!.
  - done.
  - unfold get_chat_history, require_auth, get_current_user. rewrite Huser. simpl.
    rewrite Hs3, lookup_insert_eq. by rewrite <- app_assoc.
  - rewrite Hc3, Hc2, Hc.
    apply (pydict_fresh_survives _ (JStr text) (response_cache s) Hmiss).
  - intros Hdemo. rewrite Hu3 by done.
    assert (∀ s', user_usage s' = user_usage s1 →
                  usage_of s' (user_email user) = usage_of s (user_email user)) as Hsame.
    { intros s' Hs'. rewrite <- Hu. by rewrite !usage_of_lookup, Hs'. }
    by rewrite Hsame.
Qed.

Section StatusIgnored.
Variable cfg : config.

Lemma text_path_try_reads_json gw1 gw2 user request key uc s :
  match gw1 (ChatCompletions (model request) uc),
        gw2 (ChatCompletions (model request) uc) with
  | Ok r1, Ok r2 => response_json r1 = response_json r2
  | Raise e1, Raise e2 => e1 = e2
  | _, _ => False
  end →
  text_path_try cfg gw1 user request key uc s = text_path_try cfg gw2 user request key uc s.
Proof.
  intros Hsame. unfold text_path_try, post, mbind at 1 3, lift.
  destruct (gw1 _) as [r1|e1], (gw2 _) as [r2|e2]; try done; [|by subst].
  unfold mbind at 1 3. by rewrite Hsame.
Qed.

End StatusIgnored.

(** X7.  The text path reads the body of the gateway's response and nothing
    else of it: two gateways whose responses to the call carry the same
    parsed body, or the same parse failure, whatever their status codes and
    whatever [raise_for_status] would do, lead to the same payload and the
    same state.  A body with choices under status 500 is a success. *)
Theorem status_code_is_not_read (cfg : config) (P : platform) (py_str : json → string)
    (gw1 gw2 : gateway) (request : chat_request) (s : state) (r1 r2 : http_response) :
  takes_text_path cfg request s →
  gw1 (ChatCompletions (model request) (user_content_of P request)) = Ok r1 →
  gw2 (ChatCompletions (model request) (user_content_of P request)) = Ok r2 →
  response_json r1 = response_json r2 →
  chat_completion cfg P py_str gw1 request s = chat_completion cfg P py_str gw2 request s.
Proof.
  intros (user & Huser & Hallowed & Htext) H1 H2 Hjson.
  rewrite !(chat_completion_text cfg P py_str _ request user s) by done.
  generalize (after_user_turn cfg request (user_email user) s). intros s1.
  unfold text_path, mbind, gets, mcatch.
  destruct (PyDict.get _ _); [done|].
  destruct (build_user_content_run P request s1) as (Huc & _).
  destruct (build_user_content P request s1) as [[uc|e] s2]; [|done].
  simpl in Huc. injection Huc as ->.
  rewrite (text_path_try_reads_json cfg gw1 gw2); [done|].
  by rewrite H1, H2.
Qed.

Section KeyCollisions.

Lemma append_assoc (a b c : string) : (a +:+ b) +:+ c = a +:+ (b +:+ c).
Proof.
  induction a as [|x a IH]; [done|].
  change (String x ((a +:+ b) +:+ c) = String x (a +:+ (b +:+ c))). by rewrite IH.
Qed.

End KeyCollisions.

(** X8.  The cache key does not tell the model from the message, nor a
    missing file name from the names [no_file] and the empty one: moving a
    colon-separated part from the model to the message gives the same key.
    And the cache goes by the key alone: of two requests served by the text
    path with equal keys, the first answered with a reply, the second
    returns that reply without a call to the gateway, whatever its model
    and message. *)
Theorem equal_keys_share_replies (cfg : config) (P1 P2 : platform)
    (py_str : json → string) (gw1 gw2 : gateway) (r1 r2 : chat_request)
    (s : state) (c : json) (fn : option string) (a b m : string) :
  cache_key_of (model r1) (message r1) (file_name r1)
  = cache_key_of (model r2) (message r2) (file_name r2) →
  takes_text_path cfg r1 s →
  (chat_completion cfg P1 py_str gw1 r1 s).1 = Ok (ContentPayload c fn) →
  let s1 := (chat_completion cfg P1 py_str gw1 r1 s).2 in
  takes_text_path cfg r2 s1 →
  let out := chat_completion cfg P2 py_str gw2 r2 s1 in
  out.1 = Ok (ContentPayload c (file_name r2))
  ∧ trace out.2 = trace s1
  ∧ (∀ name, cache_key_of (a +:+ ":" +:+ b) m name = cache_key_of a (b +:+ ":" +:+ m) name)
  ∧ cache_key_of a m (Some "no_file") = cache_key_of a m None
  ∧ cache_key_of a m (Some EmptyString) = cache_key_of a m None.
Proof.
  intros Hkey Hfirst Hreply s1 (user & Huser & Hallowed & Htext).
  pose proof (served_reply_is_cached cfg py_str P1 gw1 r1 s c fn Hfirst Hreply) as Hcached.
  rewrite Hkey in Hcached. fold s1 in Hcached. cbv zeta.
  rewrite (chat_completion_text cfg P2 py_str gw2 r2 user s1) by done.
  destruct (after_user_turn_frame cfg r2 (user_email user) s1) as (_ & Hc & _ & Ht).
  cbv zeta in *.
  rewrite (text_path_hit cfg P2 gw2 user r2 _ c _
             ltac:(by rewrite Hc) (after_user_turn_session cfg r2 (user_email user) s1)).
  simpl. split_and!; try done.
  intros name. unfold cache_key_of. by rewrite !append_assoc.
Qed.

(** ** The image path *)

Section ImagePath.
Variable cfg : config.
Variable P : platform.
Variable py_str : json → string.

Lemma image_prompt_of_run request s :
  image_prompt_of P request s
  = (Ok (image_prompt_text P request),
     State (chat_sessions s) (response_cache s) (user_usage s) (users s)
           (trace s ++ upload_events request)).
Proof.
  unfold image_prompt_of, image_prompt_text, upload_events, mbind, modify, mret, log_event.
  destruct s as [cs rc uu us tr]. cbn [chat_sessions response_cache user_usage users trace].
  repeat case_match; by rewrite ?app_nil_r.
Qed.

(** The counters [increment_usage] leaves depend on the counters alone. *)
Lemma increment_usage_user_usage email estimated_tokens s1 s2 :
  user_usage s1 = user_usage s2 →
  user_usage (increment_usage cfg email estimated_tokens s1)
  = user_usage (increment_usage cfg email estimated_tokens s2).
Proof.
  intros H. unfold increment_usage, get_user_usage.
  destruct (is_admin_user cfg email); [done|].
  rewrite H. destruct (user_usage s2 !! email); simpl; by rewrite H.
Qed.

(** What the [try] of the image path leaves, by outcome, in a state where
    the session exists. *)
Lemma image_try_outcome gw user request prompt s turns :
  chat_sessions s !! session_id request = Some turns →
  let out := image_try cfg py_str gw user request prompt s in
  response_cache out.2 = response_cache s
  ∧ users out.2 = users s
  ∧ trace out.2 = trace s ++ image_calls gw (model request) prompt
  ∧ match out.1 with
    | Ok (ImagePayload c fn) =>
        fn = file_name request
        ∧ chat_sessions out.2
          = <[session_id request := turns ++ [Turn Assistant c None None (Some true)]]>
              (chat_sessions s)
        ∧ user_usage out.2
          = user_usage (increment_usage cfg (user_email user) 100 s)
    | Ok _ => False
    | Raise e =>
        chat_sessions out.2 = chat_sessions s ∧ user_usage out.2 = user_usage s
    end.
Proof.
  intros Hsession. cbv zeta.
  unfold image_try, image_calls, post, mbind, lift, mret, modify, append_turn.
  simpl. rewrite ?Hsession.
  repeat (step; simpl; rewrite ?Hsession; simpl).
  all: rewrite <- ?app_assoc; simpl.
  all: try done.
  all: match goal with
       | |- context [increment_usage ?c ?e ?t ?s0] =>
           destruct (increment_usage_frame c e t s0) as (-> & -> & -> & ->)
       end; simpl.
  all: rewrite <- ?app_assoc; simpl; split_and!; try done.
  all: by apply increment_usage_user_usage.
Qed.

(** The counters after [increment_usage], for every user. *)
Lemma usage_of_increment_usage email estimated_tokens s e :
  usage_of (increment_usage cfg email estimated_tokens s) e
  = if bool_decide (e = email) && negb (is_admin_user cfg email)
    then Usage (request_count (usage_of s email) + 1)
               (token_count (usage_of s email) + estimated_tokens)
    else usage_of s e.
Proof.
  case_bool_decide as He; simpl.
  - subst e. destruct (is_admin_user cfg email) eqn:Hadmin; simpl.
    + apply is_admin_user_true in Hadmin as ->. by rewrite increment_usage_admin.
    + apply is_admin_user_false in Hadmin. by apply increment_usage_demo.
  - by apply increment_usage_other.
Qed.

(** A request let through by the check whose path is the image path. *)
Lemma chat_completion_image gw request user s :
  session_user (request_session request) = Some user →
  (check_demo_limits cfg (user_email user) s).1.1 = true →
  should_generate_image request = true →
  chat_completion cfg P py_str gw request s
  = handle_image_generation cfg P py_str gw request
      (after_user_turn cfg request (user_email user) s).
Proof.
  intros Huser Hallowed Himage.
  unfold chat_completion, lift, require_auth, get_current_user, check_limits.
  rewrite Huser. unfold after_user_turn.
  unfold mbind at 1 2.
  destruct (check_demo_limits cfg (user_email user) s) as [[can_proceed msg] s1].
  simpl in *. subst.
  pose proof (init_session_append request (user_turn request) s1) as Happ.
  unfold mbind in *. simpl in *.
  rewrite Happ. by rewrite Himage.
Qed.

(** The image path on a request its own check lets through. *)
Lemma handle_image_generation_run gw request user s msg s' :
  session_user (request_session request) = Some user →
  check_demo_limits cfg (user_email user) s = ((true, msg), s') →
  handle_image_generation cfg P py_str gw request s
  = mcatch (image_try cfg py_str gw user request (image_prompt_text P request))
           (fun e =>
              append_turn (session_id request)
                (Turn Assistant (JStr (image_error_message (exn_str e)))
                      None None (Some false)) ;;;
              mret (error_payload (image_error_message (exn_str e)) request))%M
           (State (chat_sessions s') (response_cache s') (user_usage s') (users s')
                  (trace s' ++ upload_events request)).
Proof.
  intros Huser Hcheck.
  unfold handle_image_generation, lift, require_auth, get_current_user, check_limits.
  rewrite Huser. unfold mbind at 1 2. rewrite Hcheck. cbn [negb].
  unfold mbind at 1. by rewrite image_prompt_of_run.
Qed.

(** What a request served by the image path leaves, by outcome. *)
Lemma image_path_outcome gw request user s :
  session_user (request_session request) = Some user →
  (check_demo_limits cfg (user_email user) s).1.1 = true →
  should_generate_image request = true →
  let out := chat_completion cfg P py_str gw request s in
  response_cache out.2 = response_cache s
  ∧ users out.2 = users s
  ∧ trace out.2
    = trace s ++ upload_events request
        ++ image_calls gw (model request) (image_prompt_text P request)
  ∧ ∃ reply (is_image : bool),
      chat_sessions out.2 !! session_id request
      = Some (default [] (chat_sessions s !! session_id request)
                ++ [user_turn request; Turn Assistant reply None None (Some is_image)])
      ∧ if is_image
        then out.1 = Ok (ImagePayload reply (file_name request))
             ∧ ∀ e, usage_of out.2 e
                    = usage_of (increment_usage cfg (user_email user) 100 s) e
        else out.1 = Ok (ErrorPayload reply (file_name request))
             ∧ ∀ e, usage_of out.2 e = usage_of s e.
Proof.
  intros Huser Hallowed Himage. cbv zeta.
  rewrite (chat_completion_image gw request user s Huser Hallowed Himage).
  pose proof (after_user_turn_session cfg request (user_email user) s) as Hsession.
  destruct (after_user_turn_frame cfg request (user_email user) s)
    as (Hu1 & Hc1 & Hus1 & Ht1).
  pose proof (check_demo_limits_again cfg request (user_email user) s) as Hagain.
  cbv zeta in *.
  generalize dependent (after_user_turn cfg request (user_email user) s).
  intros s1 Hsession Hu1 Hc1 Hus1 Ht1 Hagain.
  destruct (check_demo_limits_frame cfg (user_email user) s1)
    as (Hu2 & Hs2 & Hc2 & Hus2 & Ht2).
  cbv zeta in *.
  destruct (check_demo_limits cfg (user_email user) s1) as [[can_proceed msg] s2] eqn:Hcheck.
  simpl in Hagain, Hu2, Hs2, Hc2, Hus2, Ht2.
  assert (can_proceed = true) as -> by (by rewrite <- Hallowed, <- Hagain).
  rewrite (handle_image_generation_run gw request user s1 msg s2 Huser Hcheck).
  set (s3 := State (chat_sessions s2) (response_cache s2) (user_usage s2) (users s2)
                   (trace s2 ++ upload_events request)).
  assert (chat_sessions s3 !! session_id request
          = Some (default [] (chat_sessions s !! session_id request)
                    ++ [user_turn request])) as Hsession3
    by (simpl; by rewrite Hs2).
  pose proof (image_try_outcome gw user request (image_prompt_text P request) s3 _
                Hsession3) as (Hc4 & Hus4 & Ht4 & Hout).
  cbv zeta in *. unfold mcatch.
  destruct (image_try cfg py_str gw user request (image_prompt_text P request) s3)
    as [[p|e] s4]; simpl in Hc4, Hus4, Ht4, Hout.
  - destruct p as [| |c fn]; try done.
    destruct Hout as (-> & Hs4 & Hu4). simpl.
    split_and!.
    + by rewrite Hc4; simpl; rewrite Hc2.
    + by rewrite Hus4; simpl; rewrite Hus2.
    + rewrite Ht4. simpl. by rewrite Ht2, Ht1, app_assoc.
    + exists c, true. split; [|split; [done|]].
      * rewrite Hs4, lookup_insert_eq. by rewrite <- app_assoc.
      * intros e0. rewrite usage_of_lookup, Hu4, <- usage_of_lookup.
        rewrite !usage_of_increment_usage.
        rewrite (usage_of_lookup s3). simpl.
        rewrite <- !usage_of_lookup, !Hu2, !Hu1.
        rewrite (usage_of_lookup s3). simpl.
        by rewrite <- !usage_of_lookup, !Hu2, !Hu1.
  - destruct Hout as (Hs4 & Hu4).
    simpl in Hsession3.
    unfold mbind, append_turn, mret. rewrite Hs4, Hsession3. simpl.
    split_and!.
    + by rewrite Hc4; simpl; rewrite Hc2.
    + by rewrite Hus4; simpl; rewrite Hus2.
    + rewrite Ht4. simpl. by rewrite Ht2, Ht1, app_assoc.
    + exists (JStr (image_error_message (exn_str e))), false.
      split; [|split; [done|]].
      * rewrite lookup_insert_eq. by rewrite <- app_assoc.
      * intros e0. rewrite usage_of_lookup. simpl. rewrite Hu4. simpl.
        by rewrite <- usage_of_lookup, Hu2, Hu1.
Qed.

(** X9 (src/main_dev.py, handle_image_generation and chat_completion): a
    request served by the image path never raises and never touches the
    response cache.  The session gains the user's
    turn and one assistant turn: on success the generated reply, flagged as
    an image response, with the user charged one request and a flat 100
    tokens; on any failure an error message, not flagged, returned as an
    error payload with nobody charged. *)
Theorem image_request_outcome gw request s :
  takes_image_path cfg request s →
  let out := chat_completion cfg P py_str gw request s in
  response_cache out.2 = response_cache s
  ∧ ∃ user reply (is_image : bool),
      session_user (request_session request) = Some user
      ∧ chat_sessions out.2 !! session_id request
        = Some (default [] (chat_sessions s !! session_id request)
                  ++ [user_turn request; Turn Assistant reply None None (Some is_image)])
      ∧ if is_image
        then out.1 = Ok (ImagePayload reply (file_name request))
             ∧ ∀ e, usage_of out.2 e
                    = usage_of (increment_usage cfg (user_email user) 100 s) e
        else out.1 = Ok (ErrorPayload reply (file_name request))
             ∧ ∀ e, usage_of out.2 e = usage_of s e.
Proof.
  intros (user & Huser & Hallowed & Himage). cbv zeta.
  destruct (image_path_outcome gw request user s Huser Hallowed Himage)
    as (Hc & Hus & _ & reply & is_image & Hrest).
  split_and!; try done. by exists user, reply, is_image.
Qed.

(** X10 (src/main_dev.py, handle_image_generation): on the image path the
    upload, if any, is decoded first; then the image endpoint is called
    once, with the prompt built from the message and the upload, and the
    chat endpoint is called after it exactly when the image endpoint
    answered with status 404.  Nothing else is called, whatever the
    answers. *)
Theorem image_path_calls gw request s :
  takes_image_path cfg request s →
  trace (chat_completion cfg P py_str gw request s).2
  = trace s ++ upload_events request
      ++ image_calls gw (model request) (image_prompt_text P request).
Proof.
  intros (user & Huser & Hallowed & Himage).
  by destruct (image_path_outcome gw request user s Huser Hallowed Himage)
    as (_ & _ & Ht & _).
Qed.

End ImagePath.

(** ** The endpoint as a whole *)

Section Endpoint.
Variable cfg : config.
Variable P : platform.
Variable py_str : json → string.

Lemma build_user_content_trace request s :
  trace (build_user_content P request s).2 = trace s ++ upload_events request.
Proof.
  unfold build_user_content, upload_events, mbind, modify, mret.
  repeat case_match; simpl; by rewrite ?app_nil_r.
Qed.

(** What the [except] clauses return does not depend on the state. *)
Lemma text_path_except_run request e s :
  text_path_except request e s = ((text_path_except request e initial_state).1, s).
Proof. unfold text_path_except, mret. by repeat case_match. Qed.

(** The text path on a request whose key is not in the cache. *)
Lemma text_path_miss gw user request s :
  PyDict.get (cache_key_of (model request) (message request) (file_name request))
             (response_cache s) = None →
  text_path cfg P gw user request s
  = mcatch (text_path_try cfg gw user request
              (cache_key_of (model request) (message request) (file_name request))
              (user_content_of P request))
           (text_path_except request)
           (build_user_content P request s).2.
Proof.
  intros Hmiss. unfold text_path, mbind at 1, gets. rewrite Hmiss.
  unfold mbind at 1.
  destruct (build_user_content_run P request s) as (Huc & _).
  destruct (build_user_content P request s) as [r s2]. simpl in *. by subst r.
Qed.

(** A reply returned by the [try] of the text path is a string, and its
    words and those of the user content were charged. *)
Lemma text_path_try_charge gw user request key uc s c fn :
  (text_path_try cfg gw user request key uc s).1 = Ok (ContentPayload c fn) →
  ∃ text, c = JStr text
    ∧ user_usage (text_path_try cfg gw user request key uc s).2
      = user_usage
          (increment_usage cfg (user_email user)
             (Z.of_nat (length (PyStr.split_ws text))
              + Z.of_nat (length (PyStr.split_ws uc))) s).
Proof.
  unfold text_path_try, post, mbind, lift, mret, modify, gets, append_turn, error_payload.
  repeat (step; simpl; rewrite ?cache_store_run; simpl).
  all: try done.
  all: intros [= <- <-].
  all: match goal with
       | H : Json.split ?a = Ok _ |- _ => destruct a; try done; simpl in H
       end.
  all: match goal with H : Ok _ = Ok _ |- _ => injection H as <- end.
  all: eexists; split; [done|]; by apply increment_usage_user_usage.
Qed.

(** X11 (src/main_dev.py, chat_completion): the endpoint raises for a
    request without identity only, with status 401 and nothing written;
    every request with an identity is answered by a payload, whatever the
    gateway and the libraries do. *)
Theorem chat_completion_raises_only_401 gw request s :
  match session_user (request_session request) with
  | None =>
      chat_completion cfg P py_str gw request s
      = (Raise (Exn (HTTPException 401) "Authentication required"), s)
  | Some _ => ∃ p, (chat_completion cfg P py_str gw request s).1 = Ok p
  end.
Proof.
  destruct (session_user (request_session request)) as [user|] eqn:Huser;
    [|by apply chat_completion_unauthenticated].
  destruct (check_demo_limits cfg (user_email user) s).1.1 eqn:Hallowed;
    [|rewrite (chat_completion_denied cfg P py_str gw request user s) by done;
      by eexists].
  destruct (should_generate_image request) eqn:Hpath.
  - destruct (image_path_outcome cfg P py_str gw request user s Huser Hallowed Hpath)
      as (_ & _ & _ & reply & [] & _ & Hout & _); by eexists.
  - rewrite (chat_completion_text cfg P py_str gw request user s) by done.
    pose proof (text_path_outcome cfg P gw user request _ _
                  (after_user_turn_session cfg request (user_email user) s)) as (_ & Hout).
    cbv zeta in Hout.
    destruct (text_path cfg P gw user request _).1 as [p|e]; [by eexists | done].
Qed.

(** X12 (src/main_dev.py, chat_completion): a text-path request whose key
    is not in the cache decodes the upload, if any, and then calls the
    gateway exactly once, with the model and the user content; a failure is
    not retried. *)
Theorem text_path_calls_gateway_once gw request s :
  takes_text_path cfg request s →
  PyDict.get (cache_key_of (model request) (message request) (file_name request))
             (response_cache s) = None →
  trace (chat_completion cfg P py_str gw request s).2
  = trace s ++ upload_events request
      ++ [EvGateway (ChatCompletions (model request) (user_content_of P request))].
Proof.
  intros (user & Huser & Hallowed & Htext) Hmiss.
  rewrite (chat_completion_text cfg P py_str gw request user s) by done.
  destruct (after_user_turn_frame cfg request (user_email user) s) as (_ & Hc & _ & Ht).
  cbv zeta in *. rewrite <- Hc in Hmiss. rewrite <- Ht.
  set (s1 := after_user_turn cfg request (user_email user) s) in *.
  clearbody s1. clear Hc Ht.
  rewrite text_path_miss by done.
  pose proof (build_user_content_trace request s1) as Ht2.
  destruct (build_user_content_run P request s1) as (_ & _ & Hc2 & _).
  rewrite <- Hc2 in Hmiss.
  pose proof (text_path_try_outcome cfg gw user request _ (user_content_of P request) _ Hmiss)
    as (Ht3 & _).
  cbv zeta in Ht3. unfold mcatch.
  destruct (text_path_try cfg gw user request _ (user_content_of P request) _)
    as [[p|e] s3]; simpl in *.
  - by rewrite Ht3, Ht2, app_assoc.
  - rewrite text_path_except_run. simpl. by rewrite Ht3, Ht2, app_assoc.
Qed.

(** X13 (src/main_dev.py, chat_completion): when the gateway call of a
    text-path request raises, the endpoint answers with the error payload
    its [except] clauses make of the exception; the session keeps the
    user's turn and gains no assistant turn; the cache and the usage
    counters are as before the request. *)
Theorem gateway_failure_is_reported gw request user s e :
  session_user (request_session request) = Some user →
  (check_demo_limits cfg (user_email user) s).1.1 = true →
  should_generate_image request = false →
  PyDict.get (cache_key_of (model request) (message request) (file_name request))
             (response_cache s) = None →
  gw (ChatCompletions (model request) (user_content_of P request)) = Raise e →
  let out := chat_completion cfg P py_str gw request s in
  out.1 = (text_path_except request e initial_state).1
  ∧ (∃ text, out.1 = Ok (ErrorPayload (JStr text) (file_name request)))
  ∧ chat_sessions out.2 !! session_id request
    = Some (default [] (chat_sessions s !! session_id request) ++ [user_turn request])
  ∧ response_cache out.2 = response_cache s
  ∧ ∀ email, usage_of out.2 email = usage_of s email.
Proof.
  intros Huser Hallowed Htext Hmiss Hdown. cbv zeta.
  rewrite (chat_completion_text cfg P py_str gw request user s) by done.
  pose proof (after_user_turn_session cfg request (user_email user) s) as Hsession.
  destruct (after_user_turn_frame cfg request (user_email user) s) as (Hu & Hc & _ & _).
  cbv zeta in *. rewrite <- Hc in Hmiss. rewrite <- Hc.
  setoid_rewrite <- Hu.
  set (s1 := after_user_turn cfg request (user_email user) s) in *.
  clearbody s1. clear Hc Hu.
  rewrite text_path_miss by done.
  destruct (build_user_content_run P request s1) as (_ & Hs2 & Hc2 & Hu2 & _).
  set (s2 := (build_user_content P request s1).2) in *. clearbody s2.
  assert (mcatch (text_path_try cfg gw user request
                    (cache_key_of (model request) (message request) (file_name request))
                    (user_content_of P request))
                 (text_path_except request) s2
          = ((text_path_except request e initial_state).1,
             log_event (EvGateway (ChatCompletions (model request)
                                     (user_content_of P request))) s2)) as ->.
  { unfold mcatch, text_path_try, post, mbind at 1. rewrite Hdown.
    by rewrite text_path_except_run. }
  destruct (text_path_except_error request e initial_state) as [text Htext'].
  rewrite Htext'. simpl. split_and!; try done.
  - by eexists.
  - by rewrite Hs2.
  - intros email. rewrite !usage_of_lookup. simpl. by rewrite Hu2.
Qed.

(** What a text-path request that obtained a reply was charged. *)
Lemma text_reply_charge gw request user s c fn :
  session_user (request_session request) = Some user →
  (check_demo_limits cfg (user_email user) s).1.1 = true →
  should_generate_image request = false →
  PyDict.get (cache_key_of (model request) (message request) (file_name request))
             (response_cache s) = None →
  let out := chat_completion cfg P py_str gw request s in
  out.1 = Ok (ContentPayload c fn) →
  ∃ text, c = JStr text
    ∧ ∀ email,
        usage_of out.2 email
        = usage_of
            (increment_usage cfg (user_email user)
               (Z.of_nat (length (PyStr.split_ws text))
                + Z.of_nat (length (PyStr.split_ws (user_content_of P request)))) s)
            email.
Proof.
  intros Huser Hallowed Htext Hmiss. cbv zeta.
  rewrite (chat_completion_text cfg P py_str gw request user s) by done.
  destruct (after_user_turn_frame cfg request (user_email user) s) as (Hu & Hc & _ & _).
  cbv zeta in *. rewrite <- Hc in Hmiss.
  set (s1 := after_user_turn cfg request (user_email user) s) in *.
  clearbody s1. clear Hc.
  rewrite text_path_miss by done.
  destruct (build_user_content_run P request s1) as (_ & _ & _ & Hu2 & _).
  set (s2 := (build_user_content P request s1).2) in *. clearbody s2.
  unfold mcatch.
  pose proof (text_path_try_charge gw user request
                (cache_key_of (model request) (message request) (file_name request))
                (user_content_of P request) s2 c fn) as Hcharge.
  destruct (text_path_try cfg gw user request _ (user_content_of P request) s2)
    as [[p|e] s3]; simpl in *.
  - intros [= ->]. destruct (Hcharge eq_refl) as (text & -> & Hu3).
    exists text. split; [done|]. intros email.
    rewrite usage_of_lookup, Hu3, <- usage_of_lookup.
    rewrite !usage_of_increment_usage.
    by rewrite !(usage_of_lookup s2), Hu2, <- !usage_of_lookup, !Hu.
  - destruct (text_path_except_error request e s3) as [text ->]. done.
Qed.

(** X23 (src/main_dev.py, chat_completion): a reply that a text-path
    request obtains from the gateway is a string, and the user is charged
    for it one request and as many tokens as the reply and the user content
    have words, the content of an upload included; the words are those of
    [str.split], the runs of characters between Unicode white space. *)
Theorem served_reply_is_charged gw request s c fn :
  takes_text_path cfg request s →
  PyDict.get (cache_key_of (model request) (message request) (file_name request))
             (response_cache s) = None →
  (chat_completion cfg P py_str gw request s).1 = Ok (ContentPayload c fn) →
  ∃ user text,
    session_user (request_session request) = Some user
    ∧ c = JStr text
    ∧ ∀ email,
        usage_of (chat_completion cfg P py_str gw request s).2 email
        = usage_of
            (increment_usage cfg (user_email user)
               (Z.of_nat (length (PyStr.split_ws text))
                + Z.of_nat (length (PyStr.split_ws (user_content_of P request)))) s)
            email.
Proof.
  intros (user & Huser & Hallowed & Htext) Hmiss Hreply.
  destruct (text_reply_charge gw request user s c fn Huser Hallowed Htext Hmiss Hreply)
    as (text & -> & Hcharge).
  by exists user, text.
Qed.

End Endpoint.

(** ** Signing in and out *)

Section SignIn.
Variable cfg : config.

(** X14 (src/auth_dev.py, auth_callback): a callback whose state is the
    one of the session and whose code Google exchanges for a profile, with
    an id that can be a dictionary key, signs the user in.  The redirect
    goes to [/]; the session holds the identity and no longer holds a
    state; the identity is filed in [users] under its id, by the one
    assignment made to [users]; it is an administrator exactly when the
    e-mail is the configured one; its usage is the counters the e-mail had.
    No counter changes, nor do sessions, cache or log. *)
Theorem callback_signs_the_user_in (g : google) (request : callback_request) (s : state)
    (code : string) (token_info access_token : json) (info : userinfo) :
  query_state request = session_oauth_state (callback_session request) →
  query_code request = Some code →
  code ≠ EmptyString →
  post_token g code = Ok token_info →
  Json.getitem token_info "access_token" = Ok access_token →
  get_userinfo g access_token = Ok info →
  Json.hashable (info_id info) = true →
  let out := auth_callback cfg g request s in
  let user := UserIdentity (info_id info) (info_email info)
                (default (JStr EmptyString) (info_name info))
                (default (JStr EmptyString) (info_picture info))
                (is_admin_user cfg (info_email info))
                (usage_of s (info_email info)) in
  out.1 = (RedirectResponse "/" 302, WebSession (Some user) None)
  ∧ require_auth out.1.2 = Ok user
  ∧ users out.2 = users s ++ [(info_id info, user)]
  ∧ (user_is_admin user = true ↔ info_email info = ADMIN_EMAIL cfg)
  ∧ (∀ email, usage_of out.2 email = usage_of s email)
  ∧ chat_sessions out.2 = chat_sessions s
  ∧ response_cache out.2 = response_cache s
  ∧ trace out.2 = trace s.
Proof.
  intros Hstate Hcode Hne Htoken Haccess Hinfo Hkey. cbv zeta.
  unfold auth_callback. rewrite bool_decide_eq_true_2 by done. simpl.
  rewrite Hcode. destruct code as [|c code]; [done|].
  unfold rbind. rewrite Htoken, Haccess, Hinfo.
  destruct (get_user_usage_frame (info_email info) s) as (Hu & _ & Hs & Hc & Hus & Ht).
  cbv zeta in *. unfold usage_of at 1 2 3.
  destruct (get_user_usage (info_email info) s) as [u s1]. simpl in *.
  rewrite Hkey. simpl.
  split_and!; try done.
  - by rewrite Hus.
  - apply is_admin_user_true.
  - intros email. rewrite <- Hu. by rewrite !usage_of_lookup.
Qed.

(** X15 (src/auth_dev.py, auth_callback): when the exchange with Google
    fails at any step (the token request, a token answer without
    [access_token], the profile request) the callback redirects to
    [/login?error=auth_failed]; the session, with its state, and the
    process-wide state are left as they were. *)
Theorem failed_exchange_signs_nobody_in (g : google) (request : callback_request)
    (s : state) (code : string) (e : exn) :
  query_state request = session_oauth_state (callback_session request) →
  query_code request = Some code →
  code ≠ EmptyString →
  (token_info <- post_token g code ;;
   access_token <- Json.getitem token_info "access_token" ;;
   get_userinfo g access_token)%py = Raise e →
  auth_callback cfg g request s
  = ((RedirectResponse "/login?error=auth_failed" 302, callback_session request), s).
Proof.
  intros Hstate Hcode Hne Hfail.
  unfold auth_callback. rewrite bool_decide_eq_true_2 by done. simpl.
  rewrite Hcode. destruct code as [|c code]; [done|]. by rewrite Hfail.
Qed.

(** X16 (src/auth_dev.py, login_google and auth_callback): [login_google]
    keeps the identity of the session and stores the state it was given;
    the callback that follows is turned away with [invalid_state] exactly
    when its [state] parameter is not that state. *)
Theorem issued_state_is_required (g : google) (session : web_session)
    (issued : string) (code returned : option string) (s : state) :
  let session' := (login_google cfg issued session).2 in
  let out := auth_callback cfg g (CallbackRequest code returned session') s in
  session_user session' = session_user session
  ∧ status_code (login_google cfg issued session).1 = 302
  ∧ (url out.1.1 = "/login?error=invalid_state" ↔ returned ≠ Some issued).
Proof.
  cbv zeta. split; [done|]. split; [done|].
  unfold auth_callback. simpl.
  destruct (decide (returned = Some issued)) as [->|Hne].
  - rewrite bool_decide_eq_true_2 by done. simpl.
    split; [|done]. intros Hurl. exfalso. revert Hurl.
    destruct code as [[|c code]|]; simpl; try done.
    by repeat case_match.
  - by rewrite bool_decide_eq_false_2.
Qed.

(** Every answer of the callback: the sign-in, which clears the state of
    the session, or one of three refusals. *)
Lemma auth_callback_outcomes (g : google) (request : callback_request) (s : state) :
  let out := auth_callback cfg g request s in
  (url out.1.1 = "/" ∧ is_Some (session_user out.1.2)
   ∧ session_oauth_state out.1.2 = None)
  ∨ (url out.1.1 = "/login?error=invalid_state"
     ∨ url out.1.1 = "/login?error=no_code"
     ∨ url out.1.1 = "/login?error=auth_failed").
Proof.
  cbv zeta. unfold auth_callback.
  repeat case_match; simpl; eauto 10.
Qed.

(** X17 (src/auth_dev.py, auth_callback): the state is used up by the
    sign-in.  When a callback carrying a [state] parameter has signed a
    user in, the same query sent again with the session it left is turned
    away with [invalid_state], and the user stays signed in. *)
Theorem state_is_single_use (g : google) (request : callback_request) (s : state) :
  is_Some (query_state request) →
  let out := auth_callback cfg g request s in
  url out.1.1 = "/" →
  auth_callback cfg g
    (CallbackRequest (query_code request) (query_state request) out.1.2) out.2
  = ((RedirectResponse "/login?error=invalid_state" 302, out.1.2), out.2).
Proof.
  intros [st Hst] out Hurl.
  destruct (auth_callback_outcomes g request s)
    as [(_ & _ & Hcleared)|[H|[H|H]]]; fold out in Hcleared || fold out in H;
    try (rewrite Hurl in H; done).
  unfold auth_callback at 1. simpl. rewrite Hcleared, Hst.
  by rewrite bool_decide_eq_false_2.
Qed.

End SignIn.

(** ** The other endpoints *)

Section Endpoints.
Variable cfg : config.

(** X18 (src/auth_dev.py, logout; src/main_dev.py, the endpoints): after
    [logout] the session opens no protected endpoint: each raises with
    status 401 and writes nothing, the chat page redirects to [/login] and
    the login page is shown. *)
Theorem logout_closes_the_endpoints (P : platform) (py_str : json → string)
    (gw : gateway) (fetch : pyresult http_response) (session : web_session)
    (request : chat_request) (sid uuid : string) (error message : option string)
    (s : state) :
  let session' := (logout session).2 in
  let denied {A} : pyresult A := Raise (Exn (HTTPException 401) "Authentication required") in
  request_session request = session' →
  chat_completion cfg P py_str gw request s = (denied, s)
  ∧ create_new_session session' uuid s = (denied, s)
  ∧ get_chat_history session' sid s = denied
  ∧ get_usage cfg session' = denied
  ∧ get_models fetch session' = denied
  ∧ chat_page session' = PageRedirect (RedirectResponse "/login" 302)
  ∧ (∃ shown, login_page session' error message = LoginPage shown)
  ∧ url (logout session).1 = "/login".
Proof.
  cbv zeta. intros Hsession. split_and!; try done.
  - apply chat_completion_unauthenticated. by rewrite Hsession.
  - by eexists.
Qed.

(** X19 (src/main_dev.py, chat_page and login_page): the two pages never
    redirect to each other in a loop.  A session with an identity gets the
    chat page and is sent from [/login] to [/]; a session without gets the
    login page and is sent from [/] to [/login]. *)
Theorem pages_redirect_once (session : web_session) (error message : option string) :
  match session_user session with
  | Some user =>
      chat_page session = ChatPage user
      ∧ login_page session error message = PageRedirect (RedirectResponse "/" 302)
  | None =>
      chat_page session = PageRedirect (RedirectResponse "/login" 302)
      ∧ ∃ shown, login_page session error message = LoginPage shown
  end.
Proof.
  unfold chat_page, login_page, get_current_user.
  destruct (session_user session); split; try done. by eexists.
Qed.

(** X20 (src/auth_dev.py, auth_callback; src/main_dev.py, login_page):
    every answer of the callback is a redirect with status 302, to [/] with
    a session that passes [require_auth], or to the login page with one of
    three error tags.  A refusal leaves the state of the session, the
    counters, the chat sessions, the cache, the log and [users] as they
    were; under [invalid_state] and [no_code] it leaves the whole session
    and the whole process-wide state as they were; followed with a session
    without identity, the login page shows the message it has for the tag.
    [auth_failed] does not tell that nobody was signed in: when the profile
    Google returns has an id that cannot be a dictionary key, the identity
    is already in the session when filing it in [users] raises; the answer
    is [auth_failed], the session passes [require_auth], and the login
    page it redirects to sends the user on to [/]. *)
Theorem callback_refusals_are_shown (g : google) (request : callback_request) (s : state) :
  let out := auth_callback cfg g request s in
  status_code out.1.1 = 302
  ∧ ((url out.1.1 = "/" ∧ is_ok (require_auth out.1.2) = true)
     ∨ ∃ tag shown,
         url out.1.1 = "/login?error=" +:+ tag
         ∧ In (tag, shown)
              [("invalid_state", "Invalid authentication state. Please try again.");
               ("no_code", "Authentication failed. Please try again.");
               ("auth_failed", "Authentication failed. Please try again.")]
         ∧ session_oauth_state out.1.2 = session_oauth_state (callback_session request)
         ∧ (∀ email, usage_of out.2 email = usage_of s email)
         ∧ chat_sessions out.2 = chat_sessions s
         ∧ response_cache out.2 = response_cache s
         ∧ trace out.2 = trace s
         ∧ users out.2 = users s
         ∧ (tag ≠ "auth_failed" → out.1.2 = callback_session request ∧ out.2 = s)
         ∧ (session_user out.1.2 = None →
            login_page out.1.2 (Some tag) None = LoginPage (Some shown)))
  ∧ (∀ code token_info access_token info,
       query_state request = session_oauth_state (callback_session request) →
       query_code request = Some code →
       code ≠ EmptyString →
       post_token g code = Ok token_info →
       Json.getitem token_info "access_token" = Ok access_token →
       get_userinfo g access_token = Ok info →
       Json.hashable (info_id info) = false →
       url out.1.1 = "/login?error=auth_failed"
       ∧ (∃ user, require_auth out.1.2 = Ok user ∧ user_id user = info_id info
                  ∧ user_email user = info_email info)
       ∧ login_page out.1.2 (Some "auth_failed") None
         = PageRedirect (RedirectResponse "/" 302)).
Proof.
  cbv zeta. split_and!.
  - unfold auth_callback. by repeat case_match.
  - unfold auth_callback, login_page, get_current_user.
    repeat case_match; simpl.
    all: first [ by left | right; eexists _, _; split; [reflexivity|] ].
    all: split;
           [first [ left; reflexivity | right; left; reflexivity
                  | right; right; left; reflexivity ]|].
    all: try match goal with
             | H : get_user_usage ?e ?s0 = (_, ?s1) |- _ =>
                 destruct (get_user_usage_frame e s0) as (Hu & _ & Hs & Hc & Hus & Ht);
                 rewrite H in Hu, Hs, Hc, Hus, Ht; simpl in Hu, Hs, Hc, Hus, Ht
             end.
    all: split_and!; try done.
    all: try (intros email; rewrite <- Hu; by rewrite !usage_of_lookup).
    all: intros Hnone; simpl in *; congruence.
  - intros code token_info access_token info Hstate Hcode Hne Htoken Haccess Hinfo Hkey.
    unfold auth_callback, login_page, require_auth, get_current_user.
    rewrite bool_decide_eq_true_2 by done. simpl.
    rewrite Hcode. destruct code as [|c code]; [done|].
    unfold rbind. rewrite Htoken, Haccess, Hinfo.
    destruct (get_user_usage (info_email info) s) as [u s1]. simpl.
    rewrite Hkey. simpl. split_and!; try done. by eexists.
Qed.

(** X21 (src/main_dev.py, get_usage; src/auth_dev.py, check_demo_limits):
    the usage report names the request ceiling only.  For a demo user whose
    session carries counters under the request ceiling and at or over the
    token ceiling, [limit_reached] is reported false, while the check on
    the same counters denies the request. *)
Theorem token_ceiling_is_not_reported (user : user) (s : state) :
  user_is_admin user = false →
  user_email user ≠ ADMIN_EMAIL cfg →
  usage_of s (user_email user) = user_usage_at_login user →
  request_count (user_usage_at_login user) < DEMO_REQUEST_LIMIT cfg →
  DEMO_TOKEN_LIMIT cfg ≤ token_count (user_usage_at_login user) →
  (∃ rc tc rl tl,
     get_usage cfg (WebSession (Some user) None) = Ok (Limited rc tc rl tl false))
  ∧ (check_demo_limits cfg (user_email user) s).1
    = (false, token_limit_message cfg).
Proof.
  intros Hdemo Hne Hsame Hreq Htok. split.
  - unfold get_usage, require_auth, get_current_user. simpl. rewrite Hdemo.
    rewrite (proj2 (Z.leb_gt _ _)) by done. by eexists _, _, _, _.
  - rewrite check_demo_limits_demo by done. rewrite Hsame.
    rewrite (proj2 (Z.leb_gt _ _)) by done.
    by rewrite (proj2 (Z.leb_le _ _)).
Qed.

End Endpoints.

(** ** Histories *)

Section Histories.
Variable cfg : config.
Variable P : platform.
Variable py_str : json → string.

(** The session of a request that passed the check holds, from then on,
    what it held, the user's turn, and what the chosen path appended. *)
Lemma allowed_request_session gw request user s :
  session_user (request_session request) = Some user →
  (check_demo_limits cfg (user_email user) s).1.1 = true →
  ∃ more,
    chat_sessions (chat_completion cfg P py_str gw request s).2 !! session_id request
    = Some (default [] (chat_sessions s !! session_id request)
              ++ user_turn request :: more).
Proof.
  intros Huser Hallowed.
  pose proof (after_user_turn_session cfg request (user_email user) s) as Hsession.
  destruct (should_generate_image request) eqn:Hpath.
  - rewrite (chat_completion_image cfg P py_str gw request user s) by done.
    destruct (forward_handle_image_generation cfg P py_str gw request user Huser
                (after_user_turn cfg request (user_email user) s))
      as ((_ & Hs & _) & _).
    destruct (Hs _ _ Hsession) as [more Hmore]. exists more.
    by rewrite Hmore, <- app_assoc.
  - rewrite (chat_completion_text cfg P py_str gw request user s) by done.
    destruct (forward_text_path cfg P gw user request
                (after_user_turn cfg request (user_email user) s))
      as ((_ & Hs & _) & _).
    destruct (Hs _ _ Hsession) as [more Hmore]. exists more.
    by rewrite Hmore, <- app_assoc.
Qed.

(** X24 (src/main_dev.py, get_chat_history and chat_completion): histories
    are not scoped to an identity.  Any two signed-in sessions read the
    same history under a session id, and what one user's request appended
    under an id is in the history any other signed-in session reads. *)
Theorem history_is_shared gw request (reader : web_session) (author other : user)
    (sid : string) (s : state) :
  session_user (request_session request) = Some author →
  session_user reader = Some other →
  (check_demo_limits cfg (user_email author) s).1.1 = true →
  get_chat_history reader sid s = get_chat_history (request_session request) sid s
  ∧ ∃ before more,
      get_chat_history reader (session_id request) s = Ok before
      ∧ get_chat_history reader (session_id request)
          (chat_completion cfg P py_str gw request s).2
        = Ok (before ++ user_turn request :: more).
Proof.
  intros Hauthor Hreader Hallowed.
  unfold get_chat_history, require_auth, get_current_user.
  rewrite Hauthor, Hreader. simpl. split; [done|].
  destruct (allowed_request_session gw request author s Hauthor Hallowed) as [more Hmore].
  rewrite Hmore. exists (default [] (chat_sessions s !! session_id request)), more.
  split; [|done]. by destruct (chat_sessions s !! session_id request).
Qed.

(** X25 (src/main_dev.py, create_new_session and get_chat_history): a new
    session starts empty, whatever was filed under its id; the histories
    under the other ids are as before, and reading a history creates
    nothing: an id never used reads as the empty history. *)
Theorem new_session_is_empty (session : web_session) (user : user) (uuid : string)
    (s : state) :
  session_user session = Some user →
  let out := create_new_session session uuid s in
  out.1 = Ok uuid
  ∧ get_chat_history session uuid out.2 = Ok []
  ∧ (∀ sid, sid ≠ uuid →
       get_chat_history session sid out.2 = get_chat_history session sid s)
  ∧ (∀ sid, chat_sessions s !! sid = None → get_chat_history session sid s = Ok [])
  ∧ response_cache out.2 = response_cache s
  ∧ user_usage out.2 = user_usage s
  ∧ trace out.2 = trace s.
Proof.
  intros Huser. cbv zeta.
  unfold create_new_session, get_chat_history, require_auth, get_current_user.
  rewrite Huser. simpl. split_and!; try done.
  - by rewrite lookup_insert_eq.
  - intros sid Hsid. by rewrite lookup_insert_ne.
  - by intros sid ->.
Qed.

End Histories.

(** ** Uploads and prompts *)

Section Uploads.
Variable P : platform.

Lemma lower_ascii_dot c : Ascii.eqb (PyStr.lower_ascii c) "." = Ascii.eqb c ".".
Proof. by destruct c as [[] [] [] [] [] [] [] []]. Qed.

Lemma contains_dot_cons c s :
  PyStr.contains "." (String c s) = Ascii.eqb c "." || PyStr.contains "." s.
Proof.
  cbn [PyStr.contains String.prefix].
  destruct (ascii_dec "." c) as [<-|Hne]; simpl.
  - by destruct s.
  - by rewrite (proj2 (Ascii.eqb_neq _ _)) by congruence.
Qed.

(** A string without the separator is its own single field. *)
Lemma split_on_dot_absent s :
  PyStr.contains "." s = false → PyStr.split_on "." s = [s].
Proof.
  induction s as [|c s IH]; [done|].
  rewrite contains_dot_cons. intros [Hc Hs]%orb_false_elim.
  simpl. rewrite Hc, IH; done.
Qed.

Lemma contains_dot_lower s :
  PyStr.is_ascii s = true →
  PyStr.contains "." (PyStr.lower s) = PyStr.contains "." s.
Proof.
  induction s as [|c s IH]; [done|].
  cbn [PyStr.is_ascii]. intros [Hc Hs]%andb_prop.
  by rewrite lower_cons_ascii, !contains_dot_cons, lower_ascii_dot, IH.
Qed.

(** X26 (src/main_dev.py, process_file_content): the type of an upload is
    decided by what follows the last dot of its name, in lower case: for an
    ASCII suffix without dots the extension of a name that ends in a dot
    and the suffix is the suffix in lower case, whatever precedes the dot;
    such a suffix alone, as a name without a dot, is its own extension; and
    lower-casing the name beforehand does not change the extension. *)
Theorem file_type_is_the_last_extension (base ext : string) :
  PyStr.contains "." ext = false →
  PyStr.is_ascii ext = true →
  file_extension_of (base +:+ "." +:+ ext) = PyStr.lower ext
  ∧ file_extension_of ext = PyStr.lower ext
  ∧ file_extension_of (PyStr.lower (base +:+ "." +:+ ext))
    = file_extension_of (base +:+ "." +:+ ext).
Proof.
  intros Hdot Hascii.
  assert (PyStr.split_on "." (PyStr.lower ext) = [PyStr.lower ext]) as Hsplit.
  { apply split_on_dot_absent. by rewrite contains_dot_lower. }
  unfold file_extension_of. rewrite lower_idemp. split_and!; [|by rewrite Hsplit|done].
  change ("." +:+ ext) with (String "." ext).
  rewrite lower_app, (lower_cons_ascii "." ext) by done.
  by apply last_field_suffix.
Qed.

(** X27 (src/main_dev.py, process_file_content): in a process where
    neither PyPDF2 nor the office libraries were imported, every upload
    whose extension is not one of the text extensions is answered by the
    placeholder for an unsupported type, documents and images included;
    nothing is parsed and no error is reported. *)
Theorem without_libraries_only_text_is_read (file_data : list byte) (file_name : string) :
  PyPDF2 P = None → office P = None →
  str_in (file_extension_of file_name) text_extensions = false →
  process_file_content P file_data file_name
  = Ok ("[Unsupported file type: " +:+ file_extension_of file_name +:+ "]").
Proof.
  intros Hpdf Hoffice Htext.
  unfold process_file_content, PDF_AVAILABLE, IMAGE_AVAILABLE.
  rewrite Htext, Hpdf, Hoffice.
  rewrite !bool_decide_eq_false_2 by (by intros [? ?]).
  by rewrite !andb_false_r.
Qed.

(** The text of the pages, each under its marker, numbered from
    [page_num]. *)
Lemma pdf_pages_ok page_num (texts : list string) :
  pdf_pages page_num (map Ok texts)
  = Ok (concat (imap (fun i text =>
                        ["--- Page " +:+ PyStr.of_Z (page_num + Z.of_nat i) +:+ " ---"; text])
                     texts)).
Proof.
  revert page_num. induction texts as [|text texts IH]; intros page_num; [done|].
  cbn [map pdf_pages rbind]. rewrite IH, imap_cons. cbn [concat app rbind].
  rewrite Z.add_0_r. do 4 f_equal. apply imap_ext. intros i t _. simpl.
  do 4 f_equal. lia.
Qed.

(** The loop stops at the first page whose extraction raises. *)
Lemma pdf_pages_raise page_num (texts : list string) e rest :
  pdf_pages page_num (map Ok texts ++ Raise e :: rest) = Raise e.
Proof.
  revert page_num. induction texts as [|text texts IH]; intros page_num; [done|].
  cbn [map app pdf_pages rbind]. by rewrite IH.
Qed.

(** X28 (src/main_dev.py, process_file_content): for a name ending in
    [.pdf], with PyPDF2 imported and a document whose pages all yield their
    text, the result is the lines made of each page's marker, numbered from
    1 in page order, followed by the page's text; if a page raises, the
    pages before it are dropped with it and the result is the PDF error
    placeholder. *)
Theorem pdf_text_is_paged (file_data : list byte) (base : string)
    (PdfReader : list byte → pyresult (list (pyresult string)))
    (texts : list string) :
  PyPDF2 P = Some PdfReader →
  (PdfReader file_data = Ok (map Ok texts) →
   process_file_content P file_data (base +:+ ".pdf")
   = Ok (PyStr.join newline
           (concat (imap (fun i text =>
                            ["--- Page " +:+ PyStr.of_Z (1 + Z.of_nat i) +:+ " ---"; text])
                         texts))))
  ∧ (∀ e rest, PdfReader file_data = Ok (map Ok texts ++ Raise e :: rest) →
       process_file_content P file_data (base +:+ ".pdf")
       = Ok ("[PDF processing error: " +:+ exn_str e +:+ "]")).
Proof.
  intros Hlib.
  assert (∀ r, process_file_content P file_data (base +:+ ".pdf")
               = rcatch (rcatch (pages <- PdfReader file_data ;;
                                 text_content <- pdf_pages 1 pages ;;
                                 Ok (PyStr.join newline text_content))%py
                                (fun e => Ok ("[PDF processing error: " +:+ exn_str e +:+ "]")))
                        r) as Hrun.
  { intros r. unfold process_file_content. rewrite file_extension_pdf. simpl.
    unfold PDF_AVAILABLE. rewrite Hlib.
    rewrite bool_decide_eq_true_2 by by eexists. simpl.
    by destruct (PdfReader file_data) as [pages|e]; simpl;
      [destruct (pdf_pages 1 pages)|]. }
  split.
  - intros Hread. rewrite (Hrun (fun _ => Ok EmptyString)), Hread. simpl.
    by rewrite pdf_pages_ok.
  - intros e rest Hread. rewrite (Hrun (fun _ => Ok EmptyString)), Hread. simpl.
    by rewrite pdf_pages_raise.
Qed.

Lemma len_append a b : PyStr.len (a +:+ b) = (PyStr.len a + PyStr.len b)%nat.
Proof.
  induction a as [|c a IH]; [done|].
  change (String c a +:+ b) with (String c (a +:+ b)).
  cbn [PyStr.len]. rewrite IH. by destruct (PyStr.is_continuation c).
Qed.

Lemma len_take n s : (PyStr.len (PyStr.take n s) ≤ n)%nat.
Proof.
  revert n. induction s as [|c s IH]; intros n; cbn [PyStr.take PyStr.len]; [lia|].
  destruct (PyStr.is_continuation c) eqn:Hc.
  - cbn [PyStr.len]. rewrite Hc. apply IH.
  - destruct n as [|n]; cbn [PyStr.len]; [lia|]. rewrite Hc. specialize (IH n). lia.
Qed.

Lemma file_info_of_len fc fn :
  (PyStr.len (file_info_of P fc fn) ≤ PyStr.len fn + 4044)%nat.
Proof.
  unfold file_info_of.
  destruct (rbind _ _) as [file_text|e].
  - destruct (PyStr.truthy file_text).
    + destruct (Nat.ltb_spec max_file_chars (PyStr.len file_text)) as [Hlong|Hshort].
      * pose proof (len_take max_file_chars file_text) as Htake.
        generalize dependent (PyStr.take max_file_chars file_text). intros taken Htake.
        rewrite !len_append. unfold max_file_chars in *. simpl. lia.
      * rewrite !len_append. unfold max_file_chars in *. simpl. lia.
    + rewrite !len_append. simpl. lia.
  - rewrite !len_append. simpl. lia.
Qed.

(** X29 (src/main_dev.py, chat_completion and handle_image_generation):
    whatever the size of an upload, what it adds to the user content sent
    upstream is bounded: the content is at most the message, the file name
    and 4044 characters long; and what it adds to an image prompt is at
    most the file name and 1033 characters. *)
Theorem upload_is_truncated (request : chat_request) :
  (PyStr.len (user_content_of P request)
   ≤ PyStr.len (message request)
     + PyStr.len (default EmptyString (file_name request)) + 4044)%nat
  ∧ (PyStr.len (image_prompt_text P request)
     ≤ PyStr.len (generate_image_prompt (message request))
       + PyStr.len (default EmptyString (file_name request)) + 1033)%nat.
Proof.
  split.
  - unfold user_content_of.
    destruct (file_content request) as [fc|], (file_name request) as [fn|];
      simpl; try lia.
    destruct (PyStr.truthy fc && PyStr.truthy fn); [|lia].
    rewrite len_append. pose proof (file_info_of_len fc fn). lia.
  - unfold image_prompt_text.
    destruct (file_content request) as [fc|], (file_name request) as [fn|];
      cbn -[PyStr.take]; try lia.
    destruct (PyStr.truthy fc && PyStr.truthy fn); [|lia].
    destruct (rbind _ _) as [file_text|e]; [|lia].
    destruct (PyStr.truthy file_text); [|lia].
    pose proof (len_take 1000 file_text) as Htake.
    generalize dependent (PyStr.take 1000 file_text). intros taken Htake.
    rewrite !len_append. simpl. lia.
Qed.

(** X30 (src/main_dev.py, generate_image_prompt and
    is_image_generation_model): the prompt that [generate_image_prompt]
    returns always carries one of the image keywords, so enhancing it again
    changes nothing; and the case of a model name does not matter to
    [is_image_generation_model]. *)
Theorem image_prompt_is_enhanced_once (user_message model : string) :
  existsb (fun keyword =>
             PyStr.contains keyword (PyStr.lower (generate_image_prompt user_message)))
          image_keywords = true
  ∧ generate_image_prompt (generate_image_prompt user_message)
    = generate_image_prompt user_message
  ∧ is_image_generation_model (PyStr.lower model) = is_image_generation_model model.
Proof.
  assert (existsb (fun keyword =>
                     PyStr.contains keyword
                       (PyStr.lower (generate_image_prompt user_message)))
                  image_keywords = true) as Hkeyword.
  { unfold generate_image_prompt.
    destruct (existsb (fun keyword => PyStr.contains keyword (PyStr.lower user_message))
                      image_keywords) eqn:Hfound; [done|].
    rewrite lower_app_ascii by reflexivity. unfold image_keywords. cbn [existsb].
    apply orb_true_iff. right. apply orb_true_iff. right.
    apply orb_true_iff. right. apply orb_true_iff. right.
    apply orb_true_iff. right. apply orb_true_iff. left.
    apply (contains_app "image of" "create a high-quality, detailed "
                        (": " +:+ PyStr.lower user_message)). }
  split_and!; [done| |].
  - unfold generate_image_prompt at 1. by rewrite Hkeyword.
  - unfold is_image_generation_model. by rewrite lower_idemp.
Qed.

End Uploads.

(** ** v1.2.0 as a whole *)

Section V120Endpoint.
Variable P : platform.

(** What the [try] of v1.2.0 does to the sessions and the usage table. *)
Lemma v120_chat_try_sessions gw request key uc s turns :
  chat_sessions s !! session_id request = Some turns →
  let out := V120.chat_try gw request key uc s in
  user_usage out.2 = user_usage s
  ∧ match out.1 with
    | Ok (ContentPayload c _) =>
        chat_sessions out.2
        = <[session_id request := turns ++ [assistant_turn c]]> (chat_sessions s)
    | _ => True
    end.
Proof.
  intros Hsession. cbv zeta.
  unfold V120.chat_try, post, mbind, lift, mret, modify, gets, append_turn, error_payload.
  repeat (step; simpl; rewrite ?Hsession, ?cache_store_run; simpl).
  all: try done.
  all: match goal with H : Some _ = Some _ |- _ => by injection H as <- end.
Qed.

(** X22 (src/v1.2.0/main.py, chat_completion): in v1.2.0 a request with an
    identity is always answered by a payload.  With a reply, the reply is
    in the cache under the key of the request and the session gained the
    user's turn (the message, and the file name when a file content came
    with it) and the turn of role assistant whose content is the reply and
    whose file name is [None]; with an error, the cache is the one before
    the request and the session gained the user's turn alone.  No usage
    record is written: the release has no quota. *)
Theorem v120_request_outcome gw request user s :
  session_user (request_session request) = Some user →
  let out := V120.chat_completion P gw request s in
  let held := default [] (chat_sessions s !! session_id request) in
  user_usage out.2 = user_usage s
  ∧ match out.1 with
    | Ok (ContentPayload c fn) =>
        fn = file_name request
        ∧ PyDict.get (cache_key_of (model request) (message request) (file_name request))
                     (response_cache out.2) = Some c
        ∧ chat_sessions out.2 !! session_id request
          = Some (held
                    ++ [Turn User (JStr (message request))
                             (if opt_truthy (file_content request)
                              then file_name request else None)
                             None None;
                        Turn Assistant c None None None])
    | Ok (ErrorPayload _ fn) =>
        fn = file_name request
        ∧ response_cache out.2 = response_cache s
        ∧ chat_sessions out.2 !! session_id request
          = Some (held
                    ++ [Turn User (JStr (message request))
                             (if opt_truthy (file_content request)
                              then file_name request else None)
                             None None])
    | Ok (ImagePayload _ _) | Raise _ => False
    end.
Proof.
  intros Huser. cbv zeta.
  rewrite (v120_user_turn_appended P gw request user s Huser). cbv zeta.
  destruct (PyDict.get _ (response_cache s)) as [cached|] eqn:Hget; simpl.
  { split_and!; try done. by rewrite lookup_insert_eq. }
  set (s1 := set_chat_sessions
               (insert (session_id request)
                  (default [] (chat_sessions s !! session_id request)
                     ++ [V120.user_turn request])) s).
  assert (chat_sessions s1 !! session_id request
          = Some (default [] (chat_sessions s !! session_id request)
                    ++ [V120.user_turn request])) as Hsession
    by (simpl; by rewrite lookup_insert_eq).
  assert (user_usage s1 = user_usage s) as Hu1 by done.
  assert (response_cache s1 = response_cache s) as Hc1 by done.
  clearbody s1. rewrite <- Hc1 in Hget. rewrite <- Hu1, <- Hc1. clear Hu1 Hc1.
  unfold mbind, mcatch.
  destruct (v120_build_user_content_run P request s1) as (Hs2 & Hc2 & Hok).
  assert (user_usage (V120.build_user_content P request s1).2 = user_usage s1) as Hu2.
  { unfold V120.build_user_content, mbind, modify, mret. by repeat case_match. }
  destruct (V120.build_user_content P request s1) as [[uc|e] s2]; [|done].
  simpl in *. rewrite <- Hc2 in Hget. rewrite <- Hs2 in Hsession.
  rewrite <- Hu2, <- Hc2.
  pose proof (v120_chat_try_outcome gw request _ uc s2 Hget) as (_ & Hout).
  pose proof (v120_chat_try_sessions gw request
                (cache_key_of (model request) (message request) (file_name request))
                uc s2 _ Hsession) as (Hu3 & Hs3).
  cbv zeta in *.
  destruct (V120.chat_try gw request _ uc s2) as [[[err fn|c fn|c fn]|e] s3];
    simpl in *.
  - destruct Hout as (-> & Hs & Hc). split_and!; try done. by rewrite Hs.
  - destruct Hout as (-> & Hcached). split_and!; try done.
    rewrite Hs3, lookup_insert_eq. by rewrite <- app_assoc.
  - done.
  - destruct (text_path_except_error request e s3) as [text ->]. simpl.
    destruct Hout as (Hs & Hc). split_and!; try done. by rewrite Hs.
Qed.

End V120Endpoint.

(** ** The properties at concrete inputs *)

Lemma sessions_are_append_only_witness :
  ∃ more,
    chat_sessions
      (serve default_config Example.host Example.render
         [(Example.answers (Example.completion (JStr "Hi Bob")), Example.hello);
          (Example.down, Example.hello_again)]
         Scenario.greeted) !! "s1"
    = Some ([Turn User (JStr "Hi") None (Some false) None] ++ more).
Proof.
  apply (sessions_are_append_only default_config Example.host Example.render
           [(Example.answers (Example.completion (JStr "Hi Bob")), Example.hello);
            (Example.down, Example.hello_again)]
           Scenario.greeted "s1").
  reflexivity.
Defined.

Lemma denial_is_permanent_witness :
  (check_demo_limits default_config "bob@example.com"
     (serve default_config Example.host Example.render
        [(Example.answers (Example.completion (JStr "Hi Bob")), Example.hello);
         (Example.down, Scenario.paint)]
        Example.exhausted)).1.1 = false.
Proof.
  apply (denial_is_permanent default_config Example.host Example.render
           [(Example.answers (Example.completion (JStr "Hi Bob")), Example.hello);
            (Example.down, Scenario.paint)]
           Example.exhausted "bob@example.com").
  reflexivity.
Defined.

Lemma request_touches_own_counters_witness :
  let out := chat_completion default_config Example.host Example.render
               (Example.answers (Example.completion (JStr "Hi Bob")))
               Example.hello Scenario.over_tokens in
  (∀ email, email ≠ "bob@example.com" →
     usage_of out.2 email = usage_of Scenario.over_tokens email)
  ∧ ("bob@example.com" = ADMIN_EMAIL default_config →
     user_usage out.2 = user_usage Scenario.over_tokens).
Proof.
  apply (request_touches_own_counters default_config Example.host Example.render
           (Example.answers (Example.completion (JStr "Hi Bob")))
           Example.hello Example.bob Scenario.over_tokens).
  reflexivity.
Defined.

Lemma text_reply_is_recorded_witness :
  let out := chat_completion default_config Example.host Example.render
               (Example.answers (Example.completion (JStr "Hi Bob")))
               Example.hello Scenario.greeted in
  out.1 = Ok (ContentPayload (JStr "Hi Bob") None)
  ∧ get_chat_history (WebSession (Some Example.bob) None) "s1" out.2
    = Ok (default [] (chat_sessions Scenario.greeted !! "s1")
            ++ [Turn User (JStr "Hello") None (Some false) None;
                Turn Assistant (JStr "Hi Bob") None None None])
  ∧ PyDict.get (cache_key_of "gpt-4" "Hello" None) (response_cache out.2)
    = Some (JStr "Hi Bob")
  ∧ ("bob@example.com" ≠ ADMIN_EMAIL default_config →
       usage_of out.2 "bob@example.com"
       = Usage (request_count (usage_of Scenario.greeted "bob@example.com") + 1)
               (token_count (usage_of Scenario.greeted "bob@example.com")
                + (Z.of_nat (length (PyStr.split_ws "Hi Bob"))
                   + Z.of_nat (length (PyStr.split_ws
                                         (user_content_of Example.host Example.hello)))))).
Proof.
  apply (text_reply_is_recorded default_config Example.host Example.render
           (Example.answers (Example.completion (JStr "Hi Bob")))
           Example.hello Example.bob Scenario.greeted
           (HttpResponse 200 (Ok tt) (Ok (Example.completion (JStr "Hi Bob"))))
           [("choices", JList [JDict [("message", JDict [("content", JStr "Hi Bob")])]])]
           (JDict [("message", JDict [("content", JStr "Hi Bob")])]) []
           (JDict [("content", JStr "Hi Bob")]) "Hi Bob");
    try reflexivity; discriminate.
Defined.

Lemma status_code_is_not_read_witness :
  chat_completion default_config Example.host Example.render
    (Example.answers (Example.completion (JStr "Hi Bob"))) Example.hello initial_state
  = chat_completion default_config Example.host Example.render
      (Scenario.failing_with (Example.completion (JStr "Hi Bob")))
      Example.hello initial_state.
Proof.
  apply (status_code_is_not_read default_config Example.host Example.render
           (Example.answers (Example.completion (JStr "Hi Bob")))
           (Scenario.failing_with (Example.completion (JStr "Hi Bob")))
           Example.hello initial_state
           (HttpResponse 200 (Ok tt) (Ok (Example.completion (JStr "Hi Bob"))))
           (HttpResponse 500
              (Raise (Exn (HTTPStatusError 500 "Internal Server Error")
                          "Server error '500 Internal Server Error'"))
              (Ok (Example.completion (JStr "Hi Bob")))));
    try reflexivity.
  exists Example.bob. split_and!; reflexivity.
Defined.

Lemma equal_keys_share_replies_witness :
  let s1 := (chat_completion default_config Example.host Example.render
               (Example.answers (Example.completion (JStr "Hi Bob")))
               Scenario.colon_in_message initial_state).2 in
  let out := chat_completion default_config Example.bare_host Example.render
               Example.down Scenario.colon_in_model s1 in
  out.1 = Ok (ContentPayload (JStr "Hi Bob") None)
  ∧ trace out.2 = trace s1
  ∧ (∀ name, cache_key_of ("gpt-4" +:+ ":" +:+ "mini") "Hello" name
             = cache_key_of "gpt-4" ("mini" +:+ ":" +:+ "Hello") name)
  ∧ cache_key_of "gpt-4" "Hello" (Some "no_file") = cache_key_of "gpt-4" "Hello" None
  ∧ cache_key_of "gpt-4" "Hello" (Some EmptyString) = cache_key_of "gpt-4" "Hello" None.
Proof.
  apply (equal_keys_share_replies default_config Example.host Example.bare_host
           Example.render
           (Example.answers (Example.completion (JStr "Hi Bob"))) Example.down
           Scenario.colon_in_message Scenario.colon_in_model initial_state
           (JStr "Hi Bob") None "gpt-4" "mini" "Hello");
    try reflexivity.
  - exists Example.bob. split_and!; reflexivity.
  - exists Example.bob. split_and!; reflexivity.
Defined.

Lemma image_request_outcome_witness :
  let out := chat_completion default_config Example.host Example.render
               Example.down Scenario.paint initial_state in
  response_cache out.2 = response_cache initial_state
  ∧ ∃ user reply (is_image : bool),
      session_user (request_session Scenario.paint) = Some user
      ∧ chat_sessions out.2 !! session_id Scenario.paint
        = Some (default [] (chat_sessions initial_state !! session_id Scenario.paint)
                  ++ [user_turn Scenario.paint;
                      Turn Assistant reply None None (Some is_image)])
      ∧ if is_image
        then out.1 = Ok (ImagePayload reply (file_name Scenario.paint))
             ∧ ∀ e, usage_of out.2 e
                    = usage_of (increment_usage default_config (user_email user) 100
                                  initial_state) e
        else out.1 = Ok (ErrorPayload reply (file_name Scenario.paint))
             ∧ ∀ e, usage_of out.2 e = usage_of initial_state e.
Proof.
  apply (image_request_outcome default_config Example.host Example.render
           Example.down Scenario.paint initial_state).
  exists Example.bob. split_and!; reflexivity.
Defined.

Lemma image_path_calls_witness :
  trace (chat_completion default_config Example.host Example.render
           (Scenario.without_images (Example.completion (JStr "A fox.")))
           Scenario.paint initial_state).2
  = trace initial_state ++ upload_events Scenario.paint
      ++ image_calls (Scenario.without_images (Example.completion (JStr "A fox.")))
           (model Scenario.paint) (image_prompt_text Example.host Scenario.paint).
Proof.
  apply (image_path_calls default_config Example.host Example.render
           (Scenario.without_images (Example.completion (JStr "A fox.")))
           Scenario.paint initial_state).
  exists Example.bob. split_and!; reflexivity.
Defined.

Lemma text_path_calls_gateway_once_witness :
  trace (chat_completion default_config Example.host Example.render
           Example.down Example.notes initial_state).2
  = trace initial_state ++ upload_events Example.notes
      ++ [EvGateway (ChatCompletions (model Example.notes)
                       (user_content_of Example.host Example.notes))].
Proof.
  apply (text_path_calls_gateway_once default_config Example.host Example.render
           Example.down Example.notes initial_state); [|reflexivity].
  exists Example.bob. split_and!; reflexivity.
Defined.

Lemma gateway_failure_is_reported_witness :
  let out := chat_completion default_config Example.host Example.render
               Example.down Example.hello Scenario.greeted in
  out.1 = (text_path_except Example.hello
             (Exn ConnectError "All connection attempts failed") initial_state).1
  ∧ (∃ text, out.1 = Ok (ErrorPayload (JStr text) (file_name Example.hello)))
  ∧ chat_sessions out.2 !! session_id Example.hello
    = Some (default [] (chat_sessions Scenario.greeted !! session_id Example.hello)
              ++ [user_turn Example.hello])
  ∧ response_cache out.2 = response_cache Scenario.greeted
  ∧ ∀ email, usage_of out.2 email = usage_of Scenario.greeted email.
Proof.
  apply (gateway_failure_is_reported default_config Example.host Example.render
           Example.down Example.hello Example.bob Scenario.greeted
           (Exn ConnectError "All connection attempts failed"));
    reflexivity.
Defined.

Lemma callback_signs_the_user_in_witness :
  let out := auth_callback default_config Scenario.google_up Scenario.returning
               Example.exhausted in
  let user := UserIdentity (JStr "7") "bob@example.com" (JStr "Bob") (JStr EmptyString)
                (is_admin_user default_config "bob@example.com")
                (usage_of Example.exhausted "bob@example.com") in
  out.1 = (RedirectResponse "/" 302, WebSession (Some user) None)
  ∧ require_auth out.1.2 = Ok user
  ∧ users out.2 = users Example.exhausted ++ [(JStr "7", user)]
  ∧ (user_is_admin user = true ↔ "bob@example.com" = ADMIN_EMAIL default_config)
  ∧ (∀ email, usage_of out.2 email = usage_of Example.exhausted email)
  ∧ chat_sessions out.2 = chat_sessions Example.exhausted
  ∧ response_cache out.2 = response_cache Example.exhausted
  ∧ trace out.2 = trace Example.exhausted.
Proof.
  apply (callback_signs_the_user_in default_config Scenario.google_up Scenario.returning
           Example.exhausted "4/0AX4XfWh" (JDict [("access_token", JStr "ya29.a0")])
           (JStr "ya29.a0") Scenario.bobs_profile);
    try reflexivity; discriminate.
Defined.

Lemma failed_exchange_signs_nobody_in_witness :
  auth_callback default_config Example.google_down Scenario.returning initial_state
  = ((RedirectResponse "/login?error=auth_failed" 302,
      callback_session Scenario.returning), initial_state).
Proof.
  apply (failed_exchange_signs_nobody_in default_config Example.google_down
           Scenario.returning initial_state "4/0AX4XfWh"
           (Exn ConnectError "All connection attempts failed"));
    try reflexivity; discriminate.
Defined.

Lemma state_is_single_use_witness :
  let out := auth_callback default_config Scenario.google_up Scenario.returning
               initial_state in
  auth_callback default_config Scenario.google_up
    (CallbackRequest (query_code Scenario.returning) (query_state Scenario.returning)
                     out.1.2) out.2
  = ((RedirectResponse "/login?error=invalid_state" 302, out.1.2), out.2).
Proof.
  apply (state_is_single_use default_config Scenario.google_up Scenario.returning
           initial_state).
  - by eexists.
  - reflexivity.
Defined.

Lemma callback_refusals_are_shown_witness :
  let out := auth_callback default_config Scenario.google_odd Scenario.returning
               initial_state in
  url out.1.1 = "/login?error=auth_failed"
  ∧ (∃ user, require_auth out.1.2 = Ok user ∧ user_id user = JList [JInt 7]
             ∧ user_email user = "bob@example.com")
  ∧ login_page out.1.2 (Some "auth_failed") None
    = PageRedirect (RedirectResponse "/" 302).
Proof.
  apply (proj2 (proj2 (callback_refusals_are_shown default_config Scenario.google_odd
                         Scenario.returning initial_state))
           "4/0AX4XfWh" (JDict [("access_token", JStr "ya29.a0")])
           (JStr "ya29.a0") Scenario.odd_profile);
    try reflexivity; discriminate.
Defined.

Lemma logout_closes_the_endpoints_witness :
  let session' := (logout (WebSession (Some Example.bob) None)).2 in
  let denied {A} : pyresult A :=
    Raise (Exn (HTTPException 401) "Authentication required") in
  chat_completion default_config Example.host Example.render Example.down
    Scenario.anonymous Scenario.greeted = (denied, Scenario.greeted)
  ∧ create_new_session session' "u-1" Scenario.greeted = (denied, Scenario.greeted)
  ∧ get_chat_history session' "s1" Scenario.greeted = denied
  ∧ get_usage default_config session' = denied
  ∧ get_models (Example.down (ChatCompletions "gpt-4" "Hello")) session' = denied
  ∧ chat_page session' = PageRedirect (RedirectResponse "/login" 302)
  ∧ (∃ shown, login_page session' None None = LoginPage shown)
  ∧ url (logout (WebSession (Some Example.bob) None)).1 = "/login".
Proof.
  apply (logout_closes_the_endpoints default_config Example.host Example.render
           Example.down (Example.down (ChatCompletions "gpt-4" "Hello"))
           (WebSession (Some Example.bob) None) Scenario.anonymous "s1" "u-1"
           None None Scenario.greeted).
  reflexivity.
Defined.

Lemma token_ceiling_is_not_reported_witness :
  (∃ rc tc rl tl,
     get_usage default_config (WebSession (Some Scenario.carol) None)
     = Ok (Limited rc tc rl tl false))
  ∧ (check_demo_limits default_config "carol@example.com" Scenario.over_tokens).1
    = (false, token_limit_message default_config).
Proof.
  apply (token_ceiling_is_not_reported default_config Scenario.carol Scenario.over_tokens);
    try reflexivity; first [discriminate | simpl; lia].
Defined.

Lemma v120_request_outcome_witness :
  let out := V120.chat_completion Example.host
               (Example.answers (Example.completion (JList [JStr "Hi"])))
               Example.hello Scenario.greeted in
  let held := default [] (chat_sessions Scenario.greeted !! session_id Example.hello) in
  user_usage out.2 = user_usage Scenario.greeted
  ∧ match out.1 with
    | Ok (ContentPayload c fn) =>
        fn = file_name Example.hello
        ∧ PyDict.get (cache_key_of (model Example.hello) (message Example.hello)
                        (file_name Example.hello))
                     (response_cache out.2) = Some c
        ∧ chat_sessions out.2 !! session_id Example.hello
          = Some (held
                    ++ [Turn User (JStr "Hello") None None None;
                        Turn Assistant c None None None])
    | Ok (ErrorPayload _ fn) =>
        fn = file_name Example.hello
        ∧ response_cache out.2 = response_cache Scenario.greeted
        ∧ chat_sessions out.2 !! session_id Example.hello
          = Some (held ++ [Turn User (JStr "Hello") None None None])
    | Ok (ImagePayload _ _) | Raise _ => False
    end.
Proof.
  apply (v120_request_outcome Example.host
           (Example.answers (Example.completion (JList [JStr "Hi"])))
           Example.hello Example.bob Scenario.greeted).
  reflexivity.
Defined.

Lemma served_reply_is_charged_witness :
  usage_of (chat_completion default_config Example.host Example.render
              (Example.answers (Example.completion (JStr "Voilà! 😅")))
              Example.notes initial_state).2 "bob@example.com"
  = Usage 1 9
  ∧ user_content_of Example.host Example.notes
    = "Summarise" +:+ newline +:+ newline
      +:+ "[Uploaded file: notes.txt (could not decode)]".
Proof.
  assert (takes_text_path default_config Example.notes initial_state) as Hpath
    by (exists Example.bob; split_and!; reflexivity).
  destruct (served_reply_is_charged default_config Example.host Example.render
              (Example.answers (Example.completion (JStr "Voilà! 😅")))
              Example.notes initial_state (JStr "Voilà! 😅") (Some "notes.txt")
              Hpath eq_refl eq_refl)
    as (user & text & Huser & Htext & Hcharge).
  rewrite Hcharge. injection Huser as <-. injection Htext as <-.
  split; reflexivity.
Defined.

Lemma history_is_shared_witness :
  get_chat_history (WebSession (Some Scenario.carol) None) "s1" Scenario.greeted
  = get_chat_history (request_session Example.hello) "s1" Scenario.greeted
  ∧ ∃ before more,
      get_chat_history (WebSession (Some Scenario.carol) None)
        (session_id Example.hello) Scenario.greeted = Ok before
      ∧ get_chat_history (WebSession (Some Scenario.carol) None)
          (session_id Example.hello)
          (chat_completion default_config Example.host Example.render Example.down
             Example.hello Scenario.greeted).2
        = Ok (before ++ user_turn Example.hello :: more).
Proof.
  apply (history_is_shared default_config Example.host Example.render Example.down
           Example.hello (WebSession (Some Scenario.carol) None)
           Example.bob Scenario.carol "s1" Scenario.greeted);
    reflexivity.
Defined.

Lemma new_session_is_empty_witness :
  let out := create_new_session (WebSession (Some Example.bob) None) "s1"
               Scenario.greeted in
  out.1 = Ok "s1"
  ∧ get_chat_history (WebSession (Some Example.bob) None) "s1" out.2 = Ok []
  ∧ (∀ sid, sid ≠ "s1" →
       get_chat_history (WebSession (Some Example.bob) None) sid out.2
       = get_chat_history (WebSession (Some Example.bob) None) sid Scenario.greeted)
  ∧ (∀ sid, chat_sessions Scenario.greeted !! sid = None →
       get_chat_history (WebSession (Some Example.bob) None) sid Scenario.greeted = Ok [])
  ∧ response_cache out.2 = response_cache Scenario.greeted
  ∧ user_usage out.2 = user_usage Scenario.greeted
  ∧ trace out.2 = trace Scenario.greeted.
Proof.
  apply (new_session_is_empty (WebSession (Some Example.bob) None) Example.bob "s1"
           Scenario.greeted).
  reflexivity.
Defined.

Lemma file_type_is_the_last_extension_witness :
  file_extension_of ("report.final" +:+ "." +:+ "PDF") = PyStr.lower "PDF"
  ∧ file_extension_of "PDF" = PyStr.lower "PDF"
  ∧ file_extension_of (PyStr.lower ("report.final" +:+ "." +:+ "PDF"))
    = file_extension_of ("report.final" +:+ "." +:+ "PDF").
Proof.
  apply (file_type_is_the_last_extension "report.final" "PDF"); reflexivity.
Defined.

Lemma without_libraries_only_text_is_read_witness :
  process_file_content Example.bare_host [] "scan.PDF"
  = Ok ("[Unsupported file type: " +:+ file_extension_of "scan.PDF" +:+ "]").
Proof.
  apply (without_libraries_only_text_is_read Example.bare_host [] "scan.PDF");
    reflexivity.
Defined.

Lemma pdf_text_is_paged_witness :
  (Scenario.two_pages [] = Ok (map Ok ["Title"; "Body"]) →
   process_file_content Scenario.pdf_host [] ("paper" +:+ ".pdf")
   = Ok (PyStr.join newline
           (concat (imap (fun i text =>
                            ["--- Page " +:+ PyStr.of_Z (1 + Z.of_nat i) +:+ " ---"; text])
                         ["Title"; "Body"]))))
  ∧ (∀ e rest, Scenario.two_pages [] = Ok (map Ok ["Title"; "Body"] ++ Raise e :: rest) →
       process_file_content Scenario.pdf_host [] ("paper" +:+ ".pdf")
       = Ok ("[PDF processing error: " +:+ exn_str e +:+ "]")).
Proof.
  apply (pdf_text_is_paged Scenario.pdf_host [] "paper" Scenario.two_pages
           ["Title"; "Body"]).
  reflexivity.
Defined.
